(** * PPP session engine of OpenConnect (ppp.c): a shallow embedding

    The development follows src/ppp.c top to bottom: the HDLC byte
    stuffing, the TLV helpers, the configuration packet handlers and the
    mainloop.  Bytes are integers in [0, 256), machine integers are [Z] with
    the truncations of the C code written out, buffers are lists of bytes,
    and the [openconnect_info] / [oc_ppp] structures are records that are
    passed through every function explicitly. *)

From Stdlib Require Import ZArith List Bool Lia String.
Import ListNotations.
Open Scope Z_scope.

(** ** Machine integers and byte buffers *)

Definition u8 (x : Z) : Z := Z.land x 0xff.
Definition u16 (x : Z) : Z := Z.land x 0xffff.
Definition u32 (x : Z) : Z := Z.land x 0xffffffff.

(** [p[i]] through an [unsigned char *]: a value in [0, 256) whatever the
    list holds; the model reads 0 outside the list. *)
Definition byte_at (l : list Z) (i : Z) : Z := u8 (nth (Z.to_nat i) l 0).

(** [p + n] on a buffer. *)
Definition advance (l : list Z) (n : Z) : list Z := skipn (Z.to_nat n) l.

(** Modelled from the spec: the big-endian load/store helpers of
    openconnect-internal.h, which is not among the sources ("Emission
    helpers serialize big-endian u16 and u32 values"). *)
Definition load_be16 (l : list Z) (off : Z) : Z :=
  Z.lor (Z.shiftl (byte_at l off) 8) (byte_at l (off + 1)).

Definition load_be32 (l : list Z) (off : Z) : Z :=
  Z.lor (Z.shiftl (load_be16 l off) 16) (load_be16 l (off + 2)).

Definition store_be16 (x : Z) : list Z := [u8 (Z.shiftr x 8); u8 x].

Definition store_be32 (x : Z) : list Z :=
  [u8 (Z.shiftr x 24); u8 (Z.shiftr x 16); u8 (Z.shiftr x 8); u8 x].

(** Modelled from the spec: the text buffer of openconnect-internal.h
    ([struct oc_text_buf], [buf_append_bytes]), which is not among the
    sources.  A buffer is the list of the bytes appended so far;
    [buf_append_bytes buf src len] emits the first [len] bytes of [src].
    Allocation is taken to succeed. *)
Definition oc_text_buf := list Z.

Definition buf_append_bytes (buf : oc_text_buf) (src : list Z) (len : Z) : oc_text_buf :=
  buf ++ firstn (Z.to_nat len) src.

(** ** Protocol numbers and codes *)

Definition PPP_LCP : Z := 0xc021.
Definition PPP_IPCP : Z := 0x8021.
Definition PPP_IP6CP : Z := 0x8057.
Definition PPP_IP : Z := 0x21.
Definition PPP_IP6 : Z := 0x57.

Definition CONFREQ : Z := 1.
Definition CONFACK : Z := 2.
Definition CONFNAK : Z := 3.
Definition CONFREJ : Z := 4.
Definition TERMREQ : Z := 5.
Definition TERMACK : Z := 6.
Definition CODEREJ : Z := 7.
Definition PROTREJ : Z := 8.
Definition ECHOREQ : Z := 9.
Definition ECHOREP : Z := 10.
Definition DISCREQ : Z := 11.

Definition ASYNCMAP_LCP : Z := 0xffffffff.

Definition EINVAL : Z := 22.

(** ** HDLC byte stuffing *)

(** The macro, operator for operator: [map && (1UL << c)] is the logical
    conjunction of two integers. *)
Definition NEED_ESCAPE (c map : Z) : bool :=
  ((c <? 0x20) && (negb (map =? 0) && negb (Z.shiftl 1 c =? 0)))
  || (c =? 0x7d) || (c =? 0x7e).

(** The [for] loop of [buf_append_ppphdlc]; [n] counts the iterations that
    remain ([len - i]), [s] is the start of the pending unescaped run. *)
Fixpoint ppphdlc_loop (n : nat) (data : list Z) (asyncmap : Z) (i s : Z)
    (buf : oc_text_buf) : oc_text_buf :=
  match n with
  | O => buf
  | S n' =>
    if NEED_ESCAPE (byte_at data i) asyncmap then
      let buf1 := if i >? s then buf_append_bytes buf (advance data s) (i - s - 1)
                  else buf in
      let esc := [0x7d; Z.lxor (byte_at data i) 0x20] in
      let buf2 := buf_append_bytes buf1 esc 2 in
      ppphdlc_loop n' data asyncmap (i + 1) (i + 1) buf2
    else
      ppphdlc_loop n' data asyncmap (i + 1) s buf
  end.

Definition buf_append_ppphdlc (buf : oc_text_buf) (bytes : list Z) (len : Z)
    (asyncmap : Z) : oc_text_buf :=
  ppphdlc_loop (Z.to_nat len) bytes asyncmap 0 0 buf.

(** The byte stuffing the specification describes, kept apart from the code
    for comparison: bit [c] of the asyncmap decides for a control
    character, and every unescaped byte is emitted. *)
Definition spec_need_escape (c map : Z) : bool :=
  ((c <? 0x20) && Z.testbit map c) || (c =? 0x7d) || (c =? 0x7e).

Fixpoint spec_hdlc_escape (bytes : list Z) (map : Z) : list Z :=
  match bytes with
  | [] => []
  | c :: rest =>
    if spec_need_escape c map
    then 0x7d :: Z.lxor c 0x20 :: spec_hdlc_escape rest map
    else c :: spec_hdlc_escape rest map
  end.

(** ** Session state *)

Definition ACCOMP : Z := 1.
Definition PFCOMP : Z := 2.
Definition VJCOMP : Z := 4.

Definition PPPS_DEAD : Z := 0.
Definition PPPS_ESTABLISH : Z := 1.
Definition PPPS_OPENED : Z := 2.
Definition PPPS_AUTHENTICATE : Z := 3.
Definition PPPS_NETWORK : Z := 4.
Definition PPPS_TERMINATE : Z := 5.

Definition NCP_CONF_REQ_RECEIVED : Z := 1.
Definition NCP_CONF_REQ_SENT : Z := 2.
Definition NCP_CONF_ACK_RECEIVED : Z := 4.
Definition NCP_CONF_ACK_SENT : Z := 8.
Definition NCP_TERM_REQ_SENT : Z := 16.
Definition NCP_TERM_REQ_RECEIVED : Z := 32.
Definition NCP_TERM_ACK_SENT : Z := 16.
Definition NCP_TERM_ACK_RECEIVED : Z := 32.

(** Modelled from the spec: the encapsulation constants of
    openconnect-internal.h, which is not among the sources ("encap: enum
    { F5, F5_HDLC }"); the numbering is the one [encap_names[encap-1]]
    indexes with. *)
Definition PPP_ENCAP_F5 : Z := 1.
Definition PPP_ENCAP_F5_HDLC : Z := 2.

(** [x & flag] used as a C condition. *)
Definition flag_set (x flag : Z) : bool := negb (Z.land x flag =? 0).

Record oc_ncp := mk_ncp {
  state : Z;
  id : Z;
  last_req : Z
}.

Record oc_ppp := mk_ppp {
  encap : Z;
  encap_len : Z;
  hdlc : bool;
  want_ipv4 : bool;
  want_ipv6 : bool;
  ppp_state : Z;
  lcp : oc_ncp;
  ipcp : oc_ncp;
  ip6cp : oc_ncp;
  (* Outgoing options *)
  out_asyncmap : Z;
  out_lcp_opts : Z;
  out_lcp_magic : Z;            (* the four bytes on the wire, as a big-endian number *)
  out_peer_addr : list Z;       (* four bytes *)
  out_ipv6_int_ident : list Z;  (* eight bytes *)
  util_id : Z;
  (* Incoming options *)
  exp_ppp_hdr_size : Z;
  in_asyncmap : Z;
  in_lcp_opts : Z;
  in_lcp_magic : Z;             (* the four bytes on the wire, as a big-endian number *)
  in_peer_addr : list Z;
  in_ipv6_int_ident : list Z
}.

(** [struct pkt]: the payload [data] of [len] bytes, the header bytes
    [hdr] written into the headroom in front of it (the [hlen] bytes that
    end at [data]), and the protocol stashed for control packets. *)
Record pkt := mk_pkt {
  pkt_proto : Z;
  pkt_hlen : Z;
  pkt_len : Z;
  pkt_hdr : list Z;
  pkt_data : list Z
}.

Inductive reason : Type :=
| ReasonText (s : string)          (* a string literal of ppp.c *)
| ReasonBytes (b : list Z).        (* bytes duplicated from a packet *)

(** The part of [struct openconnect_info] that ppp.c touches.  The two
    address strings of [ip_info] are kept in parsed form ([inet_addr] and
    [inet_pton] belong to the C library). *)
Record openconnect_info := mk_info {
  ppp : oc_ppp;
  ip_info_mtu : Z;
  ip_info_addr : option (list Z);     (* four bytes when set *)
  ip_info_addr6 : option (list Z);    (* sixteen bytes when set *)
  quit_reason : option reason;
  tcp_control_queue : list pkt;
  incoming_queue : list pkt;
  outgoing_queue : list pkt;
  current_ssl_pkt : option pkt;
  last_rx : Z;
  last_tx : Z;
  dtls_connected : bool;
  ssl_fd : Z
}.

(** *** Field updates *)

Definition set_state (n : oc_ncp) (x : Z) : oc_ncp :=
  mk_ncp x (id n) (last_req n).
Definition set_last_req (n : oc_ncp) (x : Z) : oc_ncp :=
  mk_ncp (state n) (id n) x.

Definition set_ppp_state (p : oc_ppp) (x : Z) : oc_ppp :=
  mk_ppp (encap p) (encap_len p) (hdlc p) (want_ipv4 p) (want_ipv6 p) x
    (lcp p) (ipcp p) (ip6cp p) (out_asyncmap p) (out_lcp_opts p) (out_lcp_magic p)
    (out_peer_addr p) (out_ipv6_int_ident p) (util_id p) (exp_ppp_hdr_size p)
    (in_asyncmap p) (in_lcp_opts p) (in_lcp_magic p) (in_peer_addr p)
    (in_ipv6_int_ident p).
Definition set_lcp (p : oc_ppp) (x : oc_ncp) : oc_ppp :=
  mk_ppp (encap p) (encap_len p) (hdlc p) (want_ipv4 p) (want_ipv6 p) (ppp_state p)
    x (ipcp p) (ip6cp p) (out_asyncmap p) (out_lcp_opts p) (out_lcp_magic p)
    (out_peer_addr p) (out_ipv6_int_ident p) (util_id p) (exp_ppp_hdr_size p)
    (in_asyncmap p) (in_lcp_opts p) (in_lcp_magic p) (in_peer_addr p)
    (in_ipv6_int_ident p).
Definition set_ipcp (p : oc_ppp) (x : oc_ncp) : oc_ppp :=
  mk_ppp (encap p) (encap_len p) (hdlc p) (want_ipv4 p) (want_ipv6 p) (ppp_state p)
    (lcp p) x (ip6cp p) (out_asyncmap p) (out_lcp_opts p) (out_lcp_magic p)
    (out_peer_addr p) (out_ipv6_int_ident p) (util_id p) (exp_ppp_hdr_size p)
    (in_asyncmap p) (in_lcp_opts p) (in_lcp_magic p) (in_peer_addr p)
    (in_ipv6_int_ident p).
Definition set_ip6cp (p : oc_ppp) (x : oc_ncp) : oc_ppp :=
  mk_ppp (encap p) (encap_len p) (hdlc p) (want_ipv4 p) (want_ipv6 p) (ppp_state p)
    (lcp p) (ipcp p) x (out_asyncmap p) (out_lcp_opts p) (out_lcp_magic p)
    (out_peer_addr p) (out_ipv6_int_ident p) (util_id p) (exp_ppp_hdr_size p)
    (in_asyncmap p) (in_lcp_opts p) (in_lcp_magic p) (in_peer_addr p)
    (in_ipv6_int_ident p).
Definition set_out_asyncmap (p : oc_ppp) (x : Z) : oc_ppp :=
  mk_ppp (encap p) (encap_len p) (hdlc p) (want_ipv4 p) (want_ipv6 p) (ppp_state p)
    (lcp p) (ipcp p) (ip6cp p) x (out_lcp_opts p) (out_lcp_magic p)
    (out_peer_addr p) (out_ipv6_int_ident p) (util_id p) (exp_ppp_hdr_size p)
    (in_asyncmap p) (in_lcp_opts p) (in_lcp_magic p) (in_peer_addr p)
    (in_ipv6_int_ident p).
Definition set_out_lcp_opts (p : oc_ppp) (x : Z) : oc_ppp :=
  mk_ppp (encap p) (encap_len p) (hdlc p) (want_ipv4 p) (want_ipv6 p) (ppp_state p)
    (lcp p) (ipcp p) (ip6cp p) (out_asyncmap p) x (out_lcp_magic p)
    (out_peer_addr p) (out_ipv6_int_ident p) (util_id p) (exp_ppp_hdr_size p)
    (in_asyncmap p) (in_lcp_opts p) (in_lcp_magic p) (in_peer_addr p)
    (in_ipv6_int_ident p).
Definition set_out_lcp_magic (p : oc_ppp) (x : Z) : oc_ppp :=
  mk_ppp (encap p) (encap_len p) (hdlc p) (want_ipv4 p) (want_ipv6 p) (ppp_state p)
    (lcp p) (ipcp p) (ip6cp p) (out_asyncmap p) (out_lcp_opts p) x
    (out_peer_addr p) (out_ipv6_int_ident p) (util_id p) (exp_ppp_hdr_size p)
    (in_asyncmap p) (in_lcp_opts p) (in_lcp_magic p) (in_peer_addr p)
    (in_ipv6_int_ident p).
Definition set_out_peer_addr (p : oc_ppp) (x : list Z) : oc_ppp :=
  mk_ppp (encap p) (encap_len p) (hdlc p) (want_ipv4 p) (want_ipv6 p) (ppp_state p)
    (lcp p) (ipcp p) (ip6cp p) (out_asyncmap p) (out_lcp_opts p) (out_lcp_magic p)
    x (out_ipv6_int_ident p) (util_id p) (exp_ppp_hdr_size p)
    (in_asyncmap p) (in_lcp_opts p) (in_lcp_magic p) (in_peer_addr p)
    (in_ipv6_int_ident p).
Definition set_out_ipv6_int_ident (p : oc_ppp) (x : list Z) : oc_ppp :=
  mk_ppp (encap p) (encap_len p) (hdlc p) (want_ipv4 p) (want_ipv6 p) (ppp_state p)
    (lcp p) (ipcp p) (ip6cp p) (out_asyncmap p) (out_lcp_opts p) (out_lcp_magic p)
    (out_peer_addr p) x (util_id p) (exp_ppp_hdr_size p)
    (in_asyncmap p) (in_lcp_opts p) (in_lcp_magic p) (in_peer_addr p)
    (in_ipv6_int_ident p).
Definition set_util_id (p : oc_ppp) (x : Z) : oc_ppp :=
  mk_ppp (encap p) (encap_len p) (hdlc p) (want_ipv4 p) (want_ipv6 p) (ppp_state p)
    (lcp p) (ipcp p) (ip6cp p) (out_asyncmap p) (out_lcp_opts p) (out_lcp_magic p)
    (out_peer_addr p) (out_ipv6_int_ident p) x (exp_ppp_hdr_size p)
    (in_asyncmap p) (in_lcp_opts p) (in_lcp_magic p) (in_peer_addr p)
    (in_ipv6_int_ident p).
Definition set_exp_ppp_hdr_size (p : oc_ppp) (x : Z) : oc_ppp :=
  mk_ppp (encap p) (encap_len p) (hdlc p) (want_ipv4 p) (want_ipv6 p) (ppp_state p)
    (lcp p) (ipcp p) (ip6cp p) (out_asyncmap p) (out_lcp_opts p) (out_lcp_magic p)
    (out_peer_addr p) (out_ipv6_int_ident p) (util_id p) x
    (in_asyncmap p) (in_lcp_opts p) (in_lcp_magic p) (in_peer_addr p)
    (in_ipv6_int_ident p).
Definition set_in_asyncmap (p : oc_ppp) (x : Z) : oc_ppp :=
  mk_ppp (encap p) (encap_len p) (hdlc p) (want_ipv4 p) (want_ipv6 p) (ppp_state p)
    (lcp p) (ipcp p) (ip6cp p) (out_asyncmap p) (out_lcp_opts p) (out_lcp_magic p)
    (out_peer_addr p) (out_ipv6_int_ident p) (util_id p) (exp_ppp_hdr_size p)
    x (in_lcp_opts p) (in_lcp_magic p) (in_peer_addr p)
    (in_ipv6_int_ident p).
Definition set_in_lcp_opts (p : oc_ppp) (x : Z) : oc_ppp :=
  mk_ppp (encap p) (encap_len p) (hdlc p) (want_ipv4 p) (want_ipv6 p) (ppp_state p)
    (lcp p) (ipcp p) (ip6cp p) (out_asyncmap p) (out_lcp_opts p) (out_lcp_magic p)
    (out_peer_addr p) (out_ipv6_int_ident p) (util_id p) (exp_ppp_hdr_size p)
    (in_asyncmap p) x (in_lcp_magic p) (in_peer_addr p)
    (in_ipv6_int_ident p).
Definition set_in_lcp_magic (p : oc_ppp) (x : Z) : oc_ppp :=
  mk_ppp (encap p) (encap_len p) (hdlc p) (want_ipv4 p) (want_ipv6 p) (ppp_state p)
    (lcp p) (ipcp p) (ip6cp p) (out_asyncmap p) (out_lcp_opts p) (out_lcp_magic p)
    (out_peer_addr p) (out_ipv6_int_ident p) (util_id p) (exp_ppp_hdr_size p)
    (in_asyncmap p) (in_lcp_opts p) x (in_peer_addr p)
    (in_ipv6_int_ident p).
Definition set_in_peer_addr (p : oc_ppp) (x : list Z) : oc_ppp :=
  mk_ppp (encap p) (encap_len p) (hdlc p) (want_ipv4 p) (want_ipv6 p) (ppp_state p)
    (lcp p) (ipcp p) (ip6cp p) (out_asyncmap p) (out_lcp_opts p) (out_lcp_magic p)
    (out_peer_addr p) (out_ipv6_int_ident p) (util_id p) (exp_ppp_hdr_size p)
    (in_asyncmap p) (in_lcp_opts p) (in_lcp_magic p) x
    (in_ipv6_int_ident p).
Definition set_in_ipv6_int_ident (p : oc_ppp) (x : list Z) : oc_ppp :=
  mk_ppp (encap p) (encap_len p) (hdlc p) (want_ipv4 p) (want_ipv6 p) (ppp_state p)
    (lcp p) (ipcp p) (ip6cp p) (out_asyncmap p) (out_lcp_opts p) (out_lcp_magic p)
    (out_peer_addr p) (out_ipv6_int_ident p) (util_id p) (exp_ppp_hdr_size p)
    (in_asyncmap p) (in_lcp_opts p) (in_lcp_magic p) (in_peer_addr p)
    x.

Definition set_ppp (v : openconnect_info) (x : oc_ppp) : openconnect_info :=
  mk_info x (ip_info_mtu v) (ip_info_addr v) (ip_info_addr6 v) (quit_reason v)
    (tcp_control_queue v) (incoming_queue v) (outgoing_queue v) (current_ssl_pkt v)
    (last_rx v) (last_tx v) (dtls_connected v) (ssl_fd v).
Definition set_mtu (v : openconnect_info) (x : Z) : openconnect_info :=
  mk_info (ppp v) x (ip_info_addr v) (ip_info_addr6 v) (quit_reason v)
    (tcp_control_queue v) (incoming_queue v) (outgoing_queue v) (current_ssl_pkt v)
    (last_rx v) (last_tx v) (dtls_connected v) (ssl_fd v).
Definition set_quit_reason (v : openconnect_info) (x : option reason) : openconnect_info :=
  mk_info (ppp v) (ip_info_mtu v) (ip_info_addr v) (ip_info_addr6 v) x
    (tcp_control_queue v) (incoming_queue v) (outgoing_queue v) (current_ssl_pkt v)
    (last_rx v) (last_tx v) (dtls_connected v) (ssl_fd v).
Definition set_tcp_control_queue (v : openconnect_info) (x : list pkt) : openconnect_info :=
  mk_info (ppp v) (ip_info_mtu v) (ip_info_addr v) (ip_info_addr6 v) (quit_reason v)
    x (incoming_queue v) (outgoing_queue v) (current_ssl_pkt v)
    (last_rx v) (last_tx v) (dtls_connected v) (ssl_fd v).
Definition set_incoming_queue (v : openconnect_info) (x : list pkt) : openconnect_info :=
  mk_info (ppp v) (ip_info_mtu v) (ip_info_addr v) (ip_info_addr6 v) (quit_reason v)
    (tcp_control_queue v) x (outgoing_queue v) (current_ssl_pkt v)
    (last_rx v) (last_tx v) (dtls_connected v) (ssl_fd v).
Definition set_outgoing_queue (v : openconnect_info) (x : list pkt) : openconnect_info :=
  mk_info (ppp v) (ip_info_mtu v) (ip_info_addr v) (ip_info_addr6 v) (quit_reason v)
    (tcp_control_queue v) (incoming_queue v) x (current_ssl_pkt v)
    (last_rx v) (last_tx v) (dtls_connected v) (ssl_fd v).
Definition set_current_ssl_pkt (v : openconnect_info) (x : option pkt) : openconnect_info :=
  mk_info (ppp v) (ip_info_mtu v) (ip_info_addr v) (ip_info_addr6 v) (quit_reason v)
    (tcp_control_queue v) (incoming_queue v) (outgoing_queue v) x
    (last_rx v) (last_tx v) (dtls_connected v) (ssl_fd v).
Definition set_last_rx (v : openconnect_info) (x : Z) : openconnect_info :=
  mk_info (ppp v) (ip_info_mtu v) (ip_info_addr v) (ip_info_addr6 v) (quit_reason v)
    (tcp_control_queue v) (incoming_queue v) (outgoing_queue v) (current_ssl_pkt v)
    x (last_tx v) (dtls_connected v) (ssl_fd v).
Definition set_last_tx (v : openconnect_info) (x : Z) : openconnect_info :=
  mk_info (ppp v) (ip_info_mtu v) (ip_info_addr v) (ip_info_addr6 v) (quit_reason v)
    (tcp_control_queue v) (incoming_queue v) (outgoing_queue v) (current_ssl_pkt v)
    (last_rx v) x (dtls_connected v) (ssl_fd v).

(** [ppp->field = x] through the [vpninfo] pointer. *)
Definition upd_ppp (f : oc_ppp -> oc_ppp) (v : openconnect_info) : openconnect_info :=
  set_ppp v (f (ppp v)).

(** ** Session creation *)

(** [calloc] zeroes the structure (the address fields are zeroed byte
    arrays); the [switch] sets [encap_len] for F5 and [hdlc] for F5 HDLC and
    leaves both at zero for any other value. *)
Definition openconnect_ppp_new (encap_ : Z) (want_ipv4_ want_ipv6_ : bool) : oc_ppp :=
  mk_ppp encap_
    (if encap_ =? PPP_ENCAP_F5 then 4 else 0)
    (if encap_ =? PPP_ENCAP_F5 then false else encap_ =? PPP_ENCAP_F5_HDLC)
    want_ipv4_ want_ipv6_ 0 (mk_ncp 0 0 0) (mk_ncp 0 0 0) (mk_ncp 0 0 0)
    0 0 0 [0; 0; 0; 0] [0; 0; 0; 0; 0; 0; 0; 0] 0
    4 0 0 0 [0; 0; 0; 0] [0; 0; 0; 0; 0; 0; 0; 0].

(** ** TLV emission *)

(** The macro [buf_append_ppp]. *)
Definition buf_append_ppp (buf : oc_text_buf) (hdlc_ : bool) (bytes : list Z)
    (len : Z) (asyncmap : Z) : oc_text_buf :=
  if hdlc_ then buf_append_ppphdlc buf bytes len asyncmap
  else buf_append_bytes buf bytes len.

(** The C function also returns [b[1]], which no caller reads. *)
Definition buf_append_ppp_tlv (buf : oc_text_buf) (tag len : Z) (data : list Z)
    (hdlc_ : bool) (asyncmap : Z) : oc_text_buf :=
  let b := [u8 tag; u8 (len + 2)] in
  let buf1 := buf_append_ppp buf hdlc_ b 2 asyncmap in
  if len =? 0 then buf1 else buf_append_ppp buf1 hdlc_ data len asyncmap.

Definition buf_append_ppp_tlv_be16 (buf : oc_text_buf) (tag value : Z)
    (hdlc_ : bool) (asyncmap : Z) : oc_text_buf :=
  buf_append_ppp_tlv buf tag 2 (store_be16 (u16 value)) hdlc_ asyncmap.

Definition buf_append_ppp_tlv_be32 (buf : oc_text_buf) (tag value : Z)
    (hdlc_ : bool) (asyncmap : Z) : oc_text_buf :=
  buf_append_ppp_tlv buf tag 4 (store_be32 (u32 value)) hdlc_ asyncmap.

(** ** Configuration packets *)

(** [queue_packet]: append at the tail of a queue. *)
Definition queue_packet (q : list pkt) (p : pkt) : list pkt := q ++ [p].

(** [malloc] is taken to succeed, so the function returns 0; [hlen] is not
    written here (0 in the model) and no header byte exists yet.  The block
    that [malloc] returns has 64 data bytes and [memcpy] is not bounded, so
    this is the C function for [0 <= len <= 60] only; the code's own
    callers pass 0 or 4 or the bytes of a request, and for the one length
    that the peer chooses see [queue_config_packet_malloc]. *)
Definition queue_config_packet (v : openconnect_info) (proto id_ code len : Z)
    (payload : list Z) : Z * openconnect_info :=
  let p_len := 4 + len in
  let data := [u8 code; u8 id_] ++ store_be16 p_len
              ++ (if len =? 0 then [] else firstn (Z.to_nat len) payload) in
  let p := mk_pkt (u16 proto) 0 p_len [] data in
  (0, set_tcp_control_queue v (queue_packet (tcp_control_queue v) p)).

(** The macro [PROTO_TAG_LEN], as the 32-bit pattern of the [int] it builds. *)
Definition PROTO_TAG_LEN (p t l : Z) : Z :=
  u32 (Z.lor (Z.lor (Z.shiftl p 16) (Z.shiftl t 8)) l).

(** [ncp->state |= flag] for the NCP that [proto] selects; no NCP for
    another protocol. *)
Definition ncp_add_state (proto flag : Z) (p : oc_ppp) : oc_ppp :=
  if proto =? PPP_LCP then set_lcp p (set_state (lcp p) (Z.lor (state (lcp p)) flag))
  else if proto =? PPP_IPCP then set_ipcp p (set_state (ipcp p) (Z.lor (state (ipcp p)) flag))
  else if proto =? PPP_IP6CP then set_ip6cp p (set_state (ip6cp p) (Z.lor (state (ip6cp p)) flag))
  else p.

Definition known_ncp (proto : Z) : bool :=
  (proto =? PPP_LCP) || (proto =? PPP_IPCP) || (proto =? PPP_IP6CP).

(** The body of the option loop of [handle_config_request] for the option
    at offset [p] of [payload]: [Some] is a [break] out of the [switch],
    [None] is the jump to [unknown]. *)
Definition handle_option (v : openconnect_info) (proto : Z) (payload : list Z)
    (p : Z) : option openconnect_info :=
  let t := byte_at payload p in
  let l := byte_at payload (p + 1) in
  let key := PROTO_TAG_LEN proto t (l - 2) in
  if key =? PROTO_TAG_LEN PPP_LCP 1 2 then
    Some (set_mtu v (load_be16 payload (p + 2)))
  else if key =? PROTO_TAG_LEN PPP_LCP 2 4 then
    Some (upd_ppp (fun s => set_in_asyncmap s (load_be32 payload (p + 2))) v)
  else if key =? PROTO_TAG_LEN PPP_LCP 5 4 then
    Some (upd_ppp (fun s => set_in_lcp_magic s (load_be32 payload (p + 2))) v)
  else if key =? PROTO_TAG_LEN PPP_LCP 7 0 then
    Some (upd_ppp (fun s => set_in_lcp_opts s (Z.lor (in_lcp_opts s) PFCOMP)) v)
  else if key =? PROTO_TAG_LEN PPP_LCP 8 0 then
    Some (upd_ppp (fun s => set_in_lcp_opts s (Z.lor (in_lcp_opts s) ACCOMP)) v)
  else if key =? PROTO_TAG_LEN PPP_IPCP 2 2 then
    if load_be16 payload (p + 2) =? 0x002d then
      Some (upd_ppp (fun s => set_in_lcp_opts s (Z.lor (in_lcp_opts s) VJCOMP)) v)
    else None
  else if key =? PROTO_TAG_LEN PPP_IPCP 3 4 then
    Some (upd_ppp (fun s => set_in_peer_addr s (firstn 4 (advance payload (p + 2)))) v)
  else if key =? PROTO_TAG_LEN PPP_IP6CP 1 8 then
    Some (upd_ppp (fun s => set_in_ipv6_int_ident s (firstn 8 (advance payload (p + 2)))) v)
  else None.

(** How the option loop is left: its condition became false at cursor [p],
    or an option was unknown ([ret = -EINVAL; goto out]). *)
Inductive tlv_exit : Type :=
| TlvDone (v : openconnect_info) (p : Z)
| TlvUnknown (v : openconnect_info).

(** [for (p = payload; p+1 < payload+len && p+p[1] <= payload+len; p += p[1])]
    with one unit of [fuel] per iteration; [None] when the fuel runs out. *)
Fixpoint tlv_loop (fuel : nat) (v : openconnect_info) (proto : Z)
    (payload : list Z) (len p : Z) : option tlv_exit :=
  if (p + 1 <? len) && (p + byte_at payload (p + 1) <=? len) then
    match fuel with
    | O => None
    | S fuel' =>
      match handle_option v proto payload p with
      | None => Some (TlvUnknown v)
      | Some v' => tlv_loop fuel' v' proto payload len (p + byte_at payload (p + 1))
      end
    end
  else Some (TlvDone v p).

Definition handle_config_request_fuel (fuel : nat) (v : openconnect_info)
    (proto id_ : Z) (payload : list Z) (len : Z) : option (Z * openconnect_info) :=
  if negb (known_ncp proto) then Some (- EINVAL, v)
  else
    match tlv_loop fuel v proto payload len 0 with
    | None => None
    | Some (TlvUnknown v1) => Some (- EINVAL, v1)
    | Some (TlvDone v1 _) =>
      let v2 := upd_ppp (ncp_add_state proto NCP_CONF_REQ_RECEIVED) v1 in
      let (ret, v3) := queue_config_packet v2 proto id_ CONFACK len payload in
      if ret >=? 0 then Some (0, upd_ppp (ncp_add_state proto NCP_CONF_ACK_SENT) v3)
      else Some (ret, v3)
    end.

(** [handle_config_request] as the rest of the file calls it: [len] units of
    fuel, which [tlv_loop_fuel_enough] shows to be more than the loop uses;
    the [None] branch is never taken. *)
Definition handle_config_request (v : openconnect_info) (proto id_ : Z)
    (payload : list Z) (len : Z) : Z * openconnect_info :=
  match handle_config_request_fuel (Z.to_nat len) v proto id_ payload len with
  | Some r => r
  | None => (- EINVAL, v)
  end.

(** [~x] on the 32-bit magic; complementing commutes with the byte order. *)
Definition complement32 (x : Z) : Z := u32 (Z.lnot x).

(** [buf_error] is 0 (allocation succeeds), so the function returns 0 for
    the three NCPs and [-EINVAL] otherwise. *)
Definition queue_config_request (v : openconnect_info) (proto id_ : Z)
    : Z * openconnect_info :=
  let buf : oc_text_buf := [] in
  if proto =? PPP_LCP then
    let v1 := upd_ppp (fun s => set_out_asyncmap s 0) v in
    let v2 := upd_ppp (fun s => set_out_lcp_magic s (complement32 (in_lcp_magic s))) v1 in
    let v3 := upd_ppp (fun s => set_out_lcp_opts s (Z.lor ACCOMP PFCOMP)) v2 in
    let v4 := if ip_info_mtu v3 =? 0 then set_mtu v3 1300 else v3 in
    let s := ppp v4 in
    let buf1 := buf_append_ppp_tlv_be16 buf 1 (ip_info_mtu v4) (hdlc s) ASYNCMAP_LCP in
    let buf2 := buf_append_ppp_tlv_be32 buf1 2 (out_asyncmap s) (hdlc s) ASYNCMAP_LCP in
    let buf3 := buf_append_ppp_tlv buf2 5 4 (store_be32 (out_lcp_magic s)) (hdlc s) ASYNCMAP_LCP in
    let buf4 := if flag_set (out_lcp_opts s) PFCOMP
                then buf_append_ppp_tlv buf3 7 0 [] (hdlc s) ASYNCMAP_LCP else buf3 in
    let buf5 := if flag_set (out_lcp_opts s) ACCOMP
                then buf_append_ppp_tlv buf4 8 0 [] (hdlc s) ASYNCMAP_LCP else buf4 in
    let (ret, v5) := queue_config_packet v4 proto id_ CONFREQ
                       (Z.of_nat (List.length buf5)) buf5 in
    if ret >=? 0 then (0, upd_ppp (ncp_add_state proto NCP_CONF_REQ_SENT) v5)
    else (ret, v5)
  else if proto =? PPP_IPCP then
    let v1 := match ip_info_addr v with
              | Some a => upd_ppp (fun s => set_out_peer_addr s a) v
              | None => v
              end in
    let s := ppp v1 in
    let buf1 := buf_append_ppp_tlv buf 3 4 (out_peer_addr s) (hdlc s) (out_asyncmap s) in
    let (ret, v2) := queue_config_packet v1 proto id_ CONFREQ
                       (Z.of_nat (List.length buf1)) buf1 in
    if ret >=? 0 then (0, upd_ppp (ncp_add_state proto NCP_CONF_REQ_SENT) v2)
    else (ret, v2)
  else if proto =? PPP_IP6CP then
    let ipv6a := match ip_info_addr6 v with
                 | Some a => a
                 | None => repeat 0 16
                 end in
    let v1 := upd_ppp (fun s => set_out_ipv6_int_ident s (firstn 8 (skipn 8 ipv6a))) v in
    let s := ppp v1 in
    let buf1 := buf_append_ppp_tlv buf 1 8 (out_ipv6_int_ident s) (hdlc s) (out_asyncmap s) in
    let (ret, v2) := queue_config_packet v1 proto id_ CONFREQ
                       (Z.of_nat (List.length buf1)) buf1 in
    if ret >=? 0 then (0, upd_ppp (ncp_add_state proto NCP_CONF_REQ_SENT) v2)
    else (ret, v2)
  else (- EINVAL, v).

(** [strndup]: at most [n] bytes, up to the first NUL. *)
Fixpoint strndup (l : list Z) (n : nat) : list Z :=
  match n, l with
  | S n', c :: rest => if c =? 0 then [] else c :: strndup rest n'
  | _, _ => []
  end.

(** The label [set_quit_reason] and the two statements under it. *)
Definition set_quit_reason_terminate (v : openconnect_info) (p : list Z) (len : Z)
    : openconnect_info :=
  let v1 := match quit_reason v with
            | None =>
              if len >? 4
              then set_quit_reason v
                     (Some (ReasonBytes (strndup (advance p 4) (Z.to_nat (len - 4)))))
              else v
            | Some _ => v
            end in
  upd_ppp (fun s => set_ppp_state s PPPS_TERMINATE) v1.

Definition handle_config_packet (v : openconnect_info) (proto : Z) (p : list Z)
    (len : Z) : Z * openconnect_info :=
  let code := byte_at p 0 in
  let id_ := byte_at p 1 in
  (* the first [switch]: the return value, the state to add, the new vpninfo *)
  let '(ret, add_state, v1) :=
    if code =? CONFREQ then
      let (r, v') := handle_config_request v proto id_ (advance p 4) (len - 4) in
      (r, 0, v')
    else if code =? CONFACK then
      (0, NCP_CONF_ACK_RECEIVED, v)
    else if code =? ECHOREQ then
      if ppp_state (ppp v) >=? PPPS_OPENED then
        let (r, v') := queue_config_packet v proto id_ ECHOREP 4
                         (store_be32 (out_lcp_magic (ppp v))) in
        (r, 0, v')
      else (0, 0, v)
    else if code =? TERMREQ then
      let add0 := NCP_TERM_REQ_RECEIVED in
      let (r, v') := queue_config_packet v proto id_ TERMACK 0 [] in
      let add1 := if r >=? 0 then NCP_TERM_ACK_SENT else add0 in
      (r, add1, set_quit_reason_terminate v' p len)
    else if code =? TERMACK then
      (0, NCP_TERM_ACK_RECEIVED, set_quit_reason_terminate v p len)
    else if (code =? ECHOREP) || (code =? DISCREQ) then
      (0, 0, v)
    else
      (- EINVAL, 0, v) in
  (* the second [switch] *)
  if known_ncp proto then (ret, upd_ppp (ncp_add_state proto add_state) v1)
  else (- EINVAL, v1).

(** ** The mainloop *)

(** *** What the host supplies to one call *)

Inductive ka_action : Type := KA_NONE | KA_KEEPALIVE | KA_DPD | KA_DPD_DEAD | KA_REKEY.

(** One result of [ssl_nonblock_read]: the bytes read (none when the read
    would block, so that [len] is their number) or an error ([len < 0]).
    The call offers [read_limit] bytes (below) and returns no more. *)
Inductive ssl_read : Type :=
| ReadBytes (b : list Z)
| ReadError.

(** The answers of the host to one round of the transmit part: the result of
    [ssl_nonblock_write], of [ka_stalled_action] and of [keepalive_action].
    The two keepalive functions are also handed the [timeout] pointer; what
    they store there is outside ppp.c and is not modelled, so the timeout
    that the model returns is the one the state switch left. *)
Record tx_oracle := mk_tx_oracle {
  wr_ret : Z;
  stalled : ka_action;
  ka : ka_action
}.

Record host_env := mk_env {
  now : Z;                       (* time(NULL) *)
  readable : bool;
  reads : list ssl_read;         (* successive results of ssl_nonblock_read *)
  tx : list tx_oracle;
  reconnect_ret : Z              (* result of ssl_reconnect *)
}.

(** Modelled from the spec: [ka_check_deadline] of the host's keepalive
    code, which is not among the sources: true when the deadline has
    passed ("retransmit timer (3 s since last LCP Configure-Request)
    expired"), and otherwise it "folds the deadline into the supplied
    timeout". *)
Definition ka_check_deadline (timeout now_ due : Z) : bool * Z :=
  if now_ >=? due then (true, timeout)
  else (false, if timeout >? (due - now_) * 1000 then (due - now_) * 1000 else timeout).

(** The label [do_reconnect]; [ret] is the result of
    [ssl_reconnect (vpninfo)].  That function is outside ppp.c: what it does
    to [vpninfo] is not modelled, and the model hands back the [vpninfo] that
    went in. *)
Definition do_reconnect (v : openconnect_info) (ret : Z) : Z * openconnect_info :=
  if negb (ret =? 0)
  then (ret, set_quit_reason v (Some (ReasonText "PPP reconnect failed")))
  else (1, v).

(** *** State transitions (the first [switch]) *)

Definition both_acks (n : oc_ncp) : bool :=
  flag_set (state n) NCP_CONF_ACK_SENT && flag_set (state n) NCP_CONF_ACK_RECEIVED.

(** [case PPPS_OPENED], down to the [break] under [case PPPS_NETWORK]. *)
Definition case_OPENED (v : openconnect_info) (timeout now_ : Z)
    : openconnect_info * Z :=
  let '(v1, t1) :=
    if want_ipv4 (ppp v)
       && negb (flag_set (state (ipcp (ppp v))) NCP_CONF_ACK_RECEIVED)
    then
      let (due, t) := ka_check_deadline timeout now_ (last_req (ipcp (ppp v)) + 3) in
      if due
      then (snd (queue_config_request
                   (upd_ppp (fun s => set_ipcp s (set_last_req (ipcp s) now_)) v)
                   PPP_IPCP 1), t)
      else (v, t)
    else (v, timeout) in
  let '(v2, t2) :=
    if want_ipv6 (ppp v1)
       && negb (flag_set (state (ip6cp (ppp v1))) NCP_CONF_ACK_RECEIVED)
    then
      let (due, t) := ka_check_deadline t1 now_ (last_req (ip6cp (ppp v1)) + 3) in
      if due
      then (snd (queue_config_request
                   (upd_ppp (fun s => set_ip6cp s (set_last_req (ip6cp s) now_)) v1)
                   PPP_IP6CP 1), t)
      else (v1, t)
    else (v1, t1) in
  let s := ppp v2 in
  if (negb (want_ipv4 s) || both_acks (ipcp s))
     && (negb (want_ipv6 s) || both_acks (ip6cp s))
  then (upd_ppp (fun s => set_ppp_state s PPPS_NETWORK) v2, t2)
  else (v2, t2).

(** [case PPPS_ESTABLISH]: to [PPPS_OPENED] when LCP has both acks, a new
    request and [break] when the timer is due, and in both other cases the
    fall through into [case PPPS_OPENED]. *)
Definition case_ESTABLISH (v : openconnect_info) (timeout now_ : Z)
    : openconnect_info * Z :=
  if flag_set (state (lcp (ppp v))) NCP_CONF_ACK_RECEIVED
     && flag_set (state (lcp (ppp v))) NCP_CONF_ACK_SENT
  then case_OPENED (upd_ppp (fun s => set_ppp_state s PPPS_OPENED) v) timeout now_
  else
    let (due, t) := ka_check_deadline timeout now_ (last_req (lcp (ppp v)) + 3) in
    if due
    then (snd (queue_config_request
                 (upd_ppp (fun s => set_lcp s (set_last_req (lcp s) now_)) v)
                 PPP_LCP 1), t)
    else case_OPENED v t now_.

(** The whole [switch (ppp->ppp_state)]: [Some ret] is a [return]. *)
Definition state_transitions (v : openconnect_info) (timeout now_ : Z)
    : option Z * openconnect_info * Z :=
  let st := ppp_state (ppp v) in
  if st =? PPPS_DEAD then
    let (v', t) := case_ESTABLISH (upd_ppp (fun s => set_ppp_state s PPPS_ESTABLISH) v)
                     timeout now_ in
    (None, v', t)
  else if st =? PPPS_ESTABLISH then
    let (v', t) := case_ESTABLISH v timeout now_ in (None, v', t)
  else if st =? PPPS_OPENED then
    let (v', t) := case_OPENED v timeout now_ in (None, v', t)
  else if st =? PPPS_NETWORK then (None, v, timeout)
  else if st =? PPPS_TERMINATE then (Some 1, v, timeout)
  else (Some 1, set_quit_reason v (Some (ReasonText "Unexpected state")), timeout).

(** *** Receiving *)

(** The PPP header check on the bytes [pp] that follow the outer
    encapsulation: the protocol and the number of header bytes, or [None]
    for the jump to [bad_ppp_pkt]. *)
Definition parse_ppp_header (opts : Z) (pp : list Z) : option (Z * Z) :=
  if (byte_at pp 0 =? 0xff) && (byte_at pp 0 =? 0x03) && (load_be16 pp 6 =? PPP_LCP)
  then Some (PPP_LCP, 4)
  else
    let skipped :=
      if flag_set opts ACCOMP then
        if (byte_at pp 0 =? 0xff) && (byte_at pp 1 =? 0x03) then Some 2 else Some 0
      else
        if negb (byte_at pp 0 =? 0xff) || negb (byte_at pp 1 =? 0x03) then None
        else Some 2 in
    match skipped with
    | None => None
    | Some n =>
      if flag_set opts PFCOMP then
        let proto := byte_at pp n in
        if negb (flag_set proto 1)
        then Some (Z.shiftl proto 8 + byte_at pp (n + 1), n + 2)
        else Some (proto, n + 1)
      else Some (load_be16 pp n, n + 2)
    end.



(** How one pass through the body of the read loop ends. *)
Inductive rx_flow : Type :=
| RxContinue (v : openconnect_info) (work_done : Z)  (* next iteration *)
| RxReturn (ret : Z) (v : openconnect_info).         (* [return ret] *)

(** [switch (proto)] with [pp] at the payload, [hdr] header bytes consumed.
    The payload of a data packet is moved to the start of a block of
    [receive_mtu] bytes: for a data packet this is the C code when
    [payload_len <= receive_mtu]. *)
Definition rx_dispatch (v : openconnect_info) (work_done : Z) (proto : Z)
    (pp : list Z) (hdr payload_len : Z) : rx_flow :=
  if known_ncp proto then
    if (payload_len <? 4) || negb (load_be16 pp 2 =? payload_len)
    then RxReturn 1 v
    else RxContinue (snd (handle_config_packet v proto pp payload_len)) work_done
  else if (proto =? PPP_IP) || (proto =? PPP_IP6) then
    if negb (ppp_state (ppp v) =? PPPS_NETWORK) then RxContinue v work_done
    else
      let v1 := if negb (hdr =? exp_ppp_hdr_size (ppp v))
                then upd_ppp (fun s => set_exp_ppp_hdr_size s hdr) v else v in
      let p := mk_pkt 0 0 payload_len [] (firstn (Z.to_nat payload_len) pp) in
      RxContinue (set_incoming_queue v1 (queue_packet (incoming_queue v1) p)) 1
  else RxReturn 1 v.

(** From "check PPP header and extract protocol" on; [ph] is the frame after
    the outer encapsulation. *)
Definition rx_ppp (v : openconnect_info) (now_ work_done : Z) (ph : list Z)
    (payload_len : Z) : rx_flow :=
  match parse_ppp_header (in_lcp_opts (ppp v)) ph with
  | None => RxReturn 1 v
  | Some (proto, hdr) =>
    rx_dispatch (set_last_rx v now_) work_done proto (advance ph hdr) hdr
      (payload_len - hdr)
  end.

(** The body of the read loop for a read of [len > 0] bytes [buf], which
    are at most [read_limit]. *)
Definition rx_frame (v : openconnect_info) (now_ work_done : Z) (buf : list Z)
    : rx_flow :=
  let len := Z.of_nat (List.length buf) in
  if len <? 8
  then RxReturn 1 (set_quit_reason v (Some (ReasonText "Short packet received")))
  else if encap (ppp v) =? PPP_ENCAP_F5 then
    let magic := load_be16 buf 0 in
    let payload_len := load_be16 buf 2 in
    if negb (magic =? 0xf500) then RxContinue v work_done
    else if negb (len =? 4 + payload_len) then RxContinue v work_done
    else rx_ppp v now_ work_done (advance buf (encap_len (ppp v))) payload_len
  else
    RxReturn (- EINVAL) (set_quit_reason v (Some (ReasonText "Invalid encapsulation"))).

(** How the read loop is left. *)
Inductive rx_end : Type :=
| RxDone (v : openconnect_info) (work_done : Z)      (* the read would block *)
| RxReconnect (v : openconnect_info)                 (* [goto do_reconnect] *)
| RxReturned (ret : Z) (v : openconnect_info).

(** [while (readable)], one element of [rs] per call of
    [ssl_nonblock_read]; the transport blocks once they are used up. *)
Fixpoint rx_loop (rs : list ssl_read) (v : openconnect_info) (now_ work_done : Z)
    : rx_end :=
  match rs with
  | [] => RxDone v work_done
  | ReadError :: _ => RxReconnect v
  | ReadBytes [] :: _ => RxDone v work_done
  | ReadBytes buf :: rest =>
    match rx_frame v now_ work_done buf with
    | RxContinue v' wd => rx_loop rest v' now_ wd
    | RxReturn ret v' => RxReturned ret v'
    end
  end.

(** *** Sending *)

(** The PPP header and the outer encapsulation, written backwards from
    [this->data]: every [this->data[--n] = x] puts [x] in front of the
    header bytes written so far. *)
Definition ppp_header (s : oc_ppp) (proto : Z) : list Z :=
  let h1 := [u8 proto] in
  let h2 := if (proto >? 0xff) || negb (flag_set (out_lcp_opts s) PFCOMP)
            then u8 (Z.shiftr proto 8) :: h1 else h1 in
  let h3 := if (proto =? PPP_LCP) || negb (flag_set (out_lcp_opts s) ACCOMP)
            then 0xff :: 0x03 :: h2 else h2 in
  h3.

Definition prepend_headers (s : oc_ppp) (proto : Z) (this : pkt) : pkt :=
  let h3 := ppp_header s proto in
  let n := - Z.of_nat (List.length h3) in
  let h4 := if encap s =? PPP_ENCAP_F5
            then store_be16 0xf500 ++ store_be16 (pkt_len this - n) ++ h3
            else h3 in
  mk_pkt (pkt_proto this) (Z.of_nat (List.length h4)) (pkt_len this) h4 (pkt_data this).

(** The egress header rule in the words of the specification, kept apart
    from the code for comparison; [opts] is the option set the sentence is
    read with. *)
Definition spec_addr_ctrl (opts proto : Z) : list Z :=
  if flag_set opts ACCOMP && negb (proto =? PPP_LCP) then [] else [0xff; 0x03].

Definition spec_proto_field (opts proto : Z) : list Z :=
  if flag_set opts PFCOMP && (proto <=? 0xff) && Z.odd proto
  then [u8 proto] else store_be16 proto.

Definition spec_ppp_header (opts proto : Z) : list Z :=
  spec_addr_ctrl opts proto ++ spec_proto_field opts proto.

(** The protocols of the packets the mainloop sends. *)
Definition sent_protocols : list Z := [PPP_LCP; PPP_IPCP; PPP_IP6CP; PPP_IP; PPP_IP6].

(** The bytes handed to [ssl_nonblock_write] for a packet. *)
Definition wire_bytes (p : pkt) : list Z := pkt_hdr p ++ pkt_data p.

Inductive tx_flow : Type :=
| TxGo (v : openconnect_info)
| TxReconnect (v : openconnect_info)
| TxReturn (ret : Z) (v : openconnect_info).

(** The label [handle_outgoing], for the retained packet [p]. *)
Definition handle_outgoing (v : openconnect_info) (now_ : Z) (p : pkt)
    (o : tx_oracle) : tx_flow :=
  let v1 := set_last_tx v now_ in
  let ret := wr_ret o in
  if ret <? 0 then TxReconnect v1
  else
    let dead := (ret =? 0) && match stalled o with KA_DPD_DEAD => true | _ => false end in
    if dead then TxReconnect v1
    else if negb (ret =? pkt_len p + pkt_hlen p)
    then TxReturn 1 (set_quit_reason v1 (Some (ReasonText "Internal error")))
    else TxGo (set_current_ssl_pkt v1 None).

(** [switch (keepalive_action(...))]; [None] is the way to [do_reconnect]. *)
Definition keepalive_switch (v : openconnect_info) (a : ka_action)
    : option openconnect_info :=
  match a with
  | KA_DPD_DEAD | KA_REKEY => None
  | KA_KEEPALIVE =>
    let busy :=
      match tcp_control_queue v with
      | _ :: _ => true
      | [] => negb (dtls_connected v) && (ppp_state (ppp v) =? PPPS_NETWORK)
              && match outgoing_queue v with _ :: _ => true | [] => false end
      end in
    if busy then Some v
    else
      let i := util_id (ppp v) in
      let v1 := upd_ppp (fun s => set_util_id s (u8 (i + 1))) v in
      Some (snd (queue_config_packet v1 PPP_LCP i DISCREQ 0 []))
  | KA_DPD =>
    let i := util_id (ppp v) in
    let v1 := upd_ppp (fun s => set_util_id s (u8 (i + 1))) v in
    Some (snd (queue_config_packet v1 PPP_LCP i ECHOREQ 4
                 (store_be32 (out_lcp_magic (ppp v1)))))
  | KA_NONE => Some v
  end.

(** "Service control queue; also, outgoing packet queue, if no DTLS": the
    packet taken and its protocol. *)
Definition next_outgoing (v : openconnect_info)
    : option (pkt * Z) * openconnect_info :=
  match tcp_control_queue v with
  | p :: q => (Some (p, pkt_proto p), set_tcp_control_queue v q)
  | [] =>
    if negb (dtls_connected v) && (ppp_state (ppp v) =? PPPS_NETWORK) then
      match outgoing_queue v with
      | p :: q =>
        let proto := if negb (pkt_len p =? 0)
                        && (Z.land (byte_at (pkt_data p) 0) 0xf0 =? 0x60)
                     then PPP_IP6 else PPP_IP in
        (Some (p, proto), set_outgoing_queue v q)
      | [] => (None, v)
      end
    else (None, v)
  end.

(** From "If SSL_write() fails we are expected to try again" to the end:
    a round writes the retained packet if there is one, asks for the
    keepalive action and takes the next packet; [goto handle_outgoing]
    starts the next round.  One element of [os] per round; [None] when the
    host's answers are used up. *)
Fixpoint tx_loop (os : list tx_oracle) (v : openconnect_info)
    (now_ work_done reconnect_ret_ : Z) : option (Z * openconnect_info) :=
  match os with
  | [] => None
  | o :: os' =>
    let after_write :=
      match current_ssl_pkt v with
      | Some p => handle_outgoing v now_ p o
      | None => TxGo v
      end in
    match after_write with
    | TxReturn ret v' => Some (ret, v')
    | TxReconnect v' => Some (do_reconnect v' reconnect_ret_)
    | TxGo v1 =>
      match keepalive_switch v1 (ka o) with
      | None => Some (do_reconnect v1 reconnect_ret_)
      | Some v2 =>
        match next_outgoing v2 with
        | (None, v3) => Some (work_done, set_current_ssl_pkt v3 None)
        | (Some (this, proto), v3) =>
          let this' := prepend_headers (ppp v3) proto this in
          tx_loop os' (set_current_ssl_pkt v3 (Some this')) now_ work_done
            reconnect_ret_
        end
      end
    end
  end.

(** [ppp_mainloop]: the return value, the new [vpninfo] and the new
    [*timeout]. *)
Definition ppp_mainloop (v : openconnect_info) (timeout : Z) (e : host_env)
    : option (Z * openconnect_info * Z) :=
  if ssl_fd v =? -1 then
    let (r, v') := do_reconnect v (reconnect_ret e) in Some (r, v', timeout)
  else
    match state_transitions v timeout (now e) with
    | (Some ret, v1, t) => Some (ret, v1, t)
    | (None, v1, t) =>
      let received := if readable e then rx_loop (reads e) v1 (now e) 0
                      else RxDone v1 0 in
      match received with
      | RxReturned ret v2 => Some (ret, v2, t)
      | RxReconnect v2 =>
        let (r, v') := do_reconnect v2 (reconnect_ret e) in Some (r, v', t)
      | RxDone v2 work_done =>
        match tx_loop (tx e) v2 (now e) work_done (reconnect_ret e) with
        | Some (r, v3) => Some (r, v3, t)
        | None => None
        end
      end
    end.

(** ** Sessions and their states *)

(** The part of a session that is fixed at creation. *)
Definition session_kind (v : openconnect_info) : Z * bool :=
  (encap (ppp v), hdlc (ppp v)).

(** [keeps v v']: [v'] is a state of the same session as [v] (same
    encapsulation, same byte stuffing) with the same incoming magic. *)
Definition keeps (v v' : openconnect_info) : Prop :=
  session_kind v' = session_kind v
  /\ in_lcp_magic (ppp v') = in_lcp_magic (ppp v).

(** The [vpninfo] at the end of a piece of control flow. *)
Definition tlv_exit_state (r : tlv_exit) : openconnect_info :=
  match r with TlvDone v _ | TlvUnknown v => v end.

Definition rx_flow_state (f : rx_flow) : openconnect_info :=
  match f with RxContinue v _ | RxReturn _ v => v end.

Definition rx_end_state (e : rx_end) : openconnect_info :=
  match e with RxDone v _ | RxReconnect v | RxReturned _ v => v end.

Definition tx_flow_state (f : tx_flow) : openconnect_info :=
  match f with TxGo v | TxReconnect v | TxReturn _ v => v end.

(** The states of a session: created by [openconnect_ppp_new], advanced by
    [ppp_mainloop], and between two calls changed by the host in anything
    but the PPP structure. *)
Inductive reachable : openconnect_info -> Prop :=
| reach_new : forall v e w4 w6,
    ppp v = openconnect_ppp_new e w4 w6 -> reachable v
| reach_mainloop : forall v timeout env ret v' timeout',
    reachable v -> ppp_mainloop v timeout env = Some (ret, v', timeout') ->
    reachable v'
| reach_host : forall v v',
    reachable v -> ppp v' = ppp v -> reachable v'.

(** ** Sessions used in the examples *)

(** A host state right after [openconnect_ppp_new]: nothing queued, MTU and
    addresses not configured, the transport open. *)
Definition vpninfo_new (encap_ : Z) (w4 w6 : bool) : openconnect_info :=
  mk_info (openconnect_ppp_new encap_ w4 w6) 0 None None None [] [] [] None 0 0 false 3.

(** Host answers: nothing to do, and a write of [n] bytes. *)
Definition idle : tx_oracle := mk_tx_oracle 0 KA_NONE KA_NONE.
Definition wrote (n : Z) : tx_oracle := mk_tx_oracle n KA_NONE KA_NONE.

(** The F5 session after its first mainloop call at time 1000 with nothing
    to read: DEAD became ESTABLISH and the first LCP Configure-Request
    (32 bytes on the wire) has been written. *)
Definition after_first_call (w4 w6 : bool) : openconnect_info :=
  match ppp_mainloop (vpninfo_new PPP_ENCAP_F5 w4 w6) 5000
          (mk_env 1000 false [] [idle; wrote 32] 0) with
  | Some (_, v, _) => v
  | None => vpninfo_new PPP_ENCAP_F5 w4 w6
  end.

(** The same session one second later, after it has read an LCP
    Configure-Request that carries the magic [DE AD BE EF] and has written
    its IPCP request and the LCP Configure-Ack. *)
Definition magic_request : list Z :=
  [0xf5; 0x00; 0x00; 0x0e; 0xff; 0x03; 0xc0; 0x21;
   0x01; 0x01; 0x00; 0x0a; 0x05; 0x06; 0xde; 0xad; 0xbe; 0xef].

Definition magic_learned_env : host_env :=
  mk_env 1001 true [ReadBytes magic_request] [idle; wrote 16; wrote 18] 0.

Definition after_magic_learned : openconnect_info :=
  match ppp_mainloop (after_first_call true false) 5000 magic_learned_env with
  | Some (_, v, _) => v
  | None => after_first_call true false
  end.

(** The option list of an LCP Configure-Request without byte stuffing:
    MTU, asyncmap 0, magic, PFCOMP, ACCOMP. *)
Definition lcp_request_payload (mtu magic : Z) : list Z :=
  [1; 4] ++ store_be16 (u16 mtu) ++ [2; 6; 0; 0; 0; 0]
  ++ [5; 6] ++ store_be32 magic ++ [7; 2; 8; 2].

Definition lcp_request_packet (id_ mtu magic : Z) : pkt :=
  mk_pkt PPP_LCP 0 24 [] ([CONFREQ; u8 id_; 0; 24] ++ lcp_request_payload mtu magic).

(** ** Options, acknowledgements and codes *)

(** The option shapes that have a [case] in [handle_config_request]:
    protocol, tag and length byte. *)
Definition option_table : list (Z * Z * Z) :=
  [(PPP_LCP, 1, 4); (PPP_LCP, 2, 6); (PPP_LCP, 5, 6); (PPP_LCP, 7, 2);
   (PPP_LCP, 8, 2); (PPP_IPCP, 2, 4); (PPP_IPCP, 3, 6); (PPP_IP6CP, 1, 10)].

(** The NCP structure that the [switch (proto)] statements select. *)
Definition ncp_of (proto : Z) (s : oc_ppp) : oc_ncp :=
  if proto =? PPP_LCP then lcp s
  else if proto =? PPP_IPCP then ipcp s
  else ip6cp s.






(** The codes that [handle_config_packet] acts on; every other code leaves
    [vpninfo] as it is. *)
Definition acted_on (code : Z) : bool :=
  (code =? CONFREQ) || (code =? CONFACK) || (code =? TERMREQ)
  || (code =? TERMACK) || (code =? ECHOREQ).

(** The quit reason after a Terminate-Request or Terminate-Ack of [len]
    bytes: an earlier reason stays, and without one the bytes that follow
    the four-byte header are taken, up to the first NUL. *)
Definition reason_after_terminate (v : openconnect_info) (p : list Z) (len : Z)
    : option reason :=
  match quit_reason v with
  | Some r => Some r
  | None =>
    if len >? 4
    then Some (ReasonBytes (strndup (advance p 4) (Z.to_nat (len - 4))))
    else None
  end.

(** ** State transitions *)

(** "Have we configured all the protocols we want?" *)
Definition all_configured (s : oc_ppp) : bool :=
  (negb (want_ipv4 s) || both_acks (ipcp s))
  && (negb (want_ipv6 s) || both_acks (ip6cp s)).

(** ** The writes to a session *)

(** The assignments that ppp.c makes to a [struct oc_ppp] once
    [openconnect_ppp_new] has returned, each with the values the statement
    can store, closed under doing nothing and under sequencing.  A new
    [ppp_state] is one of the four that the code names in an assignment;
    every such assignment goes from a state to a later or the same one, and
    the one to NETWORK stands under the test of [all_configured]. *)
Inductive session_write : oc_ppp -> oc_ppp -> Prop :=
| write_none : forall s, session_write s s
| write_then : forall s1 s2 s3,
    session_write s1 s2 -> session_write s2 s3 -> session_write s1 s3
| write_ppp_state : forall s x,
    In x [PPPS_ESTABLISH; PPPS_OPENED; PPPS_NETWORK; PPPS_TERMINATE] ->
    ppp_state s <= x ->
    (x = PPPS_NETWORK -> all_configured s = true) ->
    session_write s (set_ppp_state s x)
| write_lcp_last_req : forall s x,
    session_write s (set_lcp s (set_last_req (lcp s) x))
| write_ipcp_last_req : forall s x,
    session_write s (set_ipcp s (set_last_req (ipcp s) x))
| write_ip6cp_last_req : forall s x,
    session_write s (set_ip6cp s (set_last_req (ip6cp s) x))
| write_ncp_state : forall s proto flag,
    In flag [0; NCP_CONF_REQ_RECEIVED; NCP_CONF_REQ_SENT; NCP_CONF_ACK_RECEIVED;
             NCP_CONF_ACK_SENT; NCP_TERM_ACK_SENT; NCP_TERM_ACK_RECEIVED] ->
    session_write s (ncp_add_state proto flag s)
| write_out_asyncmap : forall s, session_write s (set_out_asyncmap s 0)
| write_out_lcp_magic : forall s,
    session_write s (set_out_lcp_magic s (complement32 (in_lcp_magic s)))
| write_out_lcp_opts : forall s,
    session_write s (set_out_lcp_opts s (Z.lor ACCOMP PFCOMP))
| write_out_peer_addr : forall s a, session_write s (set_out_peer_addr s a)
| write_out_ipv6_int_ident : forall s a,
    session_write s (set_out_ipv6_int_ident s a)
| write_util_id : forall s, session_write s (set_util_id s (u8 (util_id s + 1)))
| write_exp_ppp_hdr_size : forall s x, session_write s (set_exp_ppp_hdr_size s x)
| write_in_asyncmap : forall s x, session_write s (set_in_asyncmap s x)
| write_in_lcp_opts : forall s flag,
    In flag [PFCOMP; ACCOMP; VJCOMP] ->
    session_write s (set_in_lcp_opts s (Z.lor (in_lcp_opts s) flag))
| write_in_lcp_magic : forall s x, session_write s (set_in_lcp_magic s x)
| write_in_peer_addr : forall s a, session_write s (set_in_peer_addr s a)
| write_in_ipv6_int_ident : forall s a,
    session_write s (set_in_ipv6_int_ident s a).

(** The session that [queue_config_request] leaves behind. *)
Definition session_after_request (v : openconnect_info) (proto : Z) : oc_ppp :=
  if proto =? PPP_LCP then
    ncp_add_state PPP_LCP NCP_CONF_REQ_SENT
      (set_out_lcp_opts
         (set_out_lcp_magic (set_out_asyncmap (ppp v) 0)
            (complement32 (in_lcp_magic (ppp v))))
         (Z.lor ACCOMP PFCOMP))
  else if proto =? PPP_IPCP then
    ncp_add_state PPP_IPCP NCP_CONF_REQ_SENT
      match ip_info_addr v with
      | Some a => set_out_peer_addr (ppp v) a
      | None => ppp v
      end
  else if proto =? PPP_IP6CP then
    ncp_add_state PPP_IP6CP NCP_CONF_REQ_SENT
      (set_out_ipv6_int_ident (ppp v)
         (firstn 8 (skipn 8 match ip_info_addr6 v with
                            | Some a => a
                            | None => repeat 0 16
                            end)))
  else ppp v.

(** The fields of a session that are set when it is created ("We need to
    know these before we start"). *)
Definition session_setup (s : oc_ppp) : Z * Z * bool * bool * bool :=
  (encap s, encap_len s, hdlc s, want_ipv4 s, want_ipv6 s).

(** What holds of a session at creation and after every write: a state
    with a name other than AUTHENTICATE, an outgoing asyncmap of zero, and
    outgoing options that are either none or both compressions. *)
Definition expected_session (s : oc_ppp) : Prop :=
  In (ppp_state s) [PPPS_DEAD; PPPS_ESTABLISH; PPPS_OPENED; PPPS_NETWORK; PPPS_TERMINATE]
  /\ out_asyncmap s = 0
  /\ In (out_lcp_opts s) [0; Z.lor ACCOMP PFCOMP].

(** ** The requests of a session without byte stuffing *)

(** The IPv4 address that an IPCP Configure-Request carries: the one of
    [ip_info] when it is set, else the one stored before. *)
Definition request_addr (v : openconnect_info) : list Z :=
  match ip_info_addr v with
  | Some a => a
  | None => out_peer_addr (ppp v)
  end.

(** The interface identifier that an IP6CP Configure-Request carries: the
    last 8 bytes of the IPv6 address, or of sixteen zero bytes. *)
Definition request_ident (v : openconnect_info) : list Z :=
  firstn 8 (skipn 8 match ip_info_addr6 v with
                    | Some a => a
                    | None => repeat 0 16
                    end).

(** The packet that [queue_config_request] queues for a session without
    byte stuffing, written out byte by byte. *)
Definition config_request (v : openconnect_info) (proto id_ : Z) : pkt :=
  if proto =? PPP_LCP then
    lcp_request_packet id_ (if ip_info_mtu v =? 0 then 1300 else ip_info_mtu v)
      (complement32 (in_lcp_magic (ppp v)))
  else if proto =? PPP_IPCP then
    mk_pkt PPP_IPCP 0 10 [] ([CONFREQ; u8 id_; 0; 10; 3; 6] ++ request_addr v)
  else
    mk_pkt PPP_IP6CP 0 14 [] ([CONFREQ; u8 id_; 0; 14; 1; 10] ++ request_ident v).

(** The addresses of the host have the sizes of [struct in_addr] and
    [struct in6_addr]. *)
Definition addresses_sized (v : openconnect_info) : Prop :=
  List.length (request_addr v) = 4%nat /\ List.length (request_ident v) = 8%nat.

(** ** A session that wants no network protocol *)


(** ** A peer that sends our own magic *)

(** The session after its first call has chosen the outgoing magic
    [FF FF FF FF], the complement of zero.  One second later it reads an
    LCP Configure-Request that carries the same four bytes, stores them and
    writes its IPCP request and the LCP Configure-Ack. *)
Definition same_magic_request : list Z :=
  [0xf5; 0x00; 0x00; 0x0e; 0xff; 0x03; 0xc0; 0x21;
   0x01; 0x01; 0x00; 0x0a; 0x05; 0x06; 0xff; 0xff; 0xff; 0xff].

Definition same_magic_env : host_env :=
  mk_env 1001 true [ReadBytes same_magic_request] [idle; wrote 16; wrote 18] 0.

Definition after_same_magic : openconnect_info :=
  match ppp_mainloop (after_first_call true false) 5000 same_magic_env with
  | Some (_, v, _) => v
  | None => after_first_call true false
  end.

(** ** Reconnecting *)

(** The ways to the label [do_reconnect] that start from NETWORK with one
    answer [o] of the host: a read error, a write error, a stalled write
    with a dead peer, and a dead peer or a rekey at the keepalive. *)
Definition reconnect_path (v : openconnect_info) (e : host_env) : Prop :=
  ppp_state (ppp v) = PPPS_NETWORK
  /\ ((readable e = true /\ exists rest, reads e = ReadError :: rest)
      \/ (readable e = false
          /\ exists o os,
               tx e = o :: os
               /\ ((exists p, current_ssl_pkt v = Some p
                              /\ (wr_ret o < 0
                                  \/ (wr_ret o = 0 /\ stalled o = KA_DPD_DEAD)))
                   \/ (current_ssl_pkt v = None
                       /\ (ka o = KA_DPD_DEAD \/ ka o = KA_REKEY))))).

(** * Properties *)

(** Replaces the bytes computed from [x] by fresh variables, so that the
    rest of a packet can be evaluated. *)
Ltac hide_u8 x :=
  repeat match goal with
  | |- context [u8 ?e] =>
    lazymatch e with
    | context [x] => let b := fresh "b" in generalize (u8 e); intro b
    end
  end.

(** ** Bytes *)

Lemma u8_range : forall x, 0 <= u8 x < 256.
Proof.
  intro x. unfold u8. change 0xff with (Z.ones 8).
  rewrite Z.land_ones by lia. apply Z.mod_pos_bound. lia.
Qed.

Lemma u8_idem : forall x, u8 (u8 x) = u8 x.
Proof. intro x. unfold u8. rewrite <- Z.land_assoc. reflexivity. Qed.

Lemma byte_at_range : forall l i, 0 <= byte_at l i < 256.
Proof. intros. unfold byte_at. apply u8_range. Qed.

Lemma byte_at_u8 : forall l i, u8 (byte_at l i) = byte_at l i.
Proof. intros. unfold byte_at. apply u8_idem. Qed.

(** ** HDLC byte stuffing *)

(** For a control character the macro only asks whether the asyncmap is
    non-zero. *)
Lemma NEED_ESCAPE_control : forall c map,
  0 <= c < 0x20 -> NEED_ESCAPE c map = negb (map =? 0).
Proof.
  intros c map Hc. unfold NEED_ESCAPE.
  assert (H1 : (c <? 0x20) = true) by (apply Z.ltb_lt; lia).
  assert (H2 : (Z.shiftl 1 c =? 0) = false).
  { apply Z.eqb_neq. rewrite Z.shiftl_mul_pow2 by lia.
    pose proof (Z.pow_pos_nonneg 2 c). lia. }
  assert (H3 : (c =? 0x7d) = false) by (apply Z.eqb_neq; lia).
  assert (H4 : (c =? 0x7e) = false) by (apply Z.eqb_neq; lia).
  rewrite H1, H2, H3, H4. simpl. rewrite andb_true_r, !orb_false_r. reflexivity.
Qed.

(** A buffer without any byte to escape leaves no trace in the output: the
    pending run is only flushed in front of an escape. *)
Lemma ppphdlc_loop_no_escape : forall n data map i s buf,
  (forall j, NEED_ESCAPE (byte_at data j) map = false) ->
  ppphdlc_loop n data map i s buf = buf.
Proof.
  induction n as [| n IH]; intros data map i s buf H; simpl.
  - reflexivity.
  - rewrite H. apply IH. exact H.
Qed.

(** C1 (the code departs from the claim).  The claim: [buf_append_ppphdlc]
    escapes [c] iff ([c < 0x20] and bit [c] of the asyncmap is set) or
    [c = 0x7d] or [c = 0x7e], and the output is the input with only those
    bytes replaced by [0x7d, c xor 0x20].  The code at three inputs: the
    single byte [0x41] produces no output at all; in
    [0x41 0x42 0x7e 0x43] the byte before the escape and the bytes after it
    are lost; and under asyncmap [0x1] the byte [0x01], whose bit is clear,
    is escaped. *)
Theorem buf_append_ppphdlc_loses_bytes :
  (buf_append_ppphdlc [] [0x41] 1 0 = []
   /\ spec_hdlc_escape [0x41] 0 = [0x41])
  /\ (buf_append_ppphdlc [] [0x41; 0x42; 0x7e; 0x43] 4 0 = [0x41; 0x7d; 0x5e]
      /\ spec_hdlc_escape [0x41; 0x42; 0x7e; 0x43] 0 = [0x41; 0x42; 0x7d; 0x5e; 0x43])
  /\ (buf_append_ppphdlc [] [0x01] 1 0x1 = [0x7d; 0x21]
      /\ Z.testbit 0x1 0x01 = false
      /\ spec_hdlc_escape [0x01] 0x1 = [0x01]).
Proof. repeat split; reflexivity. Qed.

(** ** The option loop of [handle_config_request] *)

(** With a length byte of 0 or 1 the key [PROTO_TAG_LEN proto t (l - 2)] is
    built from a negative number: bit 4 is set, and it is clear in every
    [case] label. *)
Lemma short_key_bit4 : forall proto t l,
  l = 0 \/ l = 1 -> Z.testbit (PROTO_TAG_LEN proto t (l - 2)) 4 = true.
Proof.
  intros proto t l Hl. unfold PROTO_TAG_LEN, u32.
  rewrite Z.land_spec, Z.lor_spec.
  destruct Hl as [-> | ->]; simpl (_ - 2);
    rewrite orb_true_r; reflexivity.
Qed.

Section OptionLoop.

Variables (proto : Z) (payload : list Z) (len : Z).

Lemma handle_option_short : forall v p,
  byte_at payload (p + 1) < 2 -> handle_option v proto payload p = None.
Proof.
  intros v p Hl.
  pose proof (byte_at_range payload (p + 1)) as Hr.
  assert (Hb : Z.testbit (PROTO_TAG_LEN proto (byte_at payload p)
                            (byte_at payload (p + 1) - 2)) 4 = true)
    by (apply short_key_bit4; lia).
  unfold handle_option.
  repeat match goal with
  | |- context [ ?k =? ?c ] =>
    lazymatch k with PROTO_TAG_LEN proto _ _ => idtac end;
    destruct (Z.eqb_spec k c) as [E | _];
    [ rewrite E in Hb; vm_compute in Hb; discriminate | ]
  end.
  reflexivity.
Qed.

(** An option that the [switch] accepts moves the cursor by two bytes at
    least. *)
Lemma handle_option_advances : forall v p v',
  handle_option v proto payload p = Some v' -> 2 <= byte_at payload (p + 1).
Proof.
  intros v p v' H.
  destruct (Z_lt_le_dec (byte_at payload (p + 1)) 2) as [Hlt | Hge]; [ | exact Hge ].
  rewrite handle_option_short in H by exact Hlt. discriminate.
Qed.

Lemma tlv_loop_unfold : forall fuel v p,
  tlv_loop (S fuel) v proto payload len p =
  if (p + 1 <? len) && (p + byte_at payload (p + 1) <=? len) then
    match handle_option v proto payload p with
    | None => Some (TlvUnknown v)
    | Some v' => tlv_loop fuel v' proto payload len (p + byte_at payload (p + 1))
    end
  else Some (TlvDone v p).
Proof. reflexivity. Qed.

(** The distance to the end of the payload bounds the number of
    iterations; by induction on the fuel. *)
Lemma tlv_loop_fuel_enough : forall fuel v p,
  (Z.to_nat (len - p) <= fuel)%nat ->
  exists r, forall fuel', (fuel <= fuel')%nat ->
    tlv_loop fuel' v proto payload len p = Some r.
Proof.
  induction fuel as [| fuel IH]; intros v p Hfuel.
  - exists (TlvDone v p). intros fuel' _.
    assert (Hc : (p + 1 <? len) = false) by (apply Z.ltb_ge; lia).
    destruct fuel'; simpl; rewrite Hc; reflexivity.
  - destruct ((p + 1 <? len) && (p + byte_at payload (p + 1) <=? len)) eqn:Hc.
    + destruct (handle_option v proto payload p) as [v' |] eqn:Ho.
      * pose proof (handle_option_advances _ _ _ Ho) as Hadv.
        apply andb_prop in Hc. destruct Hc as [Hc1 Hc2].
        apply Z.ltb_lt in Hc1.
        destruct (IH v' (p + byte_at payload (p + 1))) as [r Hr]; [ lia | ].
        exists r. intros [| fuel'] Hle; [ lia | ].
        rewrite tlv_loop_unfold.
        replace ((p + 1 <? len) && (p + byte_at payload (p + 1) <=? len)) with true
          by (symmetry; apply andb_true_intro; split;
              [ apply Z.ltb_lt; lia | exact Hc2 ]).
        rewrite Ho. apply Hr. lia.
      * exists (TlvUnknown v). intros [| fuel'] Hle; [ lia | ].
        rewrite tlv_loop_unfold, Hc, Ho. reflexivity.
    + exists (TlvDone v p). intros fuel' _.
      destruct fuel'; simpl; rewrite Hc; reflexivity.
Qed.

Lemma handle_config_request_fuel_enough : forall v id_,
  exists r, forall fuel, (Z.to_nat len <= fuel)%nat ->
    handle_config_request_fuel fuel v proto id_ payload len = Some r.
Proof.
  intros v id_. unfold handle_config_request_fuel.
  destruct (negb (known_ncp proto)).
  - eexists. intros. reflexivity.
  - destruct (tlv_loop_fuel_enough (Z.to_nat len) v 0) as [r Hr].
    { replace (len - 0) with len by lia. lia. }
    destruct r as [v1 p1 | v1].
    + eexists. intros fuel Hle. rewrite (Hr fuel Hle).
      unfold queue_config_packet. simpl. reflexivity.
    + eexists. intros fuel Hle. rewrite (Hr fuel Hle). reflexivity.
Qed.

(** The fuel that [handle_config_request] passes is enough: its result is
    the result of the loop, never the default. *)
Lemma handle_config_request_total : forall v id_,
  handle_config_request_fuel (Z.to_nat len) v proto id_ payload len
  = Some (handle_config_request v proto id_ payload len).
Proof.
  intros. unfold handle_config_request.
  destruct (handle_config_request_fuel_enough v id_) as [r Hr].
  rewrite (Hr (Z.to_nat len)) by lia. reflexivity.
Qed.

End OptionLoop.

(** C10.  [handle_config_request] terminates on every payload: with [len]
    units of fuel or more the model returns, and always the same result.
    An option at the cursor whose length byte is 0 or 1 does not stall the
    loop: that iteration leaves through [unknown] with [-EINVAL].  Every
    other iteration either leaves too or moves the cursor forward by the
    length byte, which is then 2 at least and stays within the payload. *)
Theorem handle_config_request_terminates :
  forall v proto id_ payload len,
    (exists r, forall fuel, (Z.to_nat len <= fuel)%nat ->
       handle_config_request_fuel fuel v proto id_ payload len = Some r)
    /\ (forall fuel p,
          (p + 1 <? len) && (p + byte_at payload (p + 1) <=? len) = true ->
          byte_at payload (p + 1) < 2 ->
          tlv_loop (S fuel) v proto payload len p = Some (TlvUnknown v))
    /\ (forall fuel p v',
          (p + 1 <? len) && (p + byte_at payload (p + 1) <=? len) = true ->
          handle_option v proto payload p = Some v' ->
          p + 2 <= p + byte_at payload (p + 1) <= len
          /\ tlv_loop (S fuel) v proto payload len p
             = tlv_loop fuel v' proto payload len (p + byte_at payload (p + 1))).
Proof.
  intros v proto id_ payload len. split; [ | split ].
  - apply handle_config_request_fuel_enough.
  - intros fuel p Hc Hl.
    rewrite tlv_loop_unfold, Hc, handle_option_short by exact Hl. reflexivity.
  - intros fuel p v' Hc Ho.
    rewrite tlv_loop_unfold, Hc, Ho. split; [ | reflexivity ].
    pose proof (handle_option_advances _ _ _ _ _ Ho).
    apply andb_prop in Hc. destruct Hc as [_ Hc2]. apply Z.leb_le in Hc2. lia.
Qed.

(** At a Configure-Request whose second option has length byte 0: the
    function returns, with the fuel of the payload length and with more,
    and the loop leaves at that option. *)
Lemma handle_config_request_terminates_witness :
  let v := vpninfo_new PPP_ENCAP_F5 true false in
  let payload := [0x01; 0x04; 0x05; 0xdc; 0x07; 0x00] in
  (exists r, handle_config_request_fuel 6 v PPP_LCP 1 payload 6 = Some r
             /\ handle_config_request_fuel 9 v PPP_LCP 1 payload 6 = Some r)
  /\ tlv_loop 1 v PPP_LCP payload 6 4 = Some (TlvUnknown v).
Proof.
  destruct (handle_config_request_terminates (vpninfo_new PPP_ENCAP_F5 true false)
              PPP_LCP 1 [0x01; 0x04; 0x05; 0xdc; 0x07; 0x00] 6) as [[r Hr] [Hshort _]].
  split.
  - exists r. split; apply Hr; vm_compute; lia.
  - apply (Hshort 0%nat 4); vm_compute; reflexivity.
Defined.

(** ** Receiving *)

(** The first test of the header check compares [pp[0]] with two different
    constants, so the branch under it is never taken. *)
Lemma parse_ppp_header_first_test : forall pp,
  (byte_at pp 0 =? 0xff) && (byte_at pp 0 =? 0x03) = false.
Proof.
  intro pp. destruct (Z.eqb_spec (byte_at pp 0) 0xff) as [E | _]; [ | reflexivity ].
  rewrite E. reflexivity.
Qed.

Lemma length_ge_8 : forall (buf : list Z),
  (8 <= List.length buf)%nat -> (Z.of_nat (List.length buf) <? 8) = false.
Proof. intros. apply Z.ltb_ge. lia. Qed.

(** A well-formed F5 wrapper hands the rest of the buffer to the PPP header
    check. *)
Lemma rx_frame_F5_valid : forall v now_ work_done buf,
  encap (ppp v) = PPP_ENCAP_F5 ->
  (8 <= List.length buf)%nat ->
  load_be16 buf 0 = 0xf500 ->
  Z.of_nat (List.length buf) = 4 + load_be16 buf 2 ->
  rx_frame v now_ work_done buf
  = rx_ppp v now_ work_done (advance buf (encap_len (ppp v))) (load_be16 buf 2).
Proof.
  intros v now_ work_done buf Henc Hlen Hmagic Hpl.
  unfold rx_frame. rewrite length_ge_8 by exact Hlen.
  rewrite Henc, Z.eqb_refl, Hmagic, Hpl, !Z.eqb_refl. reflexivity.
Qed.

(** Under any other encapsulation the read loop returns before it looks at
    the frame, and the session is as it was. *)
Lemma rx_frame_not_F5 : forall v now_ work_done buf,
  encap (ppp v) <> PPP_ENCAP_F5 ->
  exists ret v', rx_frame v now_ work_done buf = RxReturn ret v' /\ ppp v' = ppp v.
Proof.
  intros v now_ work_done buf Henc. unfold rx_frame.
  apply Z.eqb_neq in Henc. rewrite Henc.
  destruct (Z.of_nat (List.length buf) <? 8); eexists; eexists; split; reflexivity.
Qed.

(** C2.  On a frame that starts, after the outer encapsulation, with
    [FF 03 C0 21], the header check yields protocol LCP and four header
    bytes for every value of the incoming LCP options (ACCOMP and PFCOMP
    set or not); the frame then reaches the LCP case of the protocol
    switch, which hands the bytes after the header to
    [handle_config_packet] with protocol LCP when the length field
    agrees. *)
Theorem full_lcp_header_is_four_bytes :
  forall v now_ work_done rest payload_len,
    let frame := 0xff :: 0x03 :: 0xc0 :: 0x21 :: rest in
    parse_ppp_header (in_lcp_opts (ppp v)) frame = Some (PPP_LCP, 4)
    /\ advance frame 4 = rest
    /\ rx_ppp v now_ work_done frame payload_len
       = rx_dispatch (set_last_rx v now_) work_done PPP_LCP rest 4 (payload_len - 4)
    /\ rx_dispatch (set_last_rx v now_) work_done PPP_LCP rest 4 (payload_len - 4)
       = if (payload_len - 4 <? 4) || negb (load_be16 rest 2 =? payload_len - 4)
         then RxReturn 1 (set_last_rx v now_)
         else RxContinue
                (snd (handle_config_packet (set_last_rx v now_) PPP_LCP rest
                        (payload_len - 4))) work_done.
Proof.
  intros v now_ work_done rest payload_len frame.
  assert (H : parse_ppp_header (in_lcp_opts (ppp v)) frame = Some (PPP_LCP, 4)).
  { unfold parse_ppp_header. rewrite parse_ppp_header_first_test. simpl andb. cbv iota.
    destruct (flag_set (in_lcp_opts (ppp v)) ACCOMP);
      destruct (flag_set (in_lcp_opts (ppp v)) PFCOMP); reflexivity. }
  repeat split.
  - exact H.
  - unfold rx_ppp. rewrite H. reflexivity.
Qed.

(** Without ACCOMP, a frame that does not start with [FF 03] makes the
    mainloop return 1 from [bad_ppp_pkt]; nothing in [vpninfo] has been
    written by then. *)
Lemma bad_ppp_pkt_returns_unchanged : forall v now_ work_done ph payload_len,
  flag_set (in_lcp_opts (ppp v)) ACCOMP = false ->
  byte_at ph 0 <> 0xff \/ byte_at ph 1 <> 0x03 ->
  rx_ppp v now_ work_done ph payload_len = RxReturn 1 v.
Proof.
  intros v now_ work_done ph payload_len Hacc Hbad.
  unfold rx_ppp, parse_ppp_header.
  rewrite parse_ppp_header_first_test, Hacc. simpl andb. cbv iota.
  assert (Hb : negb (byte_at ph 0 =? 0xff) || negb (byte_at ph 1 =? 0x03) = true).
  { destruct Hbad as [H | H]; apply Z.eqb_neq in H; rewrite H; simpl;
      [ reflexivity | apply orb_true_r ]. }
  rewrite Hb. reflexivity.
Qed.

(** C3 (the code departs from the claim).  The claim: without ACCOMP, a
    frame whose first two bytes after the outer encapsulation are not
    [FF 03] ends the session with return value 1 and a [quit_reason] that
    tells of a bad PPP packet, and is not queued.  The code on the F5
    session in ESTABLISH that receives [F5 00 00 04 21 45 00 00]: the
    mainloop returns 1 and queues nothing, and [quit_reason] is still
    unset; the paths for a short packet and for an invalid encapsulation
    set it before they return. *)
Theorem bad_ppp_packet_sets_no_quit_reason :
  let v := after_first_call true false in
  let frame := [0xf5; 0x00; 0x00; 0x04; 0x21; 0x45; 0x00; 0x00] in
  ppp_state (ppp v) = PPPS_ESTABLISH
  /\ flag_set (in_lcp_opts (ppp v)) ACCOMP = false
  /\ rx_frame v 1001 0 frame = RxReturn 1 v
  /\ quit_reason v = None
  /\ (exists v' t,
        ppp_mainloop v 5000 (mk_env 1001 true [ReadBytes frame] [idle] 0)
        = Some (1, v', t)
        /\ quit_reason v' = None
        /\ incoming_queue v' = [])
  /\ quit_reason (match rx_frame v 1001 0 [0xf5; 0x00; 0x00] with
                  | RxReturn _ v' => v'
                  | RxContinue v' _ => v'
                  end)
     = Some (ReasonText "Short packet received").
Proof.
  cbv zeta. repeat apply conj; try (vm_compute; reflexivity).
  eexists. eexists. repeat apply conj; vm_compute; reflexivity.
Qed.

(** C4, as amended.  Under F5 encapsulation, a read of 8 bytes or more whose
    first two bytes are not [F5 00], or whose length is not 4 plus the
    length announced in bytes 3 and 4, is dropped: the iteration ends in
    [continue] with [vpninfo] (the session state, the NCP states, the
    queues, [quit_reason]) unchanged, and the read loop goes on with the
    next read. *)
Theorem f5_bad_outer_header_discarded :
  forall v now_ work_done buf rest,
    encap (ppp v) = PPP_ENCAP_F5 ->
    (8 <= List.length buf)%nat ->
    load_be16 buf 0 <> 0xf500
      \/ Z.of_nat (List.length buf) <> 4 + load_be16 buf 2 ->
    rx_frame v now_ work_done buf = RxContinue v work_done
    /\ rx_loop (ReadBytes buf :: rest) v now_ work_done
       = rx_loop rest v now_ work_done.
Proof.
  intros v now_ work_done buf rest Henc Hlen Hbad.
  assert (H : rx_frame v now_ work_done buf = RxContinue v work_done).
  { unfold rx_frame. rewrite length_ge_8 by exact Hlen.
    rewrite Henc, Z.eqb_refl.
    destruct (load_be16 buf 0 =? 0xf500) eqn:Em; cbv [negb]; [ | reflexivity ].
    destruct (Z.of_nat (List.length buf) =? 4 + load_be16 buf 2) eqn:El;
      cbv [negb]; [ | reflexivity ].
    apply Z.eqb_eq in Em, El. destruct Hbad; contradiction. }
  split; [ exact H | ].
  destruct buf as [| b buf']; [ simpl in Hlen; lia | ].
  change (rx_loop (ReadBytes (b :: buf') :: rest) v now_ work_done)
    with (match rx_frame v now_ work_done (b :: buf') with
          | RxContinue v' wd => rx_loop rest v' now_ wd
          | RxReturn ret v' => RxReturned ret v'
          end).
  rewrite H. reflexivity.
Qed.

(** A read of eight bytes with the magic [F5 01]. *)
Lemma f5_bad_outer_header_discarded_witness :
  let v := vpninfo_new PPP_ENCAP_F5 true false in
  let buf := [0xf5; 0x01; 0x00; 0x04; 0xff; 0x03; 0xc0; 0x21] in
  rx_frame v 1000 0 buf = RxContinue v 0
  /\ rx_loop [ReadBytes buf] v 1000 0 = rx_loop [] v 1000 0.
Proof.
  apply (f5_bad_outer_header_discarded (vpninfo_new PPP_ENCAP_F5 true false) 1000 0
           [0xf5; 0x01; 0x00; 0x04; 0xff; 0x03; 0xc0; 0x21] []).
  - reflexivity.
  - simpl. lia.
  - left. vm_compute. discriminate.
Defined.

(** C4 as stated fails for a short read: six bytes [F5 00 00 05 AA BB],
    whose length is not 4 + 5, are not dropped; the mainloop returns 1 with
    [quit_reason] "Short packet received". *)
Lemma f5_bad_outer_header_short_read :
  ~ (forall v now_ work_done buf rest,
       encap (ppp v) = PPP_ENCAP_F5 ->
       buf <> [] ->
       load_be16 buf 0 <> 0xf500
         \/ Z.of_nat (List.length buf) <> 4 + load_be16 buf 2 ->
       rx_loop (ReadBytes buf :: rest) v now_ work_done
       = rx_loop rest v now_ work_done).
Proof.
  intro H.
  specialize (H (vpninfo_new PPP_ENCAP_F5 true false) 1000 0
                [0xf5; 0x00; 0x00; 0x05; 0xaa; 0xbb] []).
  assert (Hr : RxReturned 1
                 (set_quit_reason (vpninfo_new PPP_ENCAP_F5 true false)
                    (Some (ReasonText "Short packet received")))
               = RxDone (vpninfo_new PPP_ENCAP_F5 true false) 0).
  { etransitivity; [ | apply H ].
    - vm_compute. reflexivity.
    - reflexivity.
    - discriminate.
    - right. vm_compute. discriminate. }
  discriminate Hr.
Qed.

(** ** What a session keeps *)

(** No statement of ppp.c writes [encap] or [hdlc], and [in_lcp_magic] is
    written by the option loop alone, which only the F5 branch of the read
    loop reaches.  Followed through every function of the mainloop, this
    shows that a session with byte stuffing never stores an incoming
    magic. *)

(** Names the fields of a [vpninfo] and of its session. *)
Ltac names v :=
  destruct v as [s mtu a4 a6 qr cq iq oq cur lrx ltx dtls fd];
  destruct s as [en enl hd w4 w6 st l i4 i6 oam oopts omagic opeer oid uid
                 ehs iam iopts imagic ipeer iid].

(** Byte stuffing is switched on for the F5 HDLC encapsulation only. *)
Lemma openconnect_ppp_new_hdlc : forall e w4 w6,
  hdlc (openconnect_ppp_new e w4 w6) = true ->
  encap (openconnect_ppp_new e w4 w6) <> PPP_ENCAP_F5.
Proof.
  intros e w4 w6 H Henc. simpl in H, Henc.
  apply Z.eqb_eq in Henc. rewrite Henc in H. discriminate.
Qed.

Lemma keeps_refl : forall v, keeps v v.
Proof. intro v. split; reflexivity. Qed.

Lemma keeps_trans : forall v1 v2 v3, keeps v1 v2 -> keeps v2 v3 -> keeps v1 v3.
Proof.
  intros v1 v2 v3 [H1 H2] [H3 H4]. split; congruence.
Qed.

Lemma keeps_same_ppp : forall v v', ppp v' = ppp v -> keeps v v'.
Proof. intros v v' H. unfold keeps, session_kind. rewrite H. split; reflexivity. Qed.

Lemma keeps_upd_ppp : forall f v,
  (forall s, encap (f s) = encap s /\ hdlc (f s) = hdlc s
             /\ in_lcp_magic (f s) = in_lcp_magic s) ->
  keeps v (upd_ppp f v).
Proof.
  intros f v H. destruct (H (ppp v)) as [H1 [H2 H3]].
  unfold keeps, session_kind, upd_ppp, set_ppp. cbn [ppp].
  rewrite H1, H2, H3. split; reflexivity.
Qed.

(** Solves the side condition of [keeps_upd_ppp] for an update of one of
    the negotiation fields. *)
Ltac field_update := intros []; repeat split; reflexivity.

(** *** Requests and state transitions *)

Lemma ncp_add_state_kind : forall proto flag s,
  encap (ncp_add_state proto flag s) = encap s
  /\ hdlc (ncp_add_state proto flag s) = hdlc s
  /\ in_lcp_magic (ncp_add_state proto flag s) = in_lcp_magic s.
Proof.
  intros proto flag s. unfold ncp_add_state.
  destruct (proto =? PPP_LCP); [ | destruct (proto =? PPP_IPCP);
    [ | destruct (proto =? PPP_IP6CP) ] ]; repeat split; reflexivity.
Qed.

Lemma queue_config_request_keeps : forall v proto id_,
  session_kind (snd (queue_config_request v proto id_)) = session_kind v
  /\ in_lcp_magic (ppp (snd (queue_config_request v proto id_)))
     = in_lcp_magic (ppp v).
Proof.
  intros v proto id_. unfold queue_config_request, session_kind.
  names v.
  destruct (proto =? PPP_LCP) eqn:E1;
    [ | destruct (proto =? PPP_IPCP) eqn:E2;
        [ | destruct (proto =? PPP_IP6CP) eqn:E3 ] ].
  - apply Z.eqb_eq in E1. subst proto.
    destruct mtu; split; lazy -[complement32]; reflexivity.
  - apply Z.eqb_eq in E2. subst proto.
    destruct a4; split; lazy; reflexivity.
  - apply Z.eqb_eq in E3. subst proto.
    destruct a6; split; lazy; reflexivity.
  - split; reflexivity.
Qed.

Lemma keeps_queue_config_request : forall v proto id_,
  keeps v (snd (queue_config_request v proto id_)).
Proof. intros. apply queue_config_request_keeps. Qed.

Lemma case_OPENED_keeps : forall v timeout now_,
  keeps v (fst (case_OPENED v timeout now_)).
Proof.
  intros v timeout now_. unfold case_OPENED.
  set (r1 := if want_ipv4 (ppp v) && _ then _ else _).
  assert (K1 : keeps v (fst r1)).
  { subst r1.
    destruct (want_ipv4 (ppp v) && _); [ | apply keeps_refl ].
    destruct (ka_check_deadline _ _ _) as [[|] t]; [ | apply keeps_refl ].
    cbn [fst]. eapply keeps_trans; [ | apply keeps_queue_config_request ].
    apply keeps_upd_ppp. field_update. }
  destruct r1 as [v1 t1]. cbn [fst] in K1.
  set (r2 := if want_ipv6 (ppp v1) && _ then _ else _).
  assert (K2 : keeps v1 (fst r2)).
  { subst r2.
    destruct (want_ipv6 (ppp v1) && _); [ | apply keeps_refl ].
    destruct (ka_check_deadline _ _ _) as [[|] t]; [ | apply keeps_refl ].
    cbn [fst]. eapply keeps_trans; [ | apply keeps_queue_config_request ].
    apply keeps_upd_ppp. field_update. }
  destruct r2 as [v2 t2]. cbn [fst] in K2.
  destruct (_ && _); cbn [fst].
  - eapply keeps_trans; [ exact K1 | ]. eapply keeps_trans; [ exact K2 | ].
    apply keeps_upd_ppp. field_update.
  - eapply keeps_trans; eassumption.
Qed.

Lemma case_ESTABLISH_keeps : forall v timeout now_,
  keeps v (fst (case_ESTABLISH v timeout now_)).
Proof.
  intros v timeout now_. unfold case_ESTABLISH.
  destruct (_ && _).
  - eapply keeps_trans; [ | apply case_OPENED_keeps ].
    apply keeps_upd_ppp. field_update.
  - destruct (ka_check_deadline _ _ _) as [[|] t].
    + cbn [fst]. eapply keeps_trans; [ | apply keeps_queue_config_request ].
      apply keeps_upd_ppp. field_update.
    + apply case_OPENED_keeps.
Qed.

Lemma state_transitions_keeps : forall v timeout now_,
  keeps v (snd (fst (state_transitions v timeout now_))).
Proof.
  intros v timeout now_. unfold state_transitions.
  destruct (_ =? PPPS_DEAD).
  { pose proof (case_ESTABLISH_keeps
                 (upd_ppp (fun s => set_ppp_state s PPPS_ESTABLISH) v) timeout now_) as K.
    destruct (case_ESTABLISH _ _ _) as [v' t]. cbn [fst snd] in *.
    eapply keeps_trans; [ | exact K ]. apply keeps_upd_ppp. field_update. }
  destruct (_ =? PPPS_ESTABLISH).
  { pose proof (case_ESTABLISH_keeps v timeout now_) as K.
    destruct (case_ESTABLISH _ _ _) as [v' t]. exact K. }
  destruct (_ =? PPPS_OPENED).
  { pose proof (case_OPENED_keeps v timeout now_) as K.
    destruct (case_OPENED _ _ _) as [v' t]. exact K. }
  destruct (_ =? PPPS_NETWORK); [ apply keeps_refl | ].
  destruct (_ =? PPPS_TERMINATE); [ apply keeps_refl | ].
  apply keeps_same_ppp. reflexivity.
Qed.

(** *** The transmit part *)

Lemma handle_outgoing_ppp : forall v now_ p o,
  ppp (tx_flow_state (handle_outgoing v now_ p o)) = ppp v.
Proof.
  intros v now_ p o. unfold handle_outgoing.
  destruct (wr_ret o <? 0); [ reflexivity | ].
  destruct (_ && _); [ reflexivity | ].
  destruct (negb _); reflexivity.
Qed.

Lemma keeps_queue_config_packet : forall v0 v proto id_ code len payload,
  keeps v0 v -> keeps v0 (snd (queue_config_packet v proto id_ code len payload)).
Proof.
  intros v0 v proto id_ code len payload K.
  eapply keeps_trans; [ exact K | ]. apply keeps_same_ppp. reflexivity.
Qed.

Lemma keepalive_switch_keeps : forall v a,
  match keepalive_switch v a with
  | Some v' => keeps v v'
  | None => True
  end.
Proof.
  intros v a. unfold keepalive_switch. destruct a.
  - apply keeps_refl.
  - destruct (match tcp_control_queue v with [] => _ | _ :: _ => true end).
    + apply keeps_refl.
    + apply keeps_queue_config_packet. apply keeps_upd_ppp. field_update.
  - apply keeps_queue_config_packet. apply keeps_upd_ppp. field_update.
  - exact I.
  - exact I.
Qed.

Lemma next_outgoing_ppp : forall v, ppp (snd (next_outgoing v)) = ppp v.
Proof.
  intro v. unfold next_outgoing.
  destruct (tcp_control_queue v); [ | reflexivity ].
  destruct (_ && _); [ | reflexivity ].
  destruct (outgoing_queue v); reflexivity.
Qed.

Lemma do_reconnect_ppp : forall v ret, ppp (snd (do_reconnect v ret)) = ppp v.
Proof. intros v ret. unfold do_reconnect. destruct (negb _); reflexivity. Qed.

Lemma tx_loop_keeps : forall os v now_ work_done rr,
  match tx_loop os v now_ work_done rr with
  | Some (_, v') => keeps v v'
  | None => True
  end.
Proof.
  induction os as [| o os IH]; intros v now_ work_done rr; cbn [tx_loop].
  - exact I.
  - assert (K1 : keeps v (tx_flow_state
                            match current_ssl_pkt v with
                            | Some p => handle_outgoing v now_ p o
                            | None => TxGo v
                            end)).
    { destruct (current_ssl_pkt v); [ | apply keeps_refl ].
      apply keeps_same_ppp. apply handle_outgoing_ppp. }
    destruct (match current_ssl_pkt v with
              | Some p => handle_outgoing v now_ p o
              | None => TxGo v
              end) as [v1 | v1 | r1 v1]; cbn [tx_flow_state] in K1.
    + pose proof (keepalive_switch_keeps v1 (ka o)) as K2.
      destruct (keepalive_switch v1 (ka o)) as [v2 |].
      * pose proof (next_outgoing_ppp v2) as K3.
        destruct (next_outgoing v2) as [[[this proto] |] v3]; cbn [snd] in K3.
        -- specialize (IH (set_current_ssl_pkt v3
                             (Some (prepend_headers (ppp v3) proto this)))
                          now_ work_done rr).
           destruct (tx_loop os _ now_ work_done rr) as [[r v'] |]; [ | exact I ].
           eapply keeps_trans; [ exact K1 | ]. eapply keeps_trans; [ exact K2 | ].
           eapply keeps_trans; [ | exact IH ].
           apply keeps_same_ppp. exact K3.
        -- eapply keeps_trans; [ exact K1 | ]. eapply keeps_trans; [ exact K2 | ].
           apply keeps_same_ppp. exact K3.
      * pose proof (do_reconnect_ppp v1 rr) as K.
        destruct (do_reconnect v1 rr) as [r v'']. 
        eapply keeps_trans; [ exact K1 | ]. apply keeps_same_ppp. exact K.
    + pose proof (do_reconnect_ppp v1 rr) as K.
      destruct (do_reconnect v1 rr) as [r v''].
      eapply keeps_trans; [ exact K1 | ]. apply keeps_same_ppp. exact K.
    + exact K1.
Qed.

(** *** The receive part *)

Lemma handle_option_kind : forall v proto payload p,
  match handle_option v proto payload p with
  | Some v' => session_kind v' = session_kind v
  | None => True
  end.
Proof.
  intros v proto payload p. unfold handle_option.
  repeat match goal with
  | |- context [if ?c then _ else _] => destruct c
  end; solve [ reflexivity | exact I ].
Qed.

Lemma tlv_loop_kind : forall proto payload len fuel v p,
  match tlv_loop fuel v proto payload len p with
  | Some r => session_kind (tlv_exit_state r) = session_kind v
  | None => True
  end.
Proof.
  intros proto payload len.
  induction fuel as [| fuel IH]; intros v p; cbn [tlv_loop];
    destruct (_ && _); try reflexivity; try exact I.
  pose proof (handle_option_kind v proto payload p) as Ho.
  destruct (handle_option v proto payload p) as [v' |]; [ | reflexivity ].
  specialize (IH v' (p + byte_at payload (p + 1))).
  destruct (tlv_loop fuel v' proto payload len _); [ | exact I ].
  congruence.
Qed.

Lemma ncp_add_state_session_kind : forall proto flag v,
  session_kind (upd_ppp (ncp_add_state proto flag) v) = session_kind v.
Proof.
  intros proto flag v. unfold session_kind, upd_ppp, set_ppp. cbn [ppp].
  destruct (ncp_add_state_kind proto flag (ppp v)) as [H1 [H2 _]].
  rewrite H1, H2. reflexivity.
Qed.

Lemma handle_config_request_kind : forall v proto id_ payload len,
  session_kind (snd (handle_config_request v proto id_ payload len))
  = session_kind v.
Proof.
  intros v proto id_ payload len.
  unfold handle_config_request, handle_config_request_fuel.
  destruct (negb (known_ncp proto)); [ reflexivity | ].
  pose proof (tlv_loop_kind proto payload len (Z.to_nat len) v 0) as Hl.
  destruct (tlv_loop (Z.to_nat len) v proto payload len 0) as [[v1 p1 | v1] |];
    cbn [tlv_exit_state] in Hl.
  - unfold queue_config_packet. cbn [fst snd]. cbv iota.
    change (0 >=? 0) with true. cbv iota. cbn [snd].
    rewrite ncp_add_state_session_kind.
    change (session_kind (upd_ppp (ncp_add_state proto NCP_CONF_REQ_RECEIVED) v1)
            = session_kind v).
    rewrite ncp_add_state_session_kind. exact Hl.
  - exact Hl.
  - reflexivity.
Qed.

Lemma set_quit_reason_terminate_kind : forall v p len,
  session_kind (set_quit_reason_terminate v p len) = session_kind v.
Proof.
  intros v p len. unfold set_quit_reason_terminate.
  destruct (quit_reason v); [ reflexivity | ].
  destruct (len >? 4); reflexivity.
Qed.

Lemma handle_config_packet_kind : forall v proto p len,
  session_kind (snd (handle_config_packet v proto p len)) = session_kind v.
Proof.
  intros v proto p len. unfold handle_config_packet.
  destruct (byte_at p 0 =? CONFREQ).
  { pose proof (handle_config_request_kind v proto (byte_at p 1) (advance p 4)
                  (len - 4)) as H.
    destruct (handle_config_request _ _ _ _ _) as [r v']. cbn [snd] in H.
    destruct (known_ncp proto); cbn [snd];
      [ rewrite ncp_add_state_session_kind | ]; exact H. }
  destruct (byte_at p 0 =? CONFACK).
  { destruct (known_ncp proto); cbn [snd];
      [ apply ncp_add_state_session_kind | reflexivity ]. }
  destruct (byte_at p 0 =? ECHOREQ).
  { destruct (ppp_state (ppp v) >=? PPPS_OPENED); unfold queue_config_packet;
      destruct (known_ncp proto); cbn [snd];
      try rewrite ncp_add_state_session_kind; reflexivity. }
  destruct (byte_at p 0 =? TERMREQ).
  { unfold queue_config_packet. cbv iota. change (0 >=? 0) with true. cbv iota.
    destruct (known_ncp proto); cbn [snd];
      try rewrite ncp_add_state_session_kind;
      rewrite set_quit_reason_terminate_kind; reflexivity. }
  destruct (byte_at p 0 =? TERMACK).
  { destruct (known_ncp proto); cbn [snd];
      try rewrite ncp_add_state_session_kind;
      apply set_quit_reason_terminate_kind. }
  destruct (_ || _);
    destruct (known_ncp proto); cbn [snd];
    try rewrite ncp_add_state_session_kind; reflexivity.
Qed.

Lemma rx_dispatch_kind : forall v work_done proto pp hdr payload_len,
  session_kind (rx_flow_state (rx_dispatch v work_done proto pp hdr payload_len))
  = session_kind v.
Proof.
  intros v work_done proto pp hdr payload_len. unfold rx_dispatch.
  destruct (known_ncp proto).
  - destruct (_ || _); [ reflexivity | ]. apply handle_config_packet_kind.
  - destruct (_ || _); [ | reflexivity ].
    destruct (negb (ppp_state (ppp v) =? PPPS_NETWORK)); [ reflexivity | ].
    destruct (negb (hdr =? exp_ppp_hdr_size (ppp v))); reflexivity.
Qed.

Lemma rx_frame_kind : forall v now_ work_done buf,
  session_kind (rx_flow_state (rx_frame v now_ work_done buf)) = session_kind v.
Proof.
  intros v now_ work_done buf. unfold rx_frame.
  destruct (_ <? 8); [ reflexivity | ].
  destruct (encap (ppp v) =? PPP_ENCAP_F5); [ | reflexivity ].
  destruct (negb (_ =? 0xf500)); [ reflexivity | ].
  destruct (negb (_ =? _)); [ reflexivity | ].
  unfold rx_ppp.
  destruct (parse_ppp_header _ _) as [[proto hdr] |]; [ | reflexivity ].
  rewrite rx_dispatch_kind. reflexivity.
Qed.

Lemma rx_loop_kind : forall rs v now_ work_done,
  session_kind (rx_end_state (rx_loop rs v now_ work_done)) = session_kind v.
Proof.
  induction rs as [| r rs IH]; intros v now_ work_done; cbn [rx_loop].
  - reflexivity.
  - destruct r as [[| b buf] |]; try reflexivity.
    pose proof (rx_frame_kind v now_ work_done (b :: buf)) as Hf.
    destruct (rx_frame v now_ work_done (b :: buf)) as [v' wd | ret v'];
      cbn [rx_flow_state] in Hf.
    + rewrite IH. exact Hf.
    + exact Hf.
Qed.

(** Off the F5 encapsulation the read loop leaves the session untouched. *)
Lemma rx_loop_not_F5 : forall rs v now_ work_done,
  encap (ppp v) <> PPP_ENCAP_F5 ->
  ppp (rx_end_state (rx_loop rs v now_ work_done)) = ppp v.
Proof.
  intros rs v now_ work_done Henc.
  destruct rs as [| [[| b buf] |] rs]; cbn [rx_loop]; try reflexivity.
  destruct (rx_frame_not_F5 v now_ work_done (b :: buf) Henc) as [ret [v' [Hf Hp]]].
  rewrite Hf. exact Hp.
Qed.

(** *** One call of the mainloop *)

Lemma ppp_mainloop_kind : forall v timeout e,
  match ppp_mainloop v timeout e with
  | Some (_, v', _) =>
    session_kind v' = session_kind v
    /\ (encap (ppp v) <> PPP_ENCAP_F5 ->
        in_lcp_magic (ppp v') = in_lcp_magic (ppp v))
  | None => True
  end.
Proof.
  intros v timeout e. unfold ppp_mainloop.
  destruct (ssl_fd v =? -1).
  { pose proof (do_reconnect_ppp v (reconnect_ret e)) as K.
    destruct (do_reconnect v (reconnect_ret e)) as [r v']. cbn [snd] in K.
    unfold session_kind. rewrite K. split; reflexivity. }
  pose proof (state_transitions_keeps v timeout (now e)) as [K1 M1].
  destruct (state_transitions v timeout (now e)) as [[[ret |] v1] t];
    cbn [fst snd] in K1, M1.
  { split; [ exact K1 | intros _; exact M1 ]. }
  set (received := if readable e then rx_loop (reads e) v1 (now e) 0 else RxDone v1 0).
  assert (K2 : session_kind (rx_end_state received) = session_kind v1).
  { subst received. destruct (readable e); [ apply rx_loop_kind | reflexivity ]. }
  assert (M2 : encap (ppp v) <> PPP_ENCAP_F5 ->
               in_lcp_magic (ppp (rx_end_state received)) = in_lcp_magic (ppp v1)).
  { intro Henc. subst received. destruct (readable e); [ | reflexivity ].
    rewrite rx_loop_not_F5; [ reflexivity | ].
    unfold session_kind in K1. injection K1 as K1 _. rewrite K1. exact Henc. }
  destruct received as [v2 wd | v2 | ret v2]; cbn [rx_end_state] in K2, M2.
  - pose proof (tx_loop_keeps (tx e) v2 (now e) wd (reconnect_ret e)) as K3.
    destruct (tx_loop (tx e) v2 (now e) wd (reconnect_ret e)) as [[r v3] |];
      [ | exact I ].
    destruct K3 as [K3 M3]. split; [ congruence | ].
    intro Henc. rewrite M3, M2, M1 by exact Henc. reflexivity.
  - pose proof (do_reconnect_ppp v2 (reconnect_ret e)) as K.
    destruct (do_reconnect v2 (reconnect_ret e)) as [r v']. cbn [snd] in K.
    unfold session_kind in *. rewrite K. split; [ congruence | ].
    intro Henc. rewrite M2, M1 by exact Henc. reflexivity.
  - split; [ congruence | ].
    intro Henc. rewrite M2, M1 by exact Henc. reflexivity.
Qed.

(** A session with byte stuffing is not an F5 session and has never stored
    an incoming magic. *)
Lemma hdlc_session_learns_no_magic : forall v,
  reachable v ->
  hdlc (ppp v) = true ->
  encap (ppp v) <> PPP_ENCAP_F5 /\ in_lcp_magic (ppp v) = 0.
Proof.
  induction 1 as [v e w4 w6 Hnew | v timeout env ret v' timeout' Hr IH Hstep
                  | v v' Hr IH Hsame]; intro Hh.
  - rewrite Hnew in *. split; [ apply openconnect_ppp_new_hdlc; exact Hh | reflexivity ].
  - pose proof (ppp_mainloop_kind v timeout env) as K. rewrite Hstep in K.
    destruct K as [K M]. unfold session_kind in K. injection K as Ke Kh.
    rewrite Kh in Hh. destruct (IH Hh) as [Henc Hm].
    split; [ rewrite Ke; exact Henc | rewrite (M Henc); exact Hm ].
  - rewrite Hsame in *. apply IH. exact Hh.
Qed.

Lemma learned_magic_means_no_hdlc : forall v,
  reachable v -> in_lcp_magic (ppp v) <> 0 -> hdlc (ppp v) = false.
Proof.
  intros v Hr Hm. destruct (hdlc (ppp v)) eqn:Hh; [ | reflexivity ].
  destruct (hdlc_session_learns_no_magic v Hr Hh) as [_ H0]. contradiction.
Qed.

(** ** Configuration packets *)

(** A 32-bit word and its complement differ in bit 0. *)
Lemma complement32_differs : forall x, complement32 x <> x.
Proof.
  intros x H.
  assert (Hb : Z.testbit (complement32 x) 0 = Z.testbit x 0) by (rewrite H; reflexivity).
  unfold complement32, u32 in Hb.
  rewrite Z.land_spec, Z.lnot_spec in Hb by lia.
  change (Z.testbit 0xffffffff 0) with true in Hb.
  rewrite andb_true_r in Hb. destruct (Z.testbit x 0); discriminate.
Qed.

(** C5, as amended.  [queue_config_request] for LCP sets [out_lcp_magic] to
    the bitwise complement of [in_lcp_magic], so the two differ in the
    state it returns.  In every reachable state in which an incoming magic
    has been stored, the Configure-Request it queues carries that
    complement in its magic option (tag 5); so it does in any state without
    byte stuffing.  In particular: the F5 session in ESTABLISH receives an
    LCP Configure-Request with magic [DE AD BE EF]; when the retransmit
    timer next expires the mainloop queues an LCP Configure-Request whose
    magic option is [21 52 41 10]. *)
Theorem lcp_request_magic_is_complement :
  (forall v id_,
     let v' := snd (queue_config_request v PPP_LCP id_) in
     let request := lcp_request_packet id_ (ip_info_mtu v')
                      (complement32 (in_lcp_magic (ppp v))) in
     out_lcp_magic (ppp v') = complement32 (in_lcp_magic (ppp v))
     /\ in_lcp_magic (ppp v') = in_lcp_magic (ppp v)
     /\ out_lcp_magic (ppp v') <> in_lcp_magic (ppp v')
     /\ (reachable v -> in_lcp_magic (ppp v) <> 0 ->
         tcp_control_queue v' = tcp_control_queue v ++ [request])
     /\ (hdlc (ppp v) = false ->
         tcp_control_queue v' = tcp_control_queue v ++ [request]))
  /\ (exists v2 t2,
        in_lcp_magic (ppp after_magic_learned) = 0xdeadbeef
        /\ state_transitions after_magic_learned 5000 1003 = (None, v2, t2)
        /\ tcp_control_queue v2 = [lcp_request_packet 1 1300 0x21524110]).
Proof.
  split.
  - intros v id_ v' request. subst v' request.
    assert (Hq : hdlc (ppp v) = false ->
                 tcp_control_queue (snd (queue_config_request v PPP_LCP id_))
                 = tcp_control_queue v
                   ++ [lcp_request_packet id_
                         (ip_info_mtu (snd (queue_config_request v PPP_LCP id_)))
                         (complement32 (in_lcp_magic (ppp v)))]).
    { destruct v as [s mtu a4 a6 qr cq iq oq cur lrx ltx dtls fd].
      destruct s as [en enl hd w4 w6 st l i4 i6 oam oopts omagic opeer oid uid
                     ehs iam iopts imagic ipeer iid].
      intro Hh. cbn [ppp hdlc] in Hh. subst hd.
      destruct mtu as [| m | m];
        lazy -[complement32 u8 u16 u32 Z.shiftr];
        hide_u8 imagic; hide_u8 id_; try hide_u8 m;
        vm_compute; reflexivity. }
    repeat apply conj.
    + destruct v as [[] [] ? ? ? ? ? ? ? ? ? ? ?]; lazy -[complement32]; reflexivity.
    + destruct v as [[] [] ? ? ? ? ? ? ? ? ? ? ?]; lazy -[complement32]; reflexivity.
    + destruct v as [[] [] ? ? ? ? ? ? ? ? ? ? ?]; lazy -[complement32];
        apply complement32_differs.
    + intros Hr Hm. apply Hq. apply learned_magic_means_no_hdlc; assumption.
    + exact Hq.
  - eexists. eexists.
    split; [ vm_compute; reflexivity | ].
    split; vm_compute; reflexivity.
Qed.

(** The session that has learned [DE AD BE EF] is reachable in two calls. *)
Lemma lcp_request_magic_is_complement_witness :
  tcp_control_queue (snd (queue_config_request after_magic_learned PPP_LCP 1))
  = tcp_control_queue after_magic_learned
    ++ [lcp_request_packet 1
          (ip_info_mtu (snd (queue_config_request after_magic_learned PPP_LCP 1)))
          (complement32 (in_lcp_magic (ppp after_magic_learned)))].
Proof.
  apply (proj1 (proj2 (proj2 (proj2
           (proj1 lcp_request_magic_is_complement after_magic_learned 1))))).
  - apply (reach_mainloop (after_first_call true false) 5000 magic_learned_env
             0 after_magic_learned 2000).
    + apply (reach_mainloop (vpninfo_new PPP_ENCAP_F5 true false) 5000
               (mk_env 1000 false [] [idle; wrote 32] 0)
               0 (after_first_call true false) 5000).
      * apply (reach_new _ PPP_ENCAP_F5 true false). reflexivity.
      * vm_compute. reflexivity.
    + vm_compute. reflexivity.
  - vm_compute. discriminate.
Defined.

(** C5 as stated fails: the two magics do not always differ.  The outgoing
    magic is only written when a request is built, and nothing compares an
    incoming magic with it.  The session that has sent [FF FF FF FF] and
    then reads a request with the magic [FF FF FF FF] stores it and
    acknowledges it: a reachable state with a learned incoming magic that
    equals the outgoing one. *)
Lemma magics_can_coincide :
  ~ (forall v,
       reachable v -> in_lcp_magic (ppp v) <> 0 ->
       out_lcp_magic (ppp v) <> in_lcp_magic (ppp v)).
Proof.
  intro H.
  apply (H after_same_magic).
  - apply (reach_mainloop (after_first_call true false) 5000 same_magic_env
             0 after_same_magic 2000).
    + apply (reach_mainloop (vpninfo_new PPP_ENCAP_F5 true false) 5000
               (mk_env 1000 false [] [idle; wrote 32] 0)
               0 (after_first_call true false) 5000).
      * apply (reach_new _ PPP_ENCAP_F5 true false). reflexivity.
      * vm_compute. reflexivity.
    + vm_compute. reflexivity.
  - vm_compute. discriminate.
  - vm_compute. reflexivity.
Qed.

(** What a Terminate-Request adds to the state of LCP: the one bit that
    [NCP_TERM_ACK_SENT] shares with [NCP_TERM_REQ_SENT]. *)
Lemma terminate_request_lcp_state : forall v p len,
  byte_at p 0 = TERMREQ ->
  state (lcp (ppp (snd (handle_config_packet v PPP_LCP p len))))
  = Z.lor (state (lcp (ppp v))) NCP_TERM_ACK_SENT.
Proof.
  intros v p len Hc.
  unfold handle_config_packet. rewrite Hc.
  destruct v as [s mtu a4 a6 qr cq iq oq cur lrx ltx dtls fd].
  destruct s as [en enl hd w4 w6 st l i4 i6 oam oopts omagic opeer oid uid
                 ehs iam iopts imagic ipeer iid].
  destruct qr; lazy -[Z.gtb Z.lor strndup advance Z.sub];
    try destruct (len >? 4); reflexivity.
Qed.

(** C6 (the code departs from the claim).  The claim: a Terminate-Request on
    a known NCP marks [TERM_REQ_RECEIVED], queues one Terminate-Ack with
    the same id, marks [TERM_ACK_SENT], and moves the session to TERMINATE.
    The code on the LCP packet [05 2A 00 04] in ESTABLISH: the Terminate-Ack
    with id [2A] is queued and the session is in TERMINATE, and the state
    of LCP gained [NCP_TERM_ACK_SENT] (16) only; [add_state] was
    overwritten, and bit 32, [NCP_TERM_REQ_RECEIVED], is clear. *)
Theorem terminate_request_not_recorded :
  let v := after_first_call true false in
  let p := [TERMREQ; 0x2a; 0x00; 0x04] in
  let v' := snd (handle_config_packet v PPP_LCP p 4) in
  state (lcp (ppp v)) = NCP_CONF_REQ_SENT
  /\ state (lcp (ppp v')) = Z.lor NCP_CONF_REQ_SENT NCP_TERM_ACK_SENT
  /\ flag_set (state (lcp (ppp v'))) NCP_TERM_REQ_RECEIVED = false
  /\ tcp_control_queue v' = [mk_pkt PPP_LCP 0 4 [] [TERMACK; 0x2a; 0x00; 0x04]]
  /\ ppp_state (ppp v') = PPPS_TERMINATE.
Proof. cbv zeta. repeat apply conj; vm_compute; reflexivity. Qed.

(** C8.  An Echo-Request with id [N] ([p[1]]), whatever follows it, is
    answered when the session is in OPENED or later by exactly one packet
    at the tail of the control queue: an Echo-Reply with id [N], length 8,
    whose four payload bytes are [out_lcp_magic]; below OPENED the queue is
    left as it is. *)
Theorem echo_request_reply :
  forall v proto p len,
    byte_at p 0 = ECHOREQ ->
    let v' := snd (handle_config_packet v proto p len) in
    (PPPS_OPENED <= ppp_state (ppp v) ->
     tcp_control_queue v'
     = tcp_control_queue v
       ++ [mk_pkt (u16 proto) 0 8 []
             ([ECHOREP; byte_at p 1; 0; 8] ++ store_be32 (out_lcp_magic (ppp v)))])
    /\ (ppp_state (ppp v) < PPPS_OPENED -> tcp_control_queue v' = tcp_control_queue v).
Proof.
  intros v proto p len Hc v'. subst v'.
  unfold handle_config_packet. rewrite Hc.
  change (ECHOREQ =? CONFREQ) with false. change (ECHOREQ =? CONFACK) with false.
  change (ECHOREQ =? ECHOREQ) with true. cbv iota.
  split; intro Hst.
  - assert (Hge : (ppp_state (ppp v) >=? PPPS_OPENED) = true)
      by (apply Z.geb_le; exact Hst).
    rewrite Hge. unfold queue_config_packet. rewrite byte_at_u8.
    destruct (known_ncp proto); reflexivity.
  - assert (Hge : (ppp_state (ppp v) >=? PPPS_OPENED) = false).
    { destruct (ppp_state (ppp v) >=? PPPS_OPENED) eqn:E; [ | reflexivity ].
      apply Z.geb_le in E. lia. }
    rewrite Hge. destruct (known_ncp proto); reflexivity.
Qed.

(** An LCP Echo-Request with id 7 and payload [01 02 03 04], in NETWORK and
    in ESTABLISH. *)
Lemma echo_request_reply_witness :
  let v := upd_ppp (fun s => set_ppp_state s PPPS_NETWORK)
             (after_first_call true false) in
  tcp_control_queue
    (snd (handle_config_packet v PPP_LCP [ECHOREQ; 0x07; 0x00; 0x08; 1; 2; 3; 4] 8))
  = [mk_pkt PPP_LCP 0 8 [] [ECHOREP; 0x07; 0x00; 0x08; 0xff; 0xff; 0xff; 0xff]]
  /\ tcp_control_queue
       (snd (handle_config_packet (after_first_call true false) PPP_LCP
               [ECHOREQ; 0x07; 0x00; 0x08; 1; 2; 3; 4] 8))
     = [].
Proof.
  split.
  - apply (proj1 (echo_request_reply
                    (upd_ppp (fun s => set_ppp_state s PPPS_NETWORK)
                       (after_first_call true false))
                    PPP_LCP [ECHOREQ; 0x07; 0x00; 0x08; 1; 2; 3; 4] 8 eq_refl)).
    vm_compute. discriminate.
  - apply (proj2 (echo_request_reply (after_first_call true false)
                    PPP_LCP [ECHOREQ; 0x07; 0x00; 0x08; 1; 2; 3; 4] 8 eq_refl)).
    vm_compute. reflexivity.
Defined.

(** ** State transitions *)

(** In ESTABLISH, with LCP not yet acknowledged both ways and the
    retransmit timer not yet due, control falls through into the code of
    [case PPPS_OPENED]. *)
Lemma case_ESTABLISH_falls_through : forall v timeout now_,
  both_acks (lcp (ppp v)) = false ->
  now_ < last_req (lcp (ppp v)) + 3 ->
  exists t, case_ESTABLISH v timeout now_ = case_OPENED v t now_.
Proof.
  intros v timeout now_ Hacks Hdue.
  unfold case_ESTABLISH.
  unfold both_acks in Hacks. rewrite andb_comm in Hacks. rewrite Hacks.
  unfold ka_check_deadline.
  assert (Hn : (now_ >=? last_req (lcp (ppp v)) + 3) = false).
  { destruct (now_ >=? last_req (lcp (ppp v)) + 3) eqn:E; [ | reflexivity ].
    apply Z.geb_le in E. lia. }
  rewrite Hn. eexists. reflexivity.
Qed.

(** C7 (the code departs from the claim).  The claim: [ppp_state] is
    NETWORK only if LCP has [CONF_ACK_SENT] and [CONF_ACK_RECEIVED] and so
    has every wanted IPvX NCP.  The code, on an F5 session that wants IPv4:
    one second after the first LCP Configure-Request the peer's IPCP
    Configure-Request and IPCP Configure-Ack arrive, and on the next call,
    still within the three seconds of the LCP timer, the session is in
    NETWORK while the state of LCP holds [NCP_CONF_REQ_SENT] alone.  With
    neither IPv4 nor IPv6 wanted the second call reaches NETWORK without
    any frame received. *)
Theorem network_reached_without_lcp :
  let ipcp_req := [0xf5; 0x00; 0x00; 0x0e; 0xff; 0x03; 0x80; 0x21;
                   0x01; 0x01; 0x00; 0x0a; 0x03; 0x06; 0x0a; 0x00; 0x00; 0x01] in
  let ipcp_ack := [0xf5; 0x00; 0x00; 0x0e; 0xff; 0x03; 0x80; 0x21;
                   0x02; 0x01; 0x00; 0x0a; 0x03; 0x06; 0x00; 0x00; 0x00; 0x00] in
  (exists v2 v3 t2 t3,
     ppp_mainloop (after_first_call true false) 5000
       (mk_env 1001 true [ReadBytes ipcp_req; ReadBytes ipcp_ack]
          [idle; wrote 16; wrote 16] 0) = Some (0, v2, t2)
     /\ ppp_mainloop v2 t2 (mk_env 1002 false [] [idle] 0) = Some (0, v3, t3)
     /\ ppp_state (ppp v3) = PPPS_NETWORK
     /\ want_ipv4 (ppp v3) = true
     /\ state (lcp (ppp v3)) = NCP_CONF_REQ_SENT
     /\ both_acks (lcp (ppp v3)) = false)
  /\ (exists v2 t2,
        ppp_mainloop (after_first_call false false) 5000
          (mk_env 1001 false [] [idle] 0) = Some (0, v2, t2)
        /\ ppp_state (ppp v2) = PPPS_NETWORK
        /\ both_acks (lcp (ppp v2)) = false).
Proof.
  cbv zeta. split.
  - eexists. eexists. eexists. eexists.
    split; [ vm_compute; reflexivity | ].
    split; [ vm_compute; reflexivity | ].
    repeat apply conj; vm_compute; reflexivity.
  - eexists. eexists.
    split; [ vm_compute; reflexivity | ].
    split; vm_compute; reflexivity.
Qed.

(** ** Sending *)

(** The header the code writes, for any protocol number: the compressions
    follow [out_lcp_opts], and one byte is enough for the protocol as soon
    as the number fits in it. *)
Lemma ppp_header_shape : forall s proto,
  ppp_header s proto
  = spec_addr_ctrl (out_lcp_opts s) proto
    ++ (if flag_set (out_lcp_opts s) PFCOMP && (proto <=? 0xff)
        then [u8 proto] else store_be16 proto).
Proof.
  intros s proto. unfold ppp_header, spec_addr_ctrl, store_be16.
  assert (Hgt : (proto >? 0xff) = negb (proto <=? 0xff)).
  { rewrite Z.gtb_ltb, Z.leb_antisym, negb_involutive. reflexivity. }
  rewrite Hgt.
  destruct (proto =? PPP_LCP); destruct (flag_set (out_lcp_opts s) ACCOMP);
    destruct (flag_set (out_lcp_opts s) PFCOMP); destruct (proto <=? 0xff);
    reflexivity.
Qed.

(** C9, as amended.  For every packet the mainloop sends (protocol LCP,
    IPCP, IP6CP, IPv4 or IPv6) the PPP header written in front of the
    payload is the one the specification describes when "the peer
    advertised" is read as "[out_lcp_opts] holds": one protocol byte iff
    PFCOMP is in [out_lcp_opts] and the number fits in a byte and is odd,
    else two bytes big-endian; no [FF 03] iff ACCOMP is in [out_lcp_opts]
    and the frame is not LCP; an LCP frame always starts [FF 03 C0 21].
    Under F5 the four bytes [F5 00 len] come first, [len] counting the PPP
    header and the payload. *)
Theorem egress_header_follows_out_lcp_opts :
  forall s proto this,
    In proto sent_protocols ->
    ppp_header s proto = spec_ppp_header (out_lcp_opts s) proto
    /\ (proto = PPP_LCP -> ppp_header s proto = [0xff; 0x03; 0xc0; 0x21])
    /\ wire_bytes (prepend_headers s proto this)
       = (if encap s =? PPP_ENCAP_F5
          then [0xf5; 0x00]
               ++ store_be16 (pkt_len this + Z.of_nat (List.length (ppp_header s proto)))
          else [])
         ++ ppp_header s proto ++ pkt_data this.
Proof.
  intros s proto this Hin.
  repeat apply conj.
  - rewrite ppp_header_shape. unfold spec_ppp_header, spec_proto_field.
    f_equal.
    assert (Hodd : (proto <=? 0xff) = ((proto <=? 0xff) && Z.odd proto)%bool).
    { simpl in Hin.
      destruct Hin as [<- | [<- | [<- | [<- | [<- | []]]]]]; reflexivity. }
    rewrite <- andb_assoc, <- Hodd. reflexivity.
  - intros ->. unfold ppp_header.
    change (PPP_LCP >? 0xff) with true. change (PPP_LCP =? PPP_LCP) with true.
    reflexivity.
  - unfold wire_bytes, prepend_headers. cbn [pkt_hdr pkt_data pkt_len].
    destruct (encap s =? PPP_ENCAP_F5).
    + change (store_be16 0xf500) with [0xf5; 0x00].
      replace (pkt_len this - - Z.of_nat (List.length (ppp_header s proto)))
        with (pkt_len this + Z.of_nat (List.length (ppp_header s proto))) by lia.
      rewrite <- !app_assoc. reflexivity.
    + reflexivity.
Qed.

(** An IPv4 packet of four bytes on the session that has sent its LCP
    request: one protocol byte and no [FF 03]. *)
Lemma egress_header_follows_out_lcp_opts_witness :
  let s := ppp (after_first_call true false) in
  let this := mk_pkt 0 0 4 [] [0x45; 0x00; 0x00; 0x04] in
  wire_bytes (prepend_headers s PPP_IP this)
  = [0xf5; 0x00; 0x00; 0x05; 0x21; 0x45; 0x00; 0x00; 0x04].
Proof.
  exact (proj2 (proj2
           (egress_header_follows_out_lcp_opts (ppp (after_first_call true false))
              PPP_IP (mk_pkt 0 0 4 [] [0x45; 0x00; 0x00; 0x04])
              (or_intror (or_intror (or_intror (or_introl eq_refl))))))).
Defined.

(** C9 as stated fails: the options the peer advertised are in
    [in_lcp_opts], and the header does not follow them.  On the session
    that has sent its own LCP request and received none, [in_lcp_opts] is
    empty, and the IPCP request that the next call sends still goes out
    without [FF 03], as [80 21]. *)
Lemma egress_header_ignores_peer_options :
  ~ (forall s proto,
       In proto sent_protocols ->
       ppp_header s proto = spec_ppp_header (in_lcp_opts s) proto).
Proof.
  intro H.
  specialize (H (ppp (after_first_call true false)) PPP_IPCP
                (or_intror (or_introl eq_refl))).
  vm_compute in H. discriminate H.
Qed.

(** * Further properties of the code *)

(** ** HDLC byte stuffing, continued *)

Lemma NEED_ESCAPE_high : forall c map,
  0x20 <= c -> NEED_ESCAPE c map = (c =? 0x7d) || (c =? 0x7e).
Proof.
  intros c map Hc. unfold NEED_ESCAPE.
  assert (H1 : (c <? 0x20) = false) by (apply Z.ltb_ge; lia).
  rewrite H1. reflexivity.
Qed.

(** X1.  [NEED_ESCAPE] reads the asyncmap as a truth value: two maps that
    are both zero or both non-zero give the same answer for every byte, and
    a byte is escaped exactly when it is [0x7d] or [0x7e], or below [0x20]
    under a non-zero map. *)
Theorem NEED_ESCAPE_ignores_asyncmap_bits :
  forall c map map',
    0 <= c ->
    (map = 0 <-> map' = 0) ->
    NEED_ESCAPE c map = NEED_ESCAPE c map'
    /\ (NEED_ESCAPE c map = true <->
        (c < 0x20 /\ map <> 0) \/ c = 0x7d \/ c = 0x7e).
Proof.
  intros c map map' Hc Hz.
  destruct (Z_lt_le_dec c 0x20) as [Hlt | Hge].
  - rewrite !NEED_ESCAPE_control by lia. split.
    + destruct (Z.eqb_spec map 0) as [E | E]; destruct (Z.eqb_spec map' 0) as [E' | E'];
        try reflexivity; exfalso; tauto.
    + destruct (Z.eqb_spec map 0) as [E | E]; simpl; split; intro H.
      * discriminate.
      * destruct H as [[_ H] | [H | H]]; [ contradiction | lia | lia ].
      * left. split; [ lia | exact E ].
      * reflexivity.
  - rewrite !NEED_ESCAPE_high by lia. split; [ reflexivity | ].
    rewrite orb_true_iff, !Z.eqb_eq. split; intro H.
    + right. exact H.
    + destruct H as [[H _] | H]; [ lia | exact H ].
Qed.

(** The byte [0x01] under two maps that differ in its bit. *)
Lemma NEED_ESCAPE_ignores_asyncmap_bits_witness :
  NEED_ESCAPE 0x01 0x1 = NEED_ESCAPE 0x01 0xfffffffe.
Proof.
  apply (proj1 (NEED_ESCAPE_ignores_asyncmap_bits 0x01 0x1 0xfffffffe
                  ltac:(lia) ltac:(split; intro H; discriminate H))).
Defined.

(** The byte behind a prefix. *)
Lemma byte_at_app_length : forall (pre : list Z) c rest,
  byte_at (pre ++ c :: rest) (Z.of_nat (List.length pre)) = u8 c.
Proof.
  intros pre c rest. unfold byte_at. rewrite Nat2Z.id.
  rewrite nth_middle. reflexivity.
Qed.

Lemma ppphdlc_loop_all_escaped : forall rest pre map buf,
  (forall c, In c rest -> NEED_ESCAPE (u8 c) map = true) ->
  ppphdlc_loop (List.length rest) (pre ++ rest) map
    (Z.of_nat (List.length pre)) (Z.of_nat (List.length pre)) buf
  = buf ++ flat_map (fun c => [0x7d; Z.lxor (u8 c) 0x20]) rest.
Proof.
  induction rest as [| c rest IH]; intros pre map buf H.
  - simpl. rewrite app_nil_r. reflexivity.
  - cbn [List.length ppphdlc_loop]. rewrite byte_at_app_length.
    rewrite (H c) by (left; reflexivity).
    assert (Hgt : (Z.of_nat (List.length pre) >? Z.of_nat (List.length pre)) = false).
    { rewrite Z.gtb_ltb. apply Z.ltb_irrefl. }
    rewrite Hgt.
    replace (Z.of_nat (List.length pre) + 1)
      with (Z.of_nat (List.length (pre ++ [c])))
      by (rewrite length_app; simpl; lia).
    replace (pre ++ c :: rest) with ((pre ++ [c]) ++ rest)
      by (rewrite <- app_assoc; reflexivity).
    rewrite IH by (intros c' Hc'; apply H; right; exact Hc').
    unfold buf_append_bytes. cbn [flat_map Z.to_nat Pos.to_nat Pos.iter_op firstn].
    rewrite <- app_assoc. reflexivity.
Qed.

(** X2.  When every byte of the input needs an escape, nothing is pending
    in front of any of them and the output is complete: each byte [c]
    becomes [0x7d, c xor 0x20], appended to what the buffer held. *)
Theorem buf_append_ppphdlc_all_escaped :
  forall bytes map buf,
    (forall c, In c bytes -> NEED_ESCAPE (u8 c) map = true) ->
    buf_append_ppphdlc buf bytes (Z.of_nat (List.length bytes)) map
    = buf ++ flat_map (fun c => [0x7d; Z.lxor (u8 c) 0x20]) bytes.
Proof.
  intros bytes map buf H. unfold buf_append_ppphdlc. rewrite Nat2Z.id.
  apply (ppphdlc_loop_all_escaped bytes [] map buf H).
Qed.

(** Three bytes that all need an escape under the LCP asyncmap. *)
Lemma buf_append_ppphdlc_all_escaped_witness :
  buf_append_ppphdlc [0xaa] [0x7e; 0x01; 0x7d] 3 ASYNCMAP_LCP
  = [0xaa; 0x7d; 0x5e; 0x7d; 0x21; 0x7d; 0x5d].
Proof.
  apply (buf_append_ppphdlc_all_escaped [0x7e; 0x01; 0x7d] ASYNCMAP_LCP [0xaa]).
  intros c [<- | [<- | [<- | []]]]; vm_compute; reflexivity.
Defined.

Lemma byte_at_In : forall (data : list Z) j,
  0 <= j < Z.of_nat (List.length data) ->
  exists c, In c data /\ byte_at data j = u8 c.
Proof.
  intros data j Hj. exists (nth (Z.to_nat j) data 0). split; [ | reflexivity ].
  apply nth_In. lia.
Qed.

Lemma ppphdlc_loop_nothing_to_escape : forall n data map i s buf,
  (forall c, In c data -> NEED_ESCAPE (u8 c) map = false) ->
  0 <= i -> i + Z.of_nat n <= Z.of_nat (List.length data) ->
  ppphdlc_loop n data map i s buf = buf.
Proof.
  induction n as [| n IH]; intros data map i s buf H Hi Hn.
  - reflexivity.
  - cbn [ppphdlc_loop].
    destruct (byte_at_In data i) as [c [Hc Hb]]; [ lia | ].
    rewrite Hb, (H c Hc). apply IH; [ exact H | lia | lia ].
Qed.

(** X3.  When no byte of the input needs an escape, the function appends
    nothing at all: the run of plain bytes is only written in front of an
    escape, and there is none. *)
Theorem buf_append_ppphdlc_nothing_to_escape :
  forall bytes len map buf,
    (forall c, In c bytes -> NEED_ESCAPE (u8 c) map = false) ->
    len <= Z.of_nat (List.length bytes) ->
    buf_append_ppphdlc buf bytes len map = buf.
Proof.
  intros bytes len map buf H Hlen. unfold buf_append_ppphdlc.
  apply ppphdlc_loop_nothing_to_escape; [ exact H | lia | lia ].
Qed.

(** Four plain bytes under an asyncmap of zero. *)
Lemma buf_append_ppphdlc_nothing_to_escape_witness :
  buf_append_ppphdlc [0xaa] [0x45; 0x00; 0x1f; 0xff] 4 0 = [0xaa].
Proof.
  apply (buf_append_ppphdlc_nothing_to_escape [0x45; 0x00; 0x1f; 0xff] 4 0 [0xaa]).
  - intros c [<- | [<- | [<- | [<- | []]]]]; vm_compute; reflexivity.
  - simpl. lia.
Defined.

Lemma ppphdlc_loop_length : forall n data map i s buf,
  0 <= s <= i ->
  Z.of_nat (List.length (ppphdlc_loop n data map i s buf))
  <= Z.of_nat (List.length buf) + 2 * (i + Z.of_nat n - s).
Proof.
  induction n as [| n IH]; intros data map i s buf Hs.
  - cbn [ppphdlc_loop]. lia.
  - cbn [ppphdlc_loop].
    destruct (NEED_ESCAPE (byte_at data i) map).
    + eapply Z.le_trans; [ apply IH; lia | ].
      unfold buf_append_bytes. rewrite !length_app.
      change (List.length (firstn (Z.to_nat 2) [0x7d; Z.lxor (byte_at data i) 0x20]))
        with 2%nat.
      rewrite Nat2Z.inj_add.
      destruct (i >? s).
      * rewrite length_app, Nat2Z.inj_add.
        pose proof (firstn_le_length (Z.to_nat (i - s - 1)) (advance data s)). lia.
      * lia.
    + eapply Z.le_trans; [ apply IH; lia | ]. lia.
Qed.

(** X4.  The function appends at most two bytes per input byte, which is
    within twice the space that [buf_ensure_space (buf, len)] asks for. *)
Theorem buf_append_ppphdlc_length :
  forall bytes len map buf,
    0 <= len ->
    Z.of_nat (List.length (buf_append_ppphdlc buf bytes len map))
    <= Z.of_nat (List.length buf) + 2 * len.
Proof.
  intros bytes len map buf Hlen. unfold buf_append_ppphdlc.
  eapply Z.le_trans; [ apply ppphdlc_loop_length; lia | ]. lia.
Qed.

(** Two escapes around a plain byte. *)
Lemma buf_append_ppphdlc_length_witness :
  Z.of_nat (List.length (buf_append_ppphdlc [] [0x7e; 0x41; 0x7d] 3 0)) <= 0 + 2 * 3.
Proof.
  apply (buf_append_ppphdlc_length [0x7e; 0x41; 0x7d] 3 0 []). lia.
Defined.

(** ** The option switch *)

Lemma land_shiftl_low : forall a b k,
  0 <= k -> 0 <= b < 2 ^ k -> Z.land (Z.shiftl a k) b = 0.
Proof.
  intros a b k Hk Hb. apply Z.bits_inj'. intros n Hn.
  rewrite Z.land_spec, Z.bits_0.
  destruct (Z_lt_le_dec n k) as [Hlt | Hge].
  - rewrite Z.shiftl_spec_low by lia. reflexivity.
  - destruct (Z.eq_dec b 0) as [-> | Hnz].
    + rewrite Z.bits_0. apply andb_false_r.
    + rewrite (Z.bits_above_log2 b n); [ apply andb_false_r | lia | ].
      apply Z.log2_lt_pow2; [ lia | ].
      apply Z.lt_le_trans with (2 ^ k); [ lia | ].
      apply Z.pow_le_mono_r; lia.
Qed.

Lemma lor_shiftl_low : forall a b k,
  0 <= k -> 0 <= b < 2 ^ k -> Z.lor (Z.shiftl a k) b = a * 2 ^ k + b.
Proof.
  intros a b k Hk Hb.
  pose proof (Z.add_lor_land (Z.shiftl a k) b) as H.
  rewrite land_shiftl_low in H by assumption.
  rewrite Z.shiftl_mul_pow2 in * by lia. lia.
Qed.

Lemma u32_small : forall x, 0 <= x < 2 ^ 32 -> u32 x = x.
Proof.
  intros x Hx. unfold u32. change 0xffffffff with (Z.ones 32).
  rewrite Z.land_ones by lia. apply Z.mod_small. exact Hx.
Qed.

(** The key of the option switch is the number with the protocol in the
    upper 16 bits, the tag in the next 8 and [l] in the low 8. *)
Lemma PROTO_TAG_LEN_value : forall p t l,
  0 <= p < 65536 -> 0 <= t < 256 -> 0 <= l < 256 ->
  PROTO_TAG_LEN p t l = p * 65536 + t * 256 + l.
Proof.
  intros p t l Hp Ht Hl. unfold PROTO_TAG_LEN.
  replace (Z.lor (Z.shiftl p 16) (Z.shiftl t 8)) with (Z.shiftl (p * 256 + t) 8).
  2:{ change 256 with (2 ^ 8). rewrite <- (lor_shiftl_low p t 8) by lia.
      rewrite Z.shiftl_lor, Z.shiftl_shiftl by lia. reflexivity. }
  rewrite (lor_shiftl_low (p * 256 + t) l 8) by lia.
  change (2 ^ 8) with 256.
  rewrite u32_small; [ lia | change (2 ^ 32) with 4294967296; lia ].
Qed.

(** The two directions of the table. *)
Lemma handle_option_listed : forall v proto payload p,
  In (proto, byte_at payload p, byte_at payload (p + 1)) option_table ->
  ((proto, byte_at payload p, byte_at payload (p + 1)) = (PPP_IPCP, 2, 4) ->
   load_be16 payload (p + 2) = 0x002d) ->
  handle_option v proto payload p <> None.
Proof.
  intros v proto payload p Hin Hvj. unfold handle_option.
  unfold option_table in Hin. simpl in Hin.
  repeat (destruct Hin as [Hin | Hin];
          [ injection Hin as <- Ht Hl;
            try (rewrite <- Ht, <- Hl in Hvj; rewrite (Hvj eq_refl));
            rewrite <- Ht, <- Hl; discriminate | ]).
  contradiction.
Qed.

Lemma handle_option_unlisted : forall v proto payload p,
  0 <= proto < 65536 ->
  handle_option v proto payload p <> None ->
  In (proto, byte_at payload p, byte_at payload (p + 1)) option_table
  /\ ((proto, byte_at payload p, byte_at payload (p + 1)) = (PPP_IPCP, 2, 4) ->
      load_be16 payload (p + 2) = 0x002d).
Proof.
  intros v proto payload p Hp.
  pose proof (byte_at_range payload p) as Ht.
  pose proof (byte_at_range payload (p + 1)) as Hl.
  destruct (Z_lt_le_dec (byte_at payload (p + 1)) 2) as [Hshort | Hlong].
  { rewrite handle_option_short by exact Hshort. intro H. contradiction. }
  unfold handle_option.
  rewrite (PROTO_TAG_LEN_value proto _ (_ - 2)) by lia.
  remember (byte_at payload p) as t eqn:Et in *.
  remember (byte_at payload (p + 1)) as l eqn:El in *.
  unfold option_table.
  repeat match goal with
  | |- context [ ?k =? PROTO_TAG_LEN ?P ?T ?L ] =>
    let c := eval vm_compute in (PROTO_TAG_LEN P T L) in
    let E := fresh "E" in
    change (PROTO_TAG_LEN P T L) with c;
    destruct (Z.eqb_spec k c) as [E | E];
    [ assert (proto = P /\ t = T /\ l = L + 2) as [Hp' [Ht' Hl']]
        by (unfold P; lia);
      rewrite Hp', Ht', Hl'; clear; cbv iota | ]
  end.
  all: try (intros _; split; [ simpl; tauto | intro Hx; discriminate Hx ]).
  - destruct (Z.eqb_spec (load_be16 payload (p + 2)) 0x002d) as [Ev | Ev].
    + intros _. split; [ simpl; tauto | intros _; exact Ev ].
    + intro H. contradiction.
  - intro H. contradiction.
Qed.

(** X5.  The option [switch] accepts an option exactly when its protocol,
    tag and length byte are one of the eight shapes of [option_table], and,
    for the IPCP compression option, when the value is [0x002d] (Van
    Jacobson) as well; everything else is the jump to [unknown]. *)
Theorem handle_option_accepts_table_only :
  forall v proto payload p,
    0 <= proto < 65536 ->
    handle_option v proto payload p <> None <->
    In (proto, byte_at payload p, byte_at payload (p + 1)) option_table
    /\ ((proto, byte_at payload p, byte_at payload (p + 1)) = (PPP_IPCP, 2, 4) ->
        load_be16 payload (p + 2) = 0x002d).
Proof.
  intros v proto payload p Hp. split.
  - apply handle_option_unlisted. exact Hp.
  - intros [Hin Hvj]. apply handle_option_listed; assumption.
Qed.

(** The LCP MTU option. *)
Lemma handle_option_accepts_table_only_witness :
  handle_option (vpninfo_new PPP_ENCAP_F5 true false) PPP_LCP [0x01; 0x04; 0x05; 0xdc] 0
  <> None.
Proof.
  apply (proj2 (handle_option_accepts_table_only
                  (vpninfo_new PPP_ENCAP_F5 true false) PPP_LCP
                  [0x01; 0x04; 0x05; 0xdc] 0 ltac:(vm_compute; split; congruence))).
  split; [ left; reflexivity | intro H; discriminate H ].
Defined.

(** ** Configure-Requests and their acknowledgement *)







Lemma ncp_add_state_ppp_state : forall proto flag s,
  ppp_state (ncp_add_state proto flag s) = ppp_state s.
Proof.
  intros proto flag s. unfold ncp_add_state.
  repeat match goal with
  | |- context [if ?c then _ else _] => destruct c
  end; reflexivity.
Qed.



(** ** The other codes *)

(** Adding no flag changes nothing. *)
Lemma ncp_add_state_0 : forall proto v,
  upd_ppp (ncp_add_state proto 0) v = v.
Proof.
  intros proto v. destruct v as [s ? ? ? ? ? ? ? ? ? ? ? ?].
  destruct s as [? ? ? ? ? ? [s1 n1 r1] [s2 n2 r2] [s3 n3 r3] ? ? ? ? ? ? ? ? ? ? ? ?].
  unfold upd_ppp, set_ppp, ncp_add_state.
  destruct (proto =? PPP_LCP); [ | destruct (proto =? PPP_IPCP);
    [ | destruct (proto =? PPP_IP6CP) ] ];
    cbn -[Z.lor]; rewrite ?Z.lor_0_r; reflexivity.
Qed.

(** X7.  A configuration packet with a code that [handle_config_packet]
    does not act on (Configure-Nak, Configure-Reject, Code-Reject,
    Protocol-Reject, Echo-Reply, Discard-Request or an unknown code)
    leaves [vpninfo] exactly as it was.  The handler returns [-EINVAL] for
    all of them but Echo-Reply and Discard-Request, and the read loop,
    which does not look at the return value, goes on with the next
    packet. *)
Theorem other_codes_leave_session :
  forall v work_done proto pp hdr payload_len,
    known_ncp proto = true ->
    acted_on (byte_at pp 0) = false ->
    4 <= payload_len ->
    load_be16 pp 2 = payload_len ->
    snd (handle_config_packet v proto pp payload_len) = v
    /\ fst (handle_config_packet v proto pp payload_len)
       = (if (byte_at pp 0 =? ECHOREP) || (byte_at pp 0 =? DISCREQ)
          then 0 else - EINVAL)
    /\ rx_dispatch v work_done proto pp hdr payload_len = RxContinue v work_done.
Proof.
  intros v work_done proto pp hdr payload_len Hk Hcode Hlen Hfield.
  unfold acted_on in Hcode.
  repeat (apply orb_false_elim in Hcode; destruct Hcode as [Hcode ?]).
  assert (Hp : handle_config_packet v proto pp payload_len
               = (if (byte_at pp 0 =? ECHOREP) || (byte_at pp 0 =? DISCREQ)
                  then 0 else - EINVAL, v)).
  { unfold handle_config_packet.
    repeat match goal with H : (_ =? _) = false |- _ => rewrite H; clear H end.
    rewrite Hk.
    destruct ((byte_at pp 0 =? ECHOREP) || (byte_at pp 0 =? DISCREQ));
      rewrite ncp_add_state_0; reflexivity. }
  rewrite Hp. cbn [fst snd].
  split; [ reflexivity | ]. split; [ reflexivity | ].
  unfold rx_dispatch. rewrite Hk.
  assert (Hc : (payload_len <? 4) || negb (load_be16 pp 2 =? payload_len) = false).
  { rewrite Hfield, Z.eqb_refl. assert ((payload_len <? 4) = false) as ->
      by (apply Z.ltb_ge; lia). reflexivity. }
  rewrite Hc, Hp. reflexivity.
Qed.

(** A Configure-Nak for LCP. *)
Lemma other_codes_leave_session_witness :
  let v := after_first_call true false in
  rx_dispatch v 0 PPP_LCP [CONFNAK; 0x01; 0x00; 0x04] 4 4 = RxContinue v 0.
Proof.
  cbv zeta.
  apply (proj2 (proj2 (other_codes_leave_session (after_first_call true false) 0
           PPP_LCP [CONFNAK; 0x01; 0x00; 0x04] 4 4 eq_refl eq_refl
           ltac:(lia) eq_refl))).
Defined.

(** X8.  A Configure-Ack is taken at its word: for every identifier,
    length and content, and whether or not a request is outstanding, it
    sets ACK_RECEIVED for its NCP and does nothing else: nothing is queued
    and the session state stays. *)
Theorem configure_ack_marks_received :
  forall v proto p len,
    known_ncp proto = true ->
    byte_at p 0 = CONFACK ->
    let r := handle_config_packet v proto p len in
    fst r = 0
    /\ snd r = upd_ppp (ncp_add_state proto NCP_CONF_ACK_RECEIVED) v
    /\ state (ncp_of proto (ppp (snd r)))
       = Z.lor (state (ncp_of proto (ppp v))) NCP_CONF_ACK_RECEIVED
    /\ tcp_control_queue (snd r) = tcp_control_queue v
    /\ ppp_state (ppp (snd r)) = ppp_state (ppp v).
Proof.
  intros v proto p len Hk Hc r. subst r.
  unfold handle_config_packet. rewrite Hc, Hk.
  change (CONFACK =? CONFREQ) with false. change (CONFACK =? CONFACK) with true.
  cbv iota. cbn [fst snd]. repeat apply conj; try reflexivity.
  - unfold upd_ppp, set_ppp. cbn [ppp].
    unfold ncp_of, ncp_add_state, known_ncp in *.
    destruct (proto =? PPP_LCP); [ reflexivity | ].
    destruct (proto =? PPP_IPCP); [ reflexivity | ].
    destruct (proto =? PPP_IP6CP); [ reflexivity | discriminate ].
  - unfold upd_ppp, set_ppp. cbn [ppp].
    unfold ncp_add_state.
    repeat match goal with
    | |- context [if ?c then _ else _] => destruct c
    end; reflexivity.
Qed.

(** An ack with an identifier that was never used. *)
Lemma configure_ack_marks_received_witness :
  let v := after_first_call true false in
  let r := handle_config_packet v PPP_LCP [CONFACK; 0x63; 0x00; 0x04] 4 in
  state (lcp (ppp (snd r))) = Z.lor NCP_CONF_REQ_SENT NCP_CONF_ACK_RECEIVED
  /\ tcp_control_queue (snd r) = [].
Proof.
  pose proof (configure_ack_marks_received (after_first_call true false) PPP_LCP
                [CONFACK; 0x63; 0x00; 0x04] 4 eq_refl eq_refl) as H.
  cbv zeta in H. destruct H as [_ [_ [Hs [Hq _]]]].
  split; [ exact Hs | exact Hq ].
Defined.

(** What the label [set_quit_reason] does. *)
Lemma set_quit_reason_terminate_reason : forall v p len,
  quit_reason (set_quit_reason_terminate v p len) = reason_after_terminate v p len
  /\ ppp_state (ppp (set_quit_reason_terminate v p len)) = PPPS_TERMINATE
  /\ tcp_control_queue (set_quit_reason_terminate v p len) = tcp_control_queue v.
Proof.
  intros v p len. unfold set_quit_reason_terminate, reason_after_terminate.
  destruct (quit_reason v) eqn:Eq.
  - repeat split; try reflexivity. exact Eq.
  - destruct (len >? 4); repeat split; try reflexivity. exact Eq.
Qed.

(** X9.  Terminate-Request and Terminate-Ack both put the session in
    TERMINATE, for a known protocol or not.  A quit reason that is already
    set is kept; otherwise the bytes after the four-byte header, up to the
    first NUL, become the reason, and a packet of four bytes leaves none.
    The ack queues nothing; the request queues one Terminate-Ack of four
    bytes with its identifier. *)
Theorem terminate_packets_end_session :
  forall v proto p len,
    byte_at p 0 = TERMREQ \/ byte_at p 0 = TERMACK ->
    let v' := snd (handle_config_packet v proto p len) in
    ppp_state (ppp v') = PPPS_TERMINATE
    /\ quit_reason v' = reason_after_terminate v p len
    /\ (byte_at p 0 = TERMACK -> tcp_control_queue v' = tcp_control_queue v)
    /\ (byte_at p 0 = TERMREQ ->
        tcp_control_queue v'
        = tcp_control_queue v
          ++ [mk_pkt (u16 proto) 0 4 [] [TERMACK; byte_at p 1; 0; 4]]).
Proof.
  intros v proto p len Hc v'. subst v'.
  unfold handle_config_packet.
  destruct Hc as [Hc | Hc]; rewrite Hc.
  - change (TERMREQ =? CONFREQ) with false. change (TERMREQ =? CONFACK) with false.
    change (TERMREQ =? ECHOREQ) with false. change (TERMREQ =? TERMREQ) with true.
    cbv iota. unfold queue_config_packet. cbv iota zeta.
    change (0 >=? 0) with true. cbv iota. rewrite byte_at_u8.
    destruct (set_quit_reason_terminate_reason
                (set_tcp_control_queue v
                   (queue_packet (tcp_control_queue v)
                      (mk_pkt (u16 proto) 0 (4 + 0) []
                         ([u8 TERMACK; byte_at p 1] ++ store_be16 (4 + 0)
                          ++ (if 0 =? 0 then [] else firstn (Z.to_nat 0) [])))))
                p len) as [Hr [Hs Hq]].
    destruct (known_ncp proto); cbn [snd];
      unfold upd_ppp, set_ppp; cbn [ppp quit_reason tcp_control_queue];
      rewrite ?ncp_add_state_ppp_state;
      (repeat apply conj;
       [ exact Hs | exact Hr | intro H; discriminate H | intros _; exact Hq ]).
  - change (TERMACK =? CONFREQ) with false. change (TERMACK =? CONFACK) with false.
    change (TERMACK =? ECHOREQ) with false. change (TERMACK =? TERMREQ) with false.
    change (TERMACK =? TERMACK) with true. cbv iota.
    destruct (set_quit_reason_terminate_reason v p len) as [Hr [Hs Hq]].
    destruct (known_ncp proto); cbn [snd];
      unfold upd_ppp, set_ppp; cbn [ppp quit_reason tcp_control_queue];
      rewrite ?ncp_add_state_ppp_state;
      (repeat apply conj;
       [ exact Hs | exact Hr | intros _; exact Hq | intro H; discriminate H ]).
Qed.

(** A Terminate-Ack that carries the text "bye". *)
Lemma terminate_packets_end_session_witness :
  let v := after_first_call true false in
  let p := [TERMACK; 0x01; 0x00; 0x07; 0x62; 0x79; 0x65] in
  quit_reason (snd (handle_config_packet v PPP_LCP p 7))
  = Some (ReasonBytes [0x62; 0x79; 0x65]).
Proof.
  exact (proj1 (proj2 (terminate_packets_end_session (after_first_call true false)
                         PPP_LCP [TERMACK; 0x01; 0x00; 0x07; 0x62; 0x79; 0x65] 7
                         (or_intror eq_refl)))).
Defined.

(** ** The requests of this code, read by this code *)

(** Bytes and words as remainders. *)
Lemma u8_mod : forall x, u8 x = x mod 256.
Proof.
  intro x. unfold u8. change 0xff with (Z.ones 8). apply Z.land_ones. lia.
Qed.

Lemma u16_mod : forall x, u16 x = x mod 65536.
Proof.
  intro x. unfold u16. change 0xffff with (Z.ones 16). apply Z.land_ones. lia.
Qed.

Lemma u32_mod : forall x, u32 x = x mod 4294967296.
Proof.
  intro x. unfold u32. change 0xffffffff with (Z.ones 32). apply Z.land_ones. lia.
Qed.

Lemma be16_value : forall hi lo,
  Z.lor (Z.shiftl (u8 hi) 8) (u8 lo) = (hi mod 256) * 256 + lo mod 256.
Proof.
  intros hi lo. rewrite !u8_mod.
  rewrite (lor_shiftl_low (hi mod 256) (lo mod 256) 8).
  - reflexivity.
  - lia.
  - change (2 ^ 8) with 256. apply Z.mod_pos_bound. lia.
Qed.

(** Loading what was stored. *)
Lemma load_store_be16 : forall x rest,
  load_be16 (store_be16 x ++ rest) 0 = u16 x.
Proof.
  intros x rest.
  change (load_be16 (store_be16 x ++ rest) 0)
    with (Z.lor (Z.shiftl (u8 (u8 (Z.shiftr x 8))) 8) (u8 (u8 x))).
  rewrite !u8_idem, be16_value, u16_mod, Z.shiftr_div_pow2 by lia.
  change (2 ^ 8) with 256. change (x mod 65536) with (x mod (256 * 256)).
  rewrite (Z.rem_mul_r x 256 256) by lia. lia.
Qed.

Lemma load_store_be32 : forall x rest,
  load_be32 (store_be32 x ++ rest) 0 = u32 x.
Proof.
  intros x rest.
  change (load_be32 (store_be32 x ++ rest) 0)
    with (Z.lor
            (Z.shiftl (Z.lor (Z.shiftl (u8 (u8 (Z.shiftr x 24))) 8)
                         (u8 (u8 (Z.shiftr x 16)))) 16)
            (Z.lor (Z.shiftl (u8 (u8 (Z.shiftr x 8))) 8) (u8 (u8 x)))).
  rewrite !u8_idem, !be16_value, u32_mod, !Z.shiftr_div_pow2 by lia.
  change (2 ^ 8) with 256. change (2 ^ 16) with 65536. change (2 ^ 24) with 16777216.
  assert (H0 : 0 <= (x / 16777216) mod 256 * 256 + (x / 65536) mod 256 < 2 ^ 16).
  { change (2 ^ 16) with 65536.
    pose proof (Z.mod_pos_bound (x / 16777216) 256).
    pose proof (Z.mod_pos_bound (x / 65536) 256). lia. }
  assert (H1 : 0 <= (x / 256) mod 256 * 256 + x mod 256 < 2 ^ 16).
  { change (2 ^ 16) with 65536.
    pose proof (Z.mod_pos_bound (x / 256) 256).
    pose proof (Z.mod_pos_bound x 256). lia. }
  rewrite lor_shiftl_low by (lia || exact H1).
  change (2 ^ 16) with 65536.
  change (x mod 4294967296) with (x mod (65536 * 65536)).
  rewrite (Z.rem_mul_r x 65536 65536) by lia.
  pose proof (Z.rem_mul_r x 256 256 ltac:(lia) ltac:(lia)) as E1.
  pose proof (Z.rem_mul_r (x / 65536) 256 256 ltac:(lia) ltac:(lia)) as E2.
  change (256 * 256) with 65536 in E1, E2.
  rewrite E1, E2.
  replace (x / 16777216) with (x / 65536 / 256)
    by (rewrite Z.div_div by lia; reflexivity).
  lia.
Qed.

Lemma length_4 : forall (l : list Z),
  List.length l = 4%nat -> exists a b c d, l = [a; b; c; d].
Proof.
  intros [| a [| b [| c [| d [| e l]]]]] H; try discriminate H.
  exists a, b, c, d. reflexivity.
Qed.

Lemma length_8 : forall (l : list Z),
  List.length l = 8%nat ->
  exists a b c d e f g h, l = [a; b; c; d; e; f; g; h].
Proof.
  intros [| a [| b [| c [| d [| e [| f [| g [| h [| i l]]]]]]]]] H;
    try discriminate H.
  exists a, b, c, d, e, f, g, h. reflexivity.
Qed.

(** Without byte stuffing the three requests are queued as
    [config_request] writes them. *)
Lemma queue_config_request_packet : forall v proto id_,
  known_ncp proto = true -> hdlc (ppp v) = false -> addresses_sized v ->
  fst (queue_config_request v proto id_) = 0
  /\ tcp_control_queue (snd (queue_config_request v proto id_))
     = tcp_control_queue v ++ [config_request v proto id_].
Proof.
  intros v proto id_ Hk Hh [H4 H6].
  unfold known_ncp in Hk.
  destruct (Z.eqb_spec proto PPP_LCP) as [-> | N1];
    [ | destruct (Z.eqb_spec proto PPP_IPCP) as [-> | N2];
        [ | destruct (Z.eqb_spec proto PPP_IP6CP) as [-> | N3];
            [ | discriminate Hk ] ] ]; clear Hk.
  - clear H4 H6. names v. cbn [ppp hdlc] in Hh. subst hd.
    destruct mtu as [| m | m];
      lazy -[complement32 u8 u16 u32 Z.shiftr];
      hide_u8 imagic; hide_u8 id_; try hide_u8 m;
      split; vm_compute; reflexivity.
  - clear H6. names v. cbn [ppp hdlc] in Hh. subst hd.
    unfold config_request, request_addr in *. cbn [ip_info_addr ppp out_peer_addr] in *.
    apply length_4 in H4. destruct H4 as [a [b [c [d H4]]]].
    destruct a4 as [a4 |]; subst;
      lazy -[u8]; hide_u8 id_; split; vm_compute; reflexivity.
  - clear H4. names v. cbn [ppp hdlc] in Hh. subst hd.
    unfold config_request, request_ident in *. cbn [ip_info_addr6] in *.
    unfold queue_config_request.
    change (PPP_IP6CP =? PPP_LCP) with false.
    change (PPP_IP6CP =? PPP_IPCP) with false.
    change (PPP_IP6CP =? PPP_IP6CP) with true. cbv iota.
    cbn [ip_info_addr6].
    apply length_8 in H6. destruct H6 as [a [b [c [d [e [f [g [h H6]]]]]]]].
    rewrite H6. clear H6.
    lazy -[u8]; hide_u8 id_; split; vm_compute; reflexivity.
Qed.

(** What a peer running this code does with the three requests. *)
Lemma lcp_request_handled : forall w i b1 b2 m1 m2 m3 m4,
  let payload := [1; 4; b1; b2; 2; 6; 0; 0; 0; 0; 5; 6; m1; m2; m3; m4; 7; 2; 8; 2] in
  let r := handle_config_packet w PPP_LCP (CONFREQ :: i :: 0 :: 24 :: payload) 24 in
  fst r = 0
  /\ tcp_control_queue (snd r)
     = tcp_control_queue w
       ++ [mk_pkt PPP_LCP 0 24 [] (CONFACK :: u8 (u8 i) :: 0 :: 24 :: payload)]
  /\ ip_info_mtu (snd r) = load_be16 [b1; b2] 0
  /\ in_lcp_magic (ppp (snd r)) = load_be32 [m1; m2; m3; m4] 0
  /\ in_lcp_opts (ppp (snd r)) = Z.lor (Z.lor (in_lcp_opts (ppp w)) PFCOMP) ACCOMP.
Proof.
  intros w i b1 b2 m1 m2 m3 m4 payload r. subst r payload. names w.
  split; [ vm_compute; reflexivity | ].
  split; [ vm_compute; reflexivity | ].
  split; [ vm_compute; reflexivity | ].
  split; vm_compute; reflexivity.
Qed.

Lemma ipcp_request_handled : forall w i a b c d,
  let payload := [3; 6; a; b; c; d] in
  let r := handle_config_packet w PPP_IPCP (CONFREQ :: i :: 0 :: 10 :: payload) 10 in
  fst r = 0
  /\ tcp_control_queue (snd r)
     = tcp_control_queue w
       ++ [mk_pkt PPP_IPCP 0 10 [] (CONFACK :: u8 (u8 i) :: 0 :: 10 :: payload)]
  /\ in_peer_addr (ppp (snd r)) = [a; b; c; d].
Proof.
  intros w i a b c d payload r. subst r payload. names w.
  split; [ vm_compute; reflexivity | ].
  split; vm_compute; reflexivity.
Qed.

Lemma ip6cp_request_handled : forall w i a b c d e f g h,
  let payload := [1; 10; a; b; c; d; e; f; g; h] in
  let r := handle_config_packet w PPP_IP6CP (CONFREQ :: i :: 0 :: 14 :: payload) 14 in
  fst r = 0
  /\ tcp_control_queue (snd r)
     = tcp_control_queue w
       ++ [mk_pkt PPP_IP6CP 0 14 [] (CONFACK :: u8 (u8 i) :: 0 :: 14 :: payload)]
  /\ in_ipv6_int_ident (ppp (snd r)) = [a; b; c; d; e; f; g; h].
Proof.
  intros w i a b c d e f g h payload r. subst r payload. names w.
  split; [ vm_compute; reflexivity | ].
  split; vm_compute; reflexivity.
Qed.

Lemma u16_idem : forall x, u16 (u16 x) = u16 x.
Proof. intro x. unfold u16. rewrite <- Z.land_assoc. reflexivity. Qed.

Lemma u32_idem : forall x, u32 (u32 x) = u32 x.
Proof. intro x. unfold u32. rewrite <- Z.land_assoc. reflexivity. Qed.

(** X10.  The requests that a session without byte stuffing queues are the
    packets of [config_request], and a peer that runs this code accepts
    each of them: it answers with the same bytes under the code
    Configure-Ack and stores the options, so that its incoming magic, MTU,
    compressions, address and interface identifier are the ones the sender
    chose. *)
Theorem own_requests_are_acked :
  forall v w proto id_,
    known_ncp proto = true -> hdlc (ppp v) = false -> addresses_sized v ->
    let p := config_request v proto id_ in
    let r := handle_config_packet w proto (pkt_data p) (pkt_len p) in
    (fst (queue_config_request v proto id_) = 0
     /\ tcp_control_queue (snd (queue_config_request v proto id_))
        = tcp_control_queue v ++ [p])
    /\ fst r = 0
    /\ tcp_control_queue (snd r)
       = tcp_control_queue w
         ++ [mk_pkt proto 0 (pkt_len p) [] (CONFACK :: tl (pkt_data p))]
    /\ (proto = PPP_LCP ->
        in_lcp_magic (ppp (snd r))
        = out_lcp_magic (ppp (snd (queue_config_request v proto id_)))
        /\ ip_info_mtu (snd r)
           = u16 (ip_info_mtu (snd (queue_config_request v proto id_)))
        /\ in_lcp_opts (ppp (snd r))
           = Z.lor (Z.lor (in_lcp_opts (ppp w)) PFCOMP) ACCOMP)
    /\ (proto = PPP_IPCP -> in_peer_addr (ppp (snd r)) = request_addr v)
    /\ (proto = PPP_IP6CP -> in_ipv6_int_ident (ppp (snd r)) = request_ident v).
Proof.
  intros v w proto id_ Hk Hh Hs p r.
  split; [ apply queue_config_request_packet; assumption | ].
  subst p r. destruct Hs as [H4 H6]. unfold known_ncp in Hk.
  destruct (Z.eqb_spec proto PPP_LCP) as [-> | N1];
    [ | destruct (Z.eqb_spec proto PPP_IPCP) as [-> | N2];
        [ | destruct (Z.eqb_spec proto PPP_IP6CP) as [-> | N3];
            [ | discriminate Hk ] ] ]; clear Hk.
  - assert (Hm : out_lcp_magic (ppp (snd (queue_config_request v PPP_LCP id_)))
                 = complement32 (in_lcp_magic (ppp v))
                 /\ ip_info_mtu (snd (queue_config_request v PPP_LCP id_))
                    = if ip_info_mtu v =? 0 then 1300 else ip_info_mtu v).
    { clear. names v. destruct mtu; split; lazy -[complement32]; reflexivity. }
    destruct Hm as [Hm1 Hm2]. rewrite Hm1, Hm2.
    unfold config_request. change (PPP_LCP =? PPP_LCP) with true. cbv iota.
    set (mtu' := if ip_info_mtu v =? 0 then 1300 else ip_info_mtu v).
    set (magic := complement32 (in_lcp_magic (ppp v))).
    pose proof (lcp_request_handled w (u8 id_)
                  (u8 (Z.shiftr (u16 mtu') 8)) (u8 (u16 mtu'))
                  (u8 (Z.shiftr magic 24)) (u8 (Z.shiftr magic 16))
                  (u8 (Z.shiftr magic 8)) (u8 magic)) as H.
    cbv zeta in H. destruct H as [R1 [R2 [R3 [R4 R5]]]].
    change (pkt_data (lcp_request_packet id_ mtu' magic))
      with (CONFREQ :: u8 id_ :: 0 :: 24
            :: [1; 4; u8 (Z.shiftr (u16 mtu') 8); u8 (u16 mtu'); 2; 6; 0; 0; 0; 0;
                5; 6; u8 (Z.shiftr magic 24); u8 (Z.shiftr magic 16);
                u8 (Z.shiftr magic 8); u8 magic; 7; 2; 8; 2]).
    change (pkt_len (lcp_request_packet id_ mtu' magic)) with 24.
    split; [ exact R1 | ]. split; [ rewrite R2, !u8_idem; reflexivity | ].
    split; [ | split; intro Hx; discriminate Hx ].
    intros _. split; [ | split; [ | exact R5 ] ].
    + rewrite R4.
      change [u8 (Z.shiftr magic 24); u8 (Z.shiftr magic 16);
              u8 (Z.shiftr magic 8); u8 magic] with (store_be32 magic ++ []).
      rewrite load_store_be32. subst magic. unfold complement32. apply u32_idem.
    + rewrite R3.
      change [u8 (Z.shiftr (u16 mtu') 8); u8 (u16 mtu')]
        with (store_be16 (u16 mtu') ++ []).
      rewrite load_store_be16. apply u16_idem.
  - unfold config_request. change (PPP_IPCP =? PPP_LCP) with false.
    change (PPP_IPCP =? PPP_IPCP) with true. cbv iota.
    apply length_4 in H4. destruct H4 as [a [b [c [d H4]]]]. rewrite H4.
    pose proof (ipcp_request_handled w (u8 id_) a b c d) as H.
    cbv zeta in H. destruct H as [R1 [R2 R3]].
    cbn [pkt_data pkt_len app tl].
    split; [ exact R1 | ]. split; [ rewrite R2, !u8_idem; reflexivity | ].
    split; [ intro Hx; discriminate Hx | ].
    split; [ intros _; exact R3 | intro Hx; discriminate Hx ].
  - unfold config_request. change (PPP_IP6CP =? PPP_LCP) with false.
    change (PPP_IP6CP =? PPP_IPCP) with false. cbv iota.
    apply length_8 in H6. destruct H6 as [a [b [c [d [e [f [g [h H6]]]]]]]].
    rewrite H6.
    pose proof (ip6cp_request_handled w (u8 id_) a b c d e f g h) as H.
    cbv zeta in H. destruct H as [R1 [R2 R3]].
    cbn [pkt_data pkt_len app tl].
    split; [ exact R1 | ]. split; [ rewrite R2, !u8_idem; reflexivity | ].
    split; [ intro Hx; discriminate Hx | ].
    split; [ intro Hx; discriminate Hx | intros _; exact R3 ].
Qed.

(** The request of the session that has learned [DE AD BE EF], read by a
    fresh peer. *)
Lemma own_requests_are_acked_witness :
  let v := after_magic_learned in
  let r := handle_config_packet (after_first_call true false) PPP_LCP
             (pkt_data (config_request v PPP_LCP 1))
             (pkt_len (config_request v PPP_LCP 1)) in
  in_lcp_magic (ppp (snd r)) = 0x21524110.
Proof.
  cbv zeta.
  etransitivity;
    [ apply (proj1 (proj2 (proj2 (proj2
         (own_requests_are_acked after_magic_learned (after_first_call true false)
            PPP_LCP 1 eq_refl ltac:(vm_compute; reflexivity)
            ltac:(split; vm_compute; reflexivity))))) eq_refl) | ].
  vm_compute. reflexivity.
Defined.

(** ** The writes of one mainloop call *)

(** A write after others, and membership in a list of constants. *)
Ltac then_write c := eapply write_then; [ | apply c ].

Ltac in_list := cbn [In]; tauto.

(** *** Requests *)

Lemma queue_config_request_ppp : forall v proto id_,
  ppp (snd (queue_config_request v proto id_)) = session_after_request v proto.
Proof.
  intros v proto id_. unfold queue_config_request, session_after_request.
  names v.
  destruct (proto =? PPP_LCP) eqn:E1;
    [ | destruct (proto =? PPP_IPCP) eqn:E2;
        [ | destruct (proto =? PPP_IP6CP) eqn:E3 ] ].
  - apply Z.eqb_eq in E1. subst proto.
    destruct mtu; lazy -[complement32]; reflexivity.
  - apply Z.eqb_eq in E2. subst proto.
    destruct a4; lazy; reflexivity.
  - apply Z.eqb_eq in E3. subst proto.
    destruct a6; lazy -[firstn skipn]; reflexivity.
  - reflexivity.
Qed.

Lemma session_after_request_writes : forall v proto,
  session_write (ppp v) (session_after_request v proto).
Proof.
  intros v proto. unfold session_after_request.
  destruct (proto =? PPP_LCP); [ | destruct (proto =? PPP_IPCP);
    [ | destruct (proto =? PPP_IP6CP) ] ].
  - then_write write_ncp_state; [ | in_list ].
    then_write write_out_lcp_opts.
    eapply write_then; [ apply write_out_asyncmap | ].
    apply (write_out_lcp_magic (set_out_asyncmap (ppp v) 0)).
  - then_write write_ncp_state; [ | in_list ].
    destruct (ip_info_addr v); [ apply write_out_peer_addr | apply write_none ].
  - then_write write_ncp_state; [ | in_list ].
    apply write_out_ipv6_int_ident.
  - apply write_none.
Qed.

Lemma session_after_request_ppp_state : forall v proto,
  ppp_state (session_after_request v proto) = ppp_state (ppp v).
Proof.
  intros v proto. unfold session_after_request.
  destruct (proto =? PPP_LCP); [ | destruct (proto =? PPP_IPCP);
    [ | destruct (proto =? PPP_IP6CP) ] ]; rewrite ?ncp_add_state_ppp_state;
    try reflexivity.
  destruct (ip_info_addr v); reflexivity.
Qed.

Lemma queue_config_request_writes : forall v proto id_,
  session_write (ppp v) (ppp (snd (queue_config_request v proto id_)))
  /\ ppp_state (ppp (snd (queue_config_request v proto id_))) = ppp_state (ppp v).
Proof.
  intros v proto id_. rewrite queue_config_request_ppp.
  split; [ apply session_after_request_writes | apply session_after_request_ppp_state ].
Qed.

(** A write and the state of the session. *)
Lemma session_write_ppp_state_le : forall s s',
  session_write s s' -> ppp_state s <= ppp_state s'.
Proof.
  induction 1; try (cbn; lia); try (destruct s; cbn; lia).
  rewrite ncp_add_state_ppp_state. lia.
Qed.

Lemma session_write_ppp_state_bound : forall s s',
  session_write s s' -> ppp_state s <= PPPS_TERMINATE ->
  ppp_state s' <= PPPS_TERMINATE.
Proof.
  induction 1; intro Hb; auto; try (destruct s; cbn in *; exact Hb).
  - destruct s. cbn in *. unfold PPPS_ESTABLISH, PPPS_OPENED, PPPS_NETWORK,
      PPPS_TERMINATE in *. lia.
  - rewrite ncp_add_state_ppp_state. exact Hb.
Qed.

(** *** State transitions *)

Lemma request_after_last_req_writes : forall v f proto id_,
  session_write (ppp v) (f (ppp v)) -> ppp_state (f (ppp v)) = ppp_state (ppp v) ->
  session_write (ppp v) (ppp (snd (queue_config_request (upd_ppp f v) proto id_)))
  /\ ppp_state (ppp (snd (queue_config_request (upd_ppp f v) proto id_)))
     = ppp_state (ppp v).
Proof.
  intros v f proto id_ Hw Hs.
  destruct (queue_config_request_writes (upd_ppp f v) proto id_) as [H1 H2].
  split.
  - eapply write_then; [ exact Hw | exact H1 ].
  - rewrite H2. exact Hs.
Qed.

Lemma case_OPENED_writes : forall v timeout now_,
  ppp_state (ppp v) <= PPPS_NETWORK ->
  session_write (ppp v) (ppp (fst (case_OPENED v timeout now_))).
Proof.
  intros v timeout now_ Hst. unfold case_OPENED.
  set (r1 := if want_ipv4 (ppp v) && _ then _ else _).
  assert (K1 : session_write (ppp v) (ppp (fst r1))
               /\ ppp_state (ppp (fst r1)) = ppp_state (ppp v)).
  { subst r1.
    destruct (want_ipv4 (ppp v) && _); [ | split; [ apply write_none | reflexivity ] ].
    destruct (ka_check_deadline _ _ _) as [[|] t];
      [ | split; [ apply write_none | reflexivity ] ].
    cbn [fst]. apply request_after_last_req_writes;
      [ apply write_ipcp_last_req | reflexivity ]. }
  destruct r1 as [v1 t1]. cbn [fst] in K1. destruct K1 as [K1 S1].
  set (r2 := if want_ipv6 (ppp v1) && _ then _ else _).
  assert (K2 : session_write (ppp v1) (ppp (fst r2))
               /\ ppp_state (ppp (fst r2)) = ppp_state (ppp v1)).
  { subst r2.
    destruct (want_ipv6 (ppp v1) && _); [ | split; [ apply write_none | reflexivity ] ].
    destruct (ka_check_deadline _ _ _) as [[|] t];
      [ | split; [ apply write_none | reflexivity ] ].
    cbn [fst]. apply request_after_last_req_writes;
      [ apply write_ip6cp_last_req | reflexivity ]. }
  destruct r2 as [v2 t2]. cbn [fst] in K2. destruct K2 as [K2 S2].
  destruct (_ && _) eqn:Hall; cbn [fst].
  - eapply write_then; [ exact K1 | ]. eapply write_then; [ exact K2 | ].
    apply (write_ppp_state (ppp v2)); [ in_list | | intros _; exact Hall ].
    rewrite S2, S1. exact Hst.
  - eapply write_then; eassumption.
Qed.

Lemma case_ESTABLISH_writes : forall v timeout now_,
  ppp_state (ppp v) <= PPPS_OPENED ->
  session_write (ppp v) (ppp (fst (case_ESTABLISH v timeout now_))).
Proof.
  intros v timeout now_ Hst. unfold case_ESTABLISH.
  destruct (_ && _).
  - eapply write_then;
      [ apply (write_ppp_state (ppp v) PPPS_OPENED);
        [ in_list | exact Hst | intro Hx; discriminate Hx ] | ].
    apply (case_OPENED_writes (upd_ppp (fun s => set_ppp_state s PPPS_OPENED) v)).
    destruct v as [[] ]. cbn. unfold PPPS_OPENED, PPPS_NETWORK. lia.
  - destruct (ka_check_deadline _ _ _) as [[|] t].
    + cbn [fst]. apply request_after_last_req_writes;
        [ apply write_lcp_last_req | reflexivity ].
    + apply case_OPENED_writes. unfold PPPS_OPENED, PPPS_NETWORK in *. lia.
Qed.

Lemma state_transitions_writes : forall v timeout now_,
  session_write (ppp v) (ppp (snd (fst (state_transitions v timeout now_))))
  /\ (fst (fst (state_transitions v timeout now_)) = None ->
      ppp_state (ppp v) <= PPPS_TERMINATE).
Proof.
  intros v timeout now_. unfold state_transitions.
  destruct (_ =? PPPS_DEAD) eqn:E0.
  { apply Z.eqb_eq in E0.
    pose proof (case_ESTABLISH_writes
                 (upd_ppp (fun s => set_ppp_state s PPPS_ESTABLISH) v) timeout now_) as K.
    destruct (case_ESTABLISH _ _ _) as [v' t]. cbn [fst snd] in *.
    split; [ | intros _; rewrite E0; unfold PPPS_DEAD, PPPS_TERMINATE; lia ].
    eapply write_then;
      [ apply (write_ppp_state (ppp v) PPPS_ESTABLISH);
        [ in_list | rewrite E0; unfold PPPS_DEAD, PPPS_ESTABLISH; lia
        | intro Hx; discriminate Hx ] | ].
    apply K. destruct v as [[] ]. cbn. unfold PPPS_ESTABLISH, PPPS_OPENED. lia. }
  destruct (_ =? PPPS_ESTABLISH) eqn:E1.
  { apply Z.eqb_eq in E1.
    pose proof (case_ESTABLISH_writes v timeout now_) as K.
    destruct (case_ESTABLISH _ _ _) as [v' t]. cbn [fst snd] in *.
    split; [ | intros _; rewrite E1; unfold PPPS_ESTABLISH, PPPS_TERMINATE; lia ].
    apply K. rewrite E1. unfold PPPS_ESTABLISH, PPPS_OPENED. lia. }
  destruct (_ =? PPPS_OPENED) eqn:E2.
  { apply Z.eqb_eq in E2.
    pose proof (case_OPENED_writes v timeout now_) as K.
    destruct (case_OPENED _ _ _) as [v' t]. cbn [fst snd] in *.
    split; [ | intros _; rewrite E2; unfold PPPS_OPENED, PPPS_TERMINATE; lia ].
    apply K. rewrite E2. unfold PPPS_OPENED, PPPS_NETWORK. lia. }
  destruct (_ =? PPPS_NETWORK) eqn:E3.
  { apply Z.eqb_eq in E3. cbn [fst snd].
    split; [ apply write_none | ].
    intros _; rewrite E3; unfold PPPS_NETWORK, PPPS_TERMINATE; lia. }
  destruct (_ =? PPPS_TERMINATE); cbn [fst snd];
    (split; [ apply write_none | intro H; discriminate H ]).
Qed.

(** *** The transmit part *)

Lemma keepalive_switch_writes : forall v a,
  match keepalive_switch v a with
  | Some v' => session_write (ppp v) (ppp v')
  | None => True
  end.
Proof.
  intros v a. unfold keepalive_switch. destruct a.
  - apply write_none.
  - destruct (match tcp_control_queue v with [] => _ | _ :: _ => true end).
    + apply write_none.
    + apply (write_util_id (ppp v)).
  - apply (write_util_id (ppp v)).
  - exact I.
  - exact I.
Qed.

Lemma tx_loop_writes : forall os v now_ work_done rr,
  match tx_loop os v now_ work_done rr with
  | Some (_, v') => session_write (ppp v) (ppp v')
  | None => True
  end.
Proof.
  induction os as [| o os IH]; intros v now_ work_done rr; cbn [tx_loop].
  - exact I.
  - assert (K1 : ppp (tx_flow_state
                        match current_ssl_pkt v with
                        | Some p => handle_outgoing v now_ p o
                        | None => TxGo v
                        end) = ppp v).
    { destruct (current_ssl_pkt v); [ | reflexivity ]. apply handle_outgoing_ppp. }
    destruct (match current_ssl_pkt v with
              | Some p => handle_outgoing v now_ p o
              | None => TxGo v
              end) as [v1 | v1 | r1 v1]; cbn [tx_flow_state] in K1; rewrite <- K1.
    + pose proof (keepalive_switch_writes v1 (ka o)) as K2.
      destruct (keepalive_switch v1 (ka o)) as [v2 |].
      * pose proof (next_outgoing_ppp v2) as K3.
        destruct (next_outgoing v2) as [[[this proto] |] v3]; cbn [snd] in K3.
        -- specialize (IH (set_current_ssl_pkt v3
                             (Some (prepend_headers (ppp v3) proto this)))
                          now_ work_done rr).
           destruct (tx_loop os _ now_ work_done rr) as [[r v'] |]; [ | exact I ].
           eapply write_then; [ exact K2 | ]. rewrite <- K3. exact IH.
        -- change (session_write (ppp v1) (ppp v3)). rewrite K3. exact K2.
      * pose proof (do_reconnect_ppp v1 rr) as K.
        destruct (do_reconnect v1 rr) as [r v'']. cbn [snd] in K. rewrite K.
        apply write_none.
    + pose proof (do_reconnect_ppp v1 rr) as K.
      destruct (do_reconnect v1 rr) as [r v'']. cbn [snd] in K. rewrite K.
      apply write_none.
    + apply write_none.
Qed.

(** *** The receive part *)

Lemma handle_option_writes : forall v proto payload p,
  match handle_option v proto payload p with
  | Some v' => session_write (ppp v) (ppp v')
  | None => True
  end.
Proof.
  intros v proto payload p. unfold handle_option.
  repeat match goal with
  | |- context [if ?c then _ else _] => destruct c
  end; try exact I.
  - apply write_none.
  - apply (write_in_asyncmap (ppp v)).
  - apply (write_in_lcp_magic (ppp v)).
  - apply (write_in_lcp_opts (ppp v)). in_list.
  - apply (write_in_lcp_opts (ppp v)). in_list.
  - apply (write_in_lcp_opts (ppp v)). in_list.
  - apply (write_in_peer_addr (ppp v)).
  - apply (write_in_ipv6_int_ident (ppp v)).
Qed.

Lemma tlv_loop_writes : forall proto payload len fuel v p,
  match tlv_loop fuel v proto payload len p with
  | Some r => session_write (ppp v) (ppp (tlv_exit_state r))
  | None => True
  end.
Proof.
  intros proto payload len.
  induction fuel as [| fuel IH]; intros v p; cbn [tlv_loop];
    destruct (_ && _); try exact I; try apply write_none.
  pose proof (handle_option_writes v proto payload p) as Ho.
  destruct (handle_option v proto payload p) as [v' |]; [ | apply write_none ].
  specialize (IH v' (p + byte_at payload (p + 1))).
  destruct (tlv_loop fuel v' proto payload len _); [ | exact I ].
  eapply write_then; eassumption.
Qed.

Lemma handle_config_request_writes : forall v proto id_ payload len,
  session_write (ppp v) (ppp (snd (handle_config_request v proto id_ payload len))).
Proof.
  intros v proto id_ payload len.
  unfold handle_config_request, handle_config_request_fuel.
  destruct (negb (known_ncp proto)); [ apply write_none | ].
  pose proof (tlv_loop_writes proto payload len (Z.to_nat len) v 0) as Hl.
  destruct (tlv_loop (Z.to_nat len) v proto payload len 0) as [[v1 p1 | v1] |];
    cbn [tlv_exit_state] in Hl.
  - unfold queue_config_packet. cbn [fst snd]. cbv iota.
    change (0 >=? 0) with true. cbv iota. cbn [snd].
    eapply write_then; [ exact Hl | ].
    eapply write_then;
      [ apply (write_ncp_state (ppp v1) proto NCP_CONF_REQ_RECEIVED); in_list | ].
    apply (write_ncp_state (ncp_add_state proto NCP_CONF_REQ_RECEIVED (ppp v1))
             proto NCP_CONF_ACK_SENT). in_list.
  - exact Hl.
  - apply write_none.
Qed.

Lemma set_quit_reason_terminate_writes : forall v p len,
  ppp_state (ppp v) <= PPPS_TERMINATE ->
  session_write (ppp v) (ppp (set_quit_reason_terminate v p len)).
Proof.
  intros v p len Hst. unfold set_quit_reason_terminate.
  destruct (quit_reason v); [ | destruct (len >? 4) ];
    (apply (write_ppp_state (ppp v) PPPS_TERMINATE);
     [ in_list | exact Hst | intro Hx; discriminate Hx ]).
Qed.

Lemma handle_config_packet_writes : forall v proto p len,
  ppp_state (ppp v) <= PPPS_TERMINATE ->
  session_write (ppp v) (ppp (snd (handle_config_packet v proto p len))).
Proof.
  intros v proto p len Hst. unfold handle_config_packet.
  destruct (byte_at p 0 =? CONFREQ).
  { pose proof (handle_config_request_writes v proto (byte_at p 1) (advance p 4)
                  (len - 4)) as H.
    destruct (handle_config_request _ _ _ _ _) as [r v']. cbn [snd] in H.
    destruct (known_ncp proto); cbn [snd]; [ | exact H ].
    eapply write_then; [ exact H | ].
    apply (write_ncp_state (ppp v') proto 0). in_list. }
  destruct (byte_at p 0 =? CONFACK).
  { destruct (known_ncp proto); cbn [snd]; [ | apply write_none ].
    apply (write_ncp_state (ppp v) proto NCP_CONF_ACK_RECEIVED). in_list. }
  destruct (byte_at p 0 =? ECHOREQ).
  { destruct (ppp_state (ppp v) >=? PPPS_OPENED); unfold queue_config_packet;
      destruct (known_ncp proto); cbn [snd]; try apply write_none;
      apply (write_ncp_state (ppp v) proto 0); in_list. }
  destruct (byte_at p 0 =? TERMREQ).
  { unfold queue_config_packet. cbv iota. change (0 >=? 0) with true. cbv iota.
    match goal with
    | |- context [set_quit_reason_terminate ?w p len] =>
      pose proof (set_quit_reason_terminate_writes w p len Hst) as H;
      change (ppp w) with (ppp v) in H;
      generalize dependent (set_quit_reason_terminate w p len)
    end.
    intros v' H.
    destruct (known_ncp proto); cbn [snd]; [ | exact H ].
    eapply write_then; [ exact H | ].
    apply (write_ncp_state (ppp v') proto NCP_TERM_ACK_SENT). in_list. }
  destruct (byte_at p 0 =? TERMACK).
  { pose proof (set_quit_reason_terminate_writes v p len Hst) as H.
    destruct (known_ncp proto); cbn [snd]; [ | exact H ].
    eapply write_then; [ exact H | ].
    apply (write_ncp_state (ppp (set_quit_reason_terminate v p len)) proto
             NCP_TERM_ACK_RECEIVED). in_list. }
  destruct (_ || _);
    destruct (known_ncp proto); cbn [snd]; try apply write_none;
    apply (write_ncp_state (ppp v) proto 0); in_list.
Qed.

Lemma rx_dispatch_writes : forall v work_done proto pp hdr payload_len,
  ppp_state (ppp v) <= PPPS_TERMINATE ->
  session_write (ppp v)
    (ppp (rx_flow_state (rx_dispatch v work_done proto pp hdr payload_len))).
Proof.
  intros v work_done proto pp hdr payload_len Hst. unfold rx_dispatch.
  destruct (known_ncp proto).
  - destruct (_ || _); [ apply write_none | ].
    apply handle_config_packet_writes. exact Hst.
  - destruct (_ || _); [ | apply write_none ].
    destruct (negb (ppp_state (ppp v) =? PPPS_NETWORK)); [ apply write_none | ].
    destruct (negb (hdr =? exp_ppp_hdr_size (ppp v))); [ | apply write_none ].
    apply (write_exp_ppp_hdr_size (ppp v)).
Qed.

Lemma rx_frame_writes : forall v now_ work_done buf,
  ppp_state (ppp v) <= PPPS_TERMINATE ->
  session_write (ppp v) (ppp (rx_flow_state (rx_frame v now_ work_done buf))).
Proof.
  intros v now_ work_done buf Hst. unfold rx_frame.
  destruct (_ <? 8); [ apply write_none | ].
  destruct (encap (ppp v) =? PPP_ENCAP_F5); [ | apply write_none ].
  destruct (negb (_ =? 0xf500)); [ apply write_none | ].
  destruct (negb (_ =? _)); [ apply write_none | ].
  unfold rx_ppp.
  destruct (parse_ppp_header _ _) as [[proto hdr] |]; [ | apply write_none ].
  apply (rx_dispatch_writes (set_last_rx v now_)). exact Hst.
Qed.

Lemma rx_loop_writes : forall rs v now_ work_done,
  ppp_state (ppp v) <= PPPS_TERMINATE ->
  session_write (ppp v) (ppp (rx_end_state (rx_loop rs v now_ work_done))).
Proof.
  induction rs as [| r rs IH]; intros v now_ work_done Hst; cbn [rx_loop].
  - apply write_none.
  - destruct r as [[| b buf] |]; try apply write_none.
    pose proof (rx_frame_writes v now_ work_done (b :: buf) Hst) as Hf.
    destruct (rx_frame v now_ work_done (b :: buf)) as [v' wd | ret v'];
      cbn [rx_flow_state] in Hf.
    + eapply write_then; [ exact Hf | ]. apply IH.
      eapply session_write_ppp_state_bound; eassumption.
    + exact Hf.
Qed.

(** *** One call of the mainloop *)

Lemma ppp_mainloop_writes : forall v timeout e,
  match ppp_mainloop v timeout e with
  | Some (_, v', _) => session_write (ppp v) (ppp v')
  | None => True
  end.
Proof.
  intros v timeout e. unfold ppp_mainloop.
  destruct (ssl_fd v =? -1).
  { pose proof (do_reconnect_ppp v (reconnect_ret e)) as K.
    destruct (do_reconnect v (reconnect_ret e)) as [r v']. cbn [snd] in K.
    rewrite K. apply write_none. }
  pose proof (state_transitions_writes v timeout (now e)) as [K1 B1].
  destruct (state_transitions v timeout (now e)) as [[[ret |] v1] t];
    cbn [fst snd] in K1, B1.
  { exact K1. }
  specialize (B1 eq_refl).
  assert (B2 : ppp_state (ppp v1) <= PPPS_TERMINATE)
    by (eapply session_write_ppp_state_bound; eassumption).
  set (received := if readable e then rx_loop (reads e) v1 (now e) 0 else RxDone v1 0).
  assert (K2 : session_write (ppp v1) (ppp (rx_end_state received))).
  { subst received. destruct (readable e); [ | apply write_none ].
    apply rx_loop_writes. exact B2. }
  destruct received as [v2 wd | v2 | ret v2]; cbn [rx_end_state] in K2.
  - pose proof (tx_loop_writes (tx e) v2 (now e) wd (reconnect_ret e)) as K3.
    destruct (tx_loop (tx e) v2 (now e) wd (reconnect_ret e)) as [[r v3] |];
      [ | exact I ].
    eapply write_then; [ exact K1 | ]. eapply write_then; eassumption.
  - pose proof (do_reconnect_ppp v2 (reconnect_ret e)) as K.
    destruct (do_reconnect v2 (reconnect_ret e)) as [r v']. cbn [snd] in K.
    rewrite K. eapply write_then; eassumption.
  - eapply write_then; eassumption.
Qed.

(** ** What no call of the mainloop undoes *)

Lemma flag_set_lor : forall x g flag,
  flag_set x flag = true -> flag_set (Z.lor x g) flag = true.
Proof.
  intros x g flag. unfold flag_set. rewrite !negb_true_iff, !Z.eqb_neq.
  intros H H0. apply H. rewrite Z.land_lor_distr_l in H0.
  apply Z.lor_eq_0_iff in H0. tauto.
Qed.

Lemma ncp_add_state_fields : forall proto flag s,
  session_setup (ncp_add_state proto flag s) = session_setup s
  /\ id (lcp (ncp_add_state proto flag s)) = id (lcp s)
  /\ id (ipcp (ncp_add_state proto flag s)) = id (ipcp s)
  /\ id (ip6cp (ncp_add_state proto flag s)) = id (ip6cp s)
  /\ out_asyncmap (ncp_add_state proto flag s) = out_asyncmap s
  /\ out_lcp_opts (ncp_add_state proto flag s) = out_lcp_opts s
  /\ in_lcp_opts (ncp_add_state proto flag s) = in_lcp_opts s.
Proof.
  intros proto flag s. unfold ncp_add_state.
  destruct (proto =? PPP_LCP); [ | destruct (proto =? PPP_IPCP);
    [ | destruct (proto =? PPP_IP6CP) ] ]; repeat split; reflexivity.
Qed.

Lemma ncp_add_state_flags : forall proto flag s f,
  (flag_set (state (lcp s)) f = true ->
   flag_set (state (lcp (ncp_add_state proto flag s))) f = true)
  /\ (flag_set (state (ipcp s)) f = true ->
      flag_set (state (ipcp (ncp_add_state proto flag s))) f = true)
  /\ (flag_set (state (ip6cp s)) f = true ->
      flag_set (state (ip6cp (ncp_add_state proto flag s))) f = true).
Proof.
  intros proto flag s f. unfold ncp_add_state.
  destruct (proto =? PPP_LCP); [ | destruct (proto =? PPP_IPCP);
    [ | destruct (proto =? PPP_IP6CP) ] ]; cbn [lcp ipcp ip6cp set_lcp set_ipcp
      set_ip6cp set_state state];
    repeat split; intro H; try exact H; apply flag_set_lor; exact H.
Qed.

Lemma session_write_setup : forall s s',
  session_write s s' ->
  session_setup s' = session_setup s
  /\ id (lcp s') = id (lcp s) /\ id (ipcp s') = id (ipcp s)
  /\ id (ip6cp s') = id (ip6cp s).
Proof.
  induction 1 as [ | s1 s2 s3 H1 IH1 H2 IH2 | | | | | s proto flag Hf
                 | | | | | | | | | | | | ];
    try (repeat split; reflexivity).
  - destruct IH1 as [A1 [A2 [A3 A4]]]. destruct IH2 as [B1 [B2 [B3 B4]]].
    repeat split; congruence.
  - destruct (ncp_add_state_fields proto flag s) as [A [B [C [D _]]]].
    repeat split; assumption.
Qed.

Lemma session_write_flags : forall s s',
  session_write s s' ->
  forall f,
    (flag_set (state (lcp s)) f = true -> flag_set (state (lcp s')) f = true)
    /\ (flag_set (state (ipcp s)) f = true -> flag_set (state (ipcp s')) f = true)
    /\ (flag_set (state (ip6cp s)) f = true -> flag_set (state (ip6cp s')) f = true)
    /\ (flag_set (in_lcp_opts s) f = true -> flag_set (in_lcp_opts s') f = true).
Proof.
  induction 1 as [ | s1 s2 s3 H1 IH1 H2 IH2 | | | | | s proto flag Hf
                 | | | | | | | | | s flag Hf | | | ];
    intro f; try (repeat split; intro Hq; exact Hq).
  - destruct (IH1 f) as [A1 [A2 [A3 A4]]]. destruct (IH2 f) as [B1 [B2 [B3 B4]]].
    repeat split; auto.
  - destruct (ncp_add_state_flags proto flag s f) as [A [B C]].
    destruct (ncp_add_state_fields proto flag s) as [_ [_ [_ [_ [_ [_ D]]]]]].
    rewrite D. repeat split; auto.
  - repeat split; intro Hq; try exact Hq.
    cbn [in_lcp_opts set_in_lcp_opts]. apply flag_set_lor. exact Hq.
Qed.

Lemma session_write_expected : forall s s',
  session_write s s' -> expected_session s -> expected_session s'.
Proof.
  unfold expected_session.
  induction 1 as [ | s1 s2 s3 H1 IH1 H2 IH2 | s x Hx Hle | | | | s proto flag Hf
                 | | | | | | | | | | | | ];
    intro P; auto; try (destruct s; exact P).
  - destruct s. cbn in *. destruct P as [_ P]. split; [ | exact P ].
    tauto.
  - destruct (ncp_add_state_fields proto flag s) as [_ [_ [_ [_ [A [B _]]]]]].
    rewrite A, B, ncp_add_state_ppp_state. exact P.
  - destruct s. cbn in *. tauto.
  - destruct s. cbn in *. tauto.
Qed.

(** X11.  The state of a session never goes back: a call of the mainloop
    that returns leaves a state number that is at least the one it found
    (DEAD 0, ESTABLISH 1, OPENED 2, NETWORK 4, TERMINATE 5). *)
Theorem ppp_state_never_goes_back :
  forall v timeout e ret v' timeout',
    ppp_mainloop v timeout e = Some (ret, v', timeout') ->
    ppp_state (ppp v) <= ppp_state (ppp v').
Proof.
  intros v timeout e ret v' timeout' H.
  pose proof (ppp_mainloop_writes v timeout e) as W. rewrite H in W.
  apply session_write_ppp_state_le. exact W.
Qed.

(** The first call: from DEAD to ESTABLISH. *)
Lemma ppp_state_never_goes_back_witness :
  ppp_state (ppp (vpninfo_new PPP_ENCAP_F5 true false))
  <= ppp_state (ppp (after_first_call true false)).
Proof.
  apply (ppp_state_never_goes_back (vpninfo_new PPP_ENCAP_F5 true false) 5000
           (mk_env 1000 false [] [idle; wrote 32] 0) 0
           (after_first_call true false) 5000).
  vm_compute. reflexivity.
Defined.

(** X12.  No call of the mainloop writes the fields that
    [openconnect_ppp_new] sets ([encap], [encap_len], [hdlc], [want_ipv4],
    [want_ipv6]), nor the [id] of an NCP. *)
Theorem setup_is_never_written :
  forall v timeout e ret v' timeout',
    ppp_mainloop v timeout e = Some (ret, v', timeout') ->
    session_setup (ppp v') = session_setup (ppp v)
    /\ id (lcp (ppp v')) = id (lcp (ppp v))
    /\ id (ipcp (ppp v')) = id (ipcp (ppp v))
    /\ id (ip6cp (ppp v')) = id (ip6cp (ppp v)).
Proof.
  intros v timeout e ret v' timeout' H.
  pose proof (ppp_mainloop_writes v timeout e) as W. rewrite H in W.
  apply session_write_setup. exact W.
Qed.

(** The second call of the F5 session. *)
Lemma setup_is_never_written_witness :
  session_setup (ppp after_magic_learned) = (PPP_ENCAP_F5, 4, false, true, false).
Proof.
  exact (proj1 (setup_is_never_written (after_first_call true false) 5000
                  magic_learned_env 0 after_magic_learned 2000
                  ltac:(vm_compute; reflexivity))).
Defined.

(** X13.  Negotiation is never undone: a flag that is set in the state of
    an NCP or in the incoming LCP options when a call begins is still set
    when it returns, whatever the call reads. *)
Theorem flags_stay_set :
  forall v timeout e ret v' timeout' proto flag,
    ppp_mainloop v timeout e = Some (ret, v', timeout') ->
    (flag_set (state (ncp_of proto (ppp v))) flag = true ->
     flag_set (state (ncp_of proto (ppp v'))) flag = true)
    /\ (flag_set (in_lcp_opts (ppp v)) flag = true ->
        flag_set (in_lcp_opts (ppp v')) flag = true).
Proof.
  intros v timeout e ret v' timeout' proto flag H.
  pose proof (ppp_mainloop_writes v timeout e) as W. rewrite H in W.
  destruct (session_write_flags _ _ W flag) as [A [B [C D]]].
  split; [ | exact D ].
  unfold ncp_of. destruct (proto =? PPP_LCP); [ exact A | ].
  destruct (proto =? PPP_IPCP); [ exact B | exact C ].
Qed.

(** REQ_SENT of LCP across the second call. *)
Lemma flags_stay_set_witness :
  flag_set (state (ncp_of PPP_LCP (ppp after_magic_learned))) NCP_CONF_REQ_SENT
  = true.
Proof.
  refine (proj1 (flags_stay_set (after_first_call true false) 5000
                   magic_learned_env 0 after_magic_learned 2000 PPP_LCP
                   NCP_CONF_REQ_SENT _) _); vm_compute; reflexivity.
Defined.

(** *** Sessions that the code creates and advances *)

Lemma state_transitions_return : forall v timeout now_,
  In (ppp_state (ppp v))
     [PPPS_DEAD; PPPS_ESTABLISH; PPPS_OPENED; PPPS_NETWORK; PPPS_TERMINATE] ->
  fst (fst (state_transitions v timeout now_)) <> None ->
  state_transitions v timeout now_ = (Some 1, v, timeout)
  /\ ppp_state (ppp v) = PPPS_TERMINATE.
Proof.
  intros v timeout now_ Hin Hret. unfold state_transitions in *.
  destruct (ppp_state (ppp v) =? PPPS_DEAD) eqn:E0.
  { destruct (case_ESTABLISH _ _ _). cbn in Hret. congruence. }
  destruct (ppp_state (ppp v) =? PPPS_ESTABLISH) eqn:E1.
  { destruct (case_ESTABLISH _ _ _). cbn in Hret. congruence. }
  destruct (ppp_state (ppp v) =? PPPS_OPENED) eqn:E2.
  { destruct (case_OPENED _ _ _). cbn in Hret. congruence. }
  destruct (ppp_state (ppp v) =? PPPS_NETWORK) eqn:E3.
  { cbn in Hret. congruence. }
  destruct (ppp_state (ppp v) =? PPPS_TERMINATE) eqn:E4.
  { apply Z.eqb_eq in E4. split; [ reflexivity | exact E4 ]. }
  exfalso. cbn [In] in Hin.
  destruct Hin as [H | [H | [H | [H | [H | []]]]]]; rewrite <- H in *;
    discriminate.
Qed.

Lemma reachable_expected : forall v, reachable v -> expected_session (ppp v).
Proof.
  induction 1 as [v e w4 w6 Hnew | v timeout env ret v' timeout' Hr IH Hstep
                  | v v' Hr IH Hsame].
  - rewrite Hnew. unfold expected_session. cbn. tauto.
  - pose proof (ppp_mainloop_writes v timeout env) as W. rewrite Hstep in W.
    eapply session_write_expected; eassumption.
  - rewrite Hsame. exact IH.
Qed.

(** X14.  A session that [openconnect_ppp_new] created and [ppp_mainloop]
    advanced is in one of the five states with a [case] of their own, has
    an outgoing asyncmap of zero and has either sent no options or both
    compressions; so the [switch] on the state returns in TERMINATE alone,
    with [vpninfo] untouched, and never by its [default] branch. *)
Theorem reachable_session_is_expected :
  forall v, reachable v ->
    expected_session (ppp v)
    /\ forall timeout now_,
         fst (fst (state_transitions v timeout now_)) <> None ->
         state_transitions v timeout now_ = (Some 1, v, timeout)
         /\ ppp_state (ppp v) = PPPS_TERMINATE.
Proof.
  intros v Hr. pose proof (reachable_expected v Hr) as P.
  split; [ exact P | ].
  intros timeout now_. apply state_transitions_return. apply P.
Qed.

(** The session after its first call. *)
Lemma reachable_session_is_expected_witness :
  expected_session (ppp (after_first_call true false)).
Proof.
  apply (reachable_session_is_expected (after_first_call true false)).
  apply (reach_mainloop (vpninfo_new PPP_ENCAP_F5 true false) 5000
           (mk_env 1000 false [] [idle; wrote 32] 0) 0 _ 5000).
  - apply (reach_new _ PPP_ENCAP_F5 true false). reflexivity.
  - vm_compute. reflexivity.
Defined.

(** X15.  In TERMINATE a call with an open transport returns 1 at once:
    nothing is read, nothing is written (a Terminate-Ack still queued
    stays queued) and [vpninfo] and the timeout are unchanged. *)
Theorem terminate_is_final :
  forall v timeout e,
    ssl_fd v <> -1 -> ppp_state (ppp v) = PPPS_TERMINATE ->
    ppp_mainloop v timeout e = Some (1, v, timeout).
Proof.
  intros v timeout e Hfd Hst. unfold ppp_mainloop, state_transitions.
  apply Z.eqb_neq in Hfd. rewrite Hfd, Hst. reflexivity.
Qed.

(** A session that a Terminate-Ack has ended. *)
Lemma terminate_is_final_witness :
  let v := snd (handle_config_packet (after_first_call true false) PPP_LCP
                  [TERMACK; 0x01; 0x00; 0x04] 4) in
  ppp_mainloop v 5000 (mk_env 1002 true [ReadBytes magic_request] [idle] 0)
  = Some (1, v, 5000).
Proof.
  cbv zeta.
  exact (terminate_is_final
           (snd (handle_config_packet (after_first_call true false) PPP_LCP
                   [TERMACK; 0x01; 0x00; 0x04] 4))
           5000 (mk_env 1002 true [ReadBytes magic_request] [idle] 0)
           ltac:(vm_compute; discriminate) ltac:(vm_compute; reflexivity)).
Defined.

(** X16.  What [openconnect_ppp_new] decides stays: in every session that the
    code creates and advances, the length of the outer header is 4 for F5
    and 0 otherwise, byte stuffing is on for F5 HDLC alone, and the three
    NCP identifiers are still zero. *)
Theorem reachable_setup :
  forall v, reachable v ->
    encap_len (ppp v) = (if encap (ppp v) =? PPP_ENCAP_F5 then 4 else 0)
    /\ hdlc (ppp v) = (encap (ppp v) =? PPP_ENCAP_F5_HDLC)
    /\ id (lcp (ppp v)) = 0 /\ id (ipcp (ppp v)) = 0 /\ id (ip6cp (ppp v)) = 0.
Proof.
  induction 1 as [v e w4 w6 Hnew | v timeout env ret v' timeout' Hr IH Hstep
                  | v v' Hr IH Hsame].
  - rewrite Hnew. cbn.
    destruct (Z.eqb_spec e PPP_ENCAP_F5) as [-> | N]; repeat split; reflexivity.
  - pose proof (ppp_mainloop_writes v timeout env) as W. rewrite Hstep in W.
    destruct (session_write_setup _ _ W) as [S [I1 [I2 I3]]].
    unfold session_setup in S. injection S as S1 S2 S3 _ _.
    rewrite S1, S2, S3, I1, I2, I3. exact IH.
  - rewrite Hsame. exact IH.
Qed.

(** The F5 session after its first call. *)
Lemma reachable_setup_witness :
  encap_len (ppp (after_first_call true false)) = 4.
Proof.
  refine (proj1 (reachable_setup (after_first_call true false) _)).
  apply (reach_mainloop (vpninfo_new PPP_ENCAP_F5 true false) 5000
           (mk_env 1000 false [] [idle; wrote 32] 0) 0 _ 5000).
  - apply (reach_new _ PPP_ENCAP_F5 true false). reflexivity.
  - vm_compute. reflexivity.
Defined.

(** ** NETWORK and the NCPs *)







(** ** State transitions, continued *)

Lemma flag_set_lor_other : forall x g flag,
  Z.land g flag = 0 -> flag_set (Z.lor x g) flag = flag_set x flag.
Proof.
  intros x g flag H. unfold flag_set.
  rewrite Z.land_lor_distr_l, H, Z.lor_0_r. reflexivity.
Qed.

Lemma both_acks_lor_req_sent : forall n,
  both_acks (set_state n (Z.lor (state n) NCP_CONF_REQ_SENT)) = both_acks n.
Proof.
  intro n. unfold both_acks. cbn [state set_state].
  rewrite !flag_set_lor_other by reflexivity. reflexivity.
Qed.

(** A request leaves the acknowledgements and the wishes of the session as
    they are. *)
Lemma session_after_request_acks : forall v proto,
  let s' := session_after_request v proto in
  want_ipv4 s' = want_ipv4 (ppp v) /\ want_ipv6 s' = want_ipv6 (ppp v)
  /\ both_acks (lcp s') = both_acks (lcp (ppp v))
  /\ both_acks (ipcp s') = both_acks (ipcp (ppp v))
  /\ both_acks (ip6cp s') = both_acks (ip6cp (ppp v)).
Proof.
  intros v proto. cbv zeta. unfold session_after_request, ncp_add_state.
  destruct (proto =? PPP_LCP); [ | destruct (proto =? PPP_IPCP);
    [ | destruct (proto =? PPP_IP6CP) ] ].
  - change (PPP_LCP =? PPP_LCP) with true. cbv iota.
    cbn [want_ipv4 want_ipv6 lcp ipcp ip6cp set_lcp set_out_lcp_opts
         set_out_lcp_magic set_out_asyncmap].
    rewrite both_acks_lor_req_sent. repeat split; reflexivity.
  - change (PPP_IPCP =? PPP_LCP) with false. change (PPP_IPCP =? PPP_IPCP) with true.
    cbv iota. destruct (ip_info_addr v);
      cbn [want_ipv4 want_ipv6 lcp ipcp ip6cp set_ipcp set_out_peer_addr];
      rewrite both_acks_lor_req_sent; repeat split; reflexivity.
  - change (PPP_IP6CP =? PPP_LCP) with false.
    change (PPP_IP6CP =? PPP_IPCP) with false.
    change (PPP_IP6CP =? PPP_IP6CP) with true. cbv iota.
    cbn [want_ipv4 want_ipv6 lcp ipcp ip6cp set_ip6cp set_out_ipv6_int_ident].
    rewrite both_acks_lor_req_sent. repeat split; reflexivity.
  - repeat split; reflexivity.
Qed.

Lemma all_configured_after_request : forall v f proto id_,
  want_ipv4 (f (ppp v)) = want_ipv4 (ppp v) ->
  want_ipv6 (f (ppp v)) = want_ipv6 (ppp v) ->
  both_acks (ipcp (f (ppp v))) = both_acks (ipcp (ppp v)) ->
  both_acks (ip6cp (f (ppp v))) = both_acks (ip6cp (ppp v)) ->
  ppp_state (f (ppp v)) = ppp_state (ppp v) ->
  let v' := snd (queue_config_request (upd_ppp f v) proto id_) in
  want_ipv4 (ppp v') = want_ipv4 (ppp v) /\ want_ipv6 (ppp v') = want_ipv6 (ppp v)
  /\ both_acks (ipcp (ppp v')) = both_acks (ipcp (ppp v))
  /\ both_acks (ip6cp (ppp v')) = both_acks (ip6cp (ppp v))
  /\ ppp_state (ppp v') = ppp_state (ppp v).
Proof.
  intros v f proto id_ H4 H6 Hi4 Hi6 Hst. cbv zeta.
  rewrite queue_config_request_ppp.
  destruct (session_after_request_acks (upd_ppp f v) proto) as [A [B [_ [C D]]]].
  rewrite A, B, C, D, session_after_request_ppp_state.
  change (ppp (upd_ppp f v)) with (f (ppp v)).
  repeat split; assumption.
Qed.

Lemma case_OPENED_state : forall v timeout now_,
  ppp_state (ppp (fst (case_OPENED v timeout now_)))
  = if all_configured (ppp v) then PPPS_NETWORK else ppp_state (ppp v).
Proof.
  intros v timeout now_. unfold case_OPENED, all_configured.
  set (r1 := if want_ipv4 (ppp v) && _ then _ else _).
  assert (K1 : want_ipv4 (ppp (fst r1)) = want_ipv4 (ppp v)
               /\ want_ipv6 (ppp (fst r1)) = want_ipv6 (ppp v)
               /\ both_acks (ipcp (ppp (fst r1))) = both_acks (ipcp (ppp v))
               /\ both_acks (ip6cp (ppp (fst r1))) = both_acks (ip6cp (ppp v))
               /\ ppp_state (ppp (fst r1)) = ppp_state (ppp v)).
  { subst r1.
    destruct (want_ipv4 (ppp v) && _); [ | repeat split; reflexivity ].
    destruct (ka_check_deadline _ _ _) as [[|] t]; [ | repeat split; reflexivity ].
    cbn [fst]. apply all_configured_after_request; reflexivity. }
  destruct r1 as [v1 t1]. cbn [fst] in K1.
  set (r2 := if want_ipv6 (ppp v1) && _ then _ else _).
  assert (K2 : want_ipv4 (ppp (fst r2)) = want_ipv4 (ppp v1)
               /\ want_ipv6 (ppp (fst r2)) = want_ipv6 (ppp v1)
               /\ both_acks (ipcp (ppp (fst r2))) = both_acks (ipcp (ppp v1))
               /\ both_acks (ip6cp (ppp (fst r2))) = both_acks (ip6cp (ppp v1))
               /\ ppp_state (ppp (fst r2)) = ppp_state (ppp v1)).
  { subst r2.
    destruct (want_ipv6 (ppp v1) && _); [ | repeat split; reflexivity ].
    destruct (ka_check_deadline _ _ _) as [[|] t]; [ | repeat split; reflexivity ].
    cbn [fst]. apply all_configured_after_request; reflexivity. }
  destruct r2 as [v2 t2]. cbn [fst] in K2.
  destruct K1 as [A1 [B1 [C1 [D1 E1]]]]. destruct K2 as [A2 [B2 [C2 [D2 E2]]]].
  rewrite A2, B2, C2, D2, A1, B1, C1, D1.
  destruct (_ && _); cbn [fst].
  - reflexivity.
  - rewrite E2, E1. reflexivity.
Qed.

(** X17.  From OPENED the session goes to NETWORK exactly when every NCP that
    is wanted had both acknowledgements when the call began; what the call
    itself requests makes no difference. *)
Theorem opened_to_network :
  forall v timeout now_,
    ppp_state (ppp v) = PPPS_OPENED ->
    fst (fst (state_transitions v timeout now_)) = None
    /\ ppp_state (ppp (snd (fst (state_transitions v timeout now_))))
       = if all_configured (ppp v) then PPPS_NETWORK else PPPS_OPENED.
Proof.
  intros v timeout now_ Hst. unfold state_transitions. rewrite Hst.
  change (PPPS_OPENED =? PPPS_DEAD) with false.
  change (PPPS_OPENED =? PPPS_ESTABLISH) with false.
  change (PPPS_OPENED =? PPPS_OPENED) with true. cbv iota.
  pose proof (case_OPENED_state v timeout now_) as H.
  destruct (case_OPENED v timeout now_) as [v' t]. cbn [fst snd] in *.
  rewrite Hst in H. split; [ reflexivity | exact H ].
Qed.

(** OPENED, IPv4 wanted and not yet acknowledged. *)
Lemma opened_to_network_witness :
  ppp_state (ppp (snd (fst (state_transitions
     (upd_ppp (fun s => set_ppp_state s PPPS_OPENED)
        (vpninfo_new PPP_ENCAP_F5 true false)) 5000 1000))))
  = PPPS_OPENED.
Proof.
  exact (proj2 (opened_to_network
                  (upd_ppp (fun s => set_ppp_state s PPPS_OPENED)
                     (vpninfo_new PPP_ENCAP_F5 true false)) 5000 1000 eq_refl)).
Defined.

(** The packet of a request: one more in the control queue, for the NCP
    asked for, with the code Configure-Request and the identifier given. *)
Lemma queue_config_request_queue : forall v proto id_,
  known_ncp proto = true ->
  exists p,
    tcp_control_queue (snd (queue_config_request v proto id_))
    = tcp_control_queue v ++ [p]
    /\ pkt_proto p = proto
    /\ byte_at (pkt_data p) 0 = CONFREQ
    /\ byte_at (pkt_data p) 1 = u8 id_.
Proof.
  intros v proto id_ Hk. unfold known_ncp in Hk.
  unfold queue_config_request, queue_config_packet, queue_packet.
  names v.
  assert (Hb : forall (k : Z) (rest : list Z),
            byte_at ([u8 CONFREQ; u8 k] ++ rest) 0 = CONFREQ
            /\ byte_at ([u8 CONFREQ; u8 k] ++ rest) 1 = u8 k).
  { intros k rest. unfold byte_at. cbn [app].
    change (Z.to_nat 0) with 0%nat. change (Z.to_nat 1) with 1%nat. cbn [nth].
    rewrite !u8_idem. split; reflexivity. }
  destruct (Z.eqb_spec proto PPP_LCP) as [-> | N1].
  { destruct mtu; cbv zeta; change (0 >=? 0) with true; cbv iota;
      eexists; (split; [ reflexivity | ]); (split; [ reflexivity | ]);
      apply Hb. }
  destruct (Z.eqb_spec proto PPP_IPCP) as [-> | N2].
  { destruct a4; cbv zeta; change (0 >=? 0) with true; cbv iota;
      eexists; (split; [ reflexivity | ]); (split; [ reflexivity | ]);
      apply Hb. }
  destruct (Z.eqb_spec proto PPP_IP6CP) as [-> | N3]; [ | discriminate Hk ].
  cbv zeta; change (0 >=? 0) with true; cbv iota;
    eexists; (split; [ reflexivity | ]); (split; [ reflexivity | ]);
    apply Hb.
Qed.

(** X18.  In ESTABLISH without both LCP acknowledgements, once three seconds
    have passed since the last request, the call queues one LCP
    Configure-Request with identifier 1, notes the time and leaves the
    [switch]: the state stays ESTABLISH and neither IPCP nor IP6CP is
    touched. *)
Theorem lcp_request_retransmitted :
  forall v timeout now_,
    ppp_state (ppp v) = PPPS_ESTABLISH ->
    both_acks (lcp (ppp v)) = false ->
    last_req (lcp (ppp v)) + 3 <= now_ ->
    let r := state_transitions v timeout now_ in
    let v' := snd (fst r) in
    fst (fst r) = None /\ snd r = timeout
    /\ ppp_state (ppp v') = PPPS_ESTABLISH
    /\ last_req (lcp (ppp v')) = now_
    /\ state (lcp (ppp v')) = Z.lor (state (lcp (ppp v))) NCP_CONF_REQ_SENT
    /\ ipcp (ppp v') = ipcp (ppp v) /\ ip6cp (ppp v') = ip6cp (ppp v)
    /\ exists p,
         tcp_control_queue v' = tcp_control_queue v ++ [p]
         /\ pkt_proto p = PPP_LCP
         /\ byte_at (pkt_data p) 0 = CONFREQ
         /\ byte_at (pkt_data p) 1 = 1.
Proof.
  intros v timeout now_ Hst Hacks Hdue r v'. subst v' r.
  unfold state_transitions. rewrite Hst.
  change (PPPS_ESTABLISH =? PPPS_DEAD) with false.
  change (PPPS_ESTABLISH =? PPPS_ESTABLISH) with true. cbv iota.
  unfold case_ESTABLISH.
  unfold both_acks in Hacks. rewrite andb_comm in Hacks. rewrite Hacks.
  unfold ka_check_deadline.
  assert (Hge : (now_ >=? last_req (lcp (ppp v)) + 3) = true)
    by (apply Z.geb_le; exact Hdue).
  rewrite Hge. cbn [fst snd].
  set (v1 := upd_ppp (fun s => set_lcp s (set_last_req (lcp s) now_)) v).
  pose proof (queue_config_request_ppp v1 PPP_LCP 1) as Hp.
  destruct (queue_config_request_queue v1 PPP_LCP 1 eq_refl) as [p [Hq [H1 [H2 H3]]]].
  rewrite Hp. unfold session_after_request.
  change (PPP_LCP =? PPP_LCP) with true. cbv iota.
  split; [ reflexivity | ]. split; [ reflexivity | ].
  split; [ exact Hst | ]. split; [ reflexivity | ].
  split; [ reflexivity | ]. split; [ reflexivity | ]. split; [ reflexivity | ].
  exists p. rewrite Hq. repeat split; assumption.
Qed.

(** The session that has acknowledged the peer's request, two seconds
    later. *)
Lemma lcp_request_retransmitted_witness :
  last_req (lcp (ppp (snd (fst (state_transitions after_magic_learned 5000 1003)))))
  = 1003.
Proof.
  exact (proj1 (proj2 (proj2 (proj2
           (lcp_request_retransmitted after_magic_learned 5000 1003
              ltac:(vm_compute; reflexivity) ltac:(vm_compute; reflexivity)
              ltac:(vm_compute; discriminate)))))).
Defined.

(** ** From the sender's header to the receiver's parser *)

(** X19.  The header that one side writes in front of a packet is read
    back by the other: for each protocol the mainloop sends, and for
    receiver options that allow every compression the sender uses, the
    parser finds the protocol and consumes exactly the header, whatever
    follows it. *)
Theorem header_round_trip :
  forall s opts proto rest,
    In proto sent_protocols ->
    (flag_set (out_lcp_opts s) ACCOMP = true -> flag_set opts ACCOMP = true) ->
    (flag_set (out_lcp_opts s) PFCOMP = true -> flag_set opts PFCOMP = true) ->
    parse_ppp_header opts (ppp_header s proto ++ rest)
    = Some (proto, Z.of_nat (List.length (ppp_header s proto))).
Proof.
  intros s opts proto rest Hin Ha Hp.
  unfold parse_ppp_header, ppp_header.
  destruct (flag_set (out_lcp_opts s) ACCOMP);
    destruct (flag_set (out_lcp_opts s) PFCOMP);
    destruct (flag_set opts ACCOMP);
    destruct (flag_set opts PFCOMP);
    try (specialize (Ha eq_refl); discriminate Ha);
    try (specialize (Hp eq_refl); discriminate Hp);
    clear Ha Hp;
    unfold sent_protocols in Hin; cbn [In] in Hin;
    destruct Hin as [<- | [<- | [<- | [<- | [<- | []]]]]];
    reflexivity.
Qed.

(** An IPv4 packet under both compressions: one header byte. *)
Lemma header_round_trip_witness :
  parse_ppp_header 3 (ppp_header (ppp after_magic_learned) PPP_IP ++ [0x45; 0x00])
  = Some (PPP_IP, 1).
Proof.
  exact (header_round_trip (ppp after_magic_learned) 3 PPP_IP [0x45; 0x00]
           ltac:(vm_compute; tauto) ltac:(intros _; reflexivity)
           ltac:(intros _; reflexivity)).
Defined.








(** ** Reading without the F5 encapsulation *)

(** The [switch] on the state goes on to the read loop from the four
    states before TERMINATE. *)
Lemma state_transitions_goes_on : forall v timeout now_,
  In (ppp_state (ppp v)) [PPPS_DEAD; PPPS_ESTABLISH; PPPS_OPENED; PPPS_NETWORK] ->
  fst (fst (state_transitions v timeout now_)) = None.
Proof.
  intros v timeout now_ Hin. unfold state_transitions.
  cbn [In] in Hin.
  destruct Hin as [H | [H | [H | [H | []]]]]; rewrite <- H.
  - change (PPPS_DEAD =? PPPS_DEAD) with true. cbv iota.
    destruct (case_ESTABLISH _ _ _). reflexivity.
  - change (PPPS_ESTABLISH =? PPPS_DEAD) with false.
    change (PPPS_ESTABLISH =? PPPS_ESTABLISH) with true. cbv iota.
    destruct (case_ESTABLISH _ _ _). reflexivity.
  - change (PPPS_OPENED =? PPPS_DEAD) with false.
    change (PPPS_OPENED =? PPPS_ESTABLISH) with false.
    change (PPPS_OPENED =? PPPS_OPENED) with true. cbv iota.
    destruct (case_OPENED _ _ _). reflexivity.
  - reflexivity.
Qed.

(** X21.  A session whose encapsulation is not F5 (the F5 HDLC one, for
    instance) cannot receive: the first bytes that a call reads end it,
    with "Short packet received" and 1 for fewer than 8 bytes and with
    "Invalid encapsulation" and [-EINVAL] otherwise, whatever the bytes
    are. *)
Theorem read_off_f5_is_fatal :
  forall v timeout e b buf rest,
    ssl_fd v <> -1 -> encap (ppp v) <> PPP_ENCAP_F5 ->
    In (ppp_state (ppp v)) [PPPS_DEAD; PPPS_ESTABLISH; PPPS_OPENED; PPPS_NETWORK] ->
    readable e = true -> reads e = ReadBytes (b :: buf) :: rest ->
    exists v' timeout',
      ppp_mainloop v timeout e
      = Some (if Z.of_nat (List.length (b :: buf)) <? 8 then 1 else - EINVAL,
              v', timeout')
      /\ quit_reason v'
         = Some (ReasonText (if Z.of_nat (List.length (b :: buf)) <? 8
                             then "Short packet received"
                             else "Invalid encapsulation")).
Proof.
  intros v timeout e b buf rest Hfd Henc Hst Hr Hreads.
  unfold ppp_mainloop. apply Z.eqb_neq in Hfd. rewrite Hfd.
  pose proof (state_transitions_goes_on v timeout (now e) Hst) as Hnone.
  pose proof (state_transitions_keeps v timeout (now e)) as [K _].
  destruct (state_transitions v timeout (now e)) as [[r v1] t].
  cbn [fst snd] in Hnone, K. subst r.
  assert (Henc1 : (encap (ppp v1) =? PPP_ENCAP_F5) = false).
  { apply Z.eqb_neq. unfold session_kind in K. injection K as K _.
    rewrite K. exact Henc. }
  rewrite Hr, Hreads.
  change (rx_loop (ReadBytes (b :: buf) :: rest) v1 (now e) 0)
    with (match rx_frame v1 (now e) 0 (b :: buf) with
          | RxContinue v' wd => rx_loop rest v' (now e) wd
          | RxReturn ret v' => RxReturned ret v'
          end).
  unfold rx_frame. cbv zeta. rewrite Henc1.
  destruct (Z.of_nat (List.length (b :: buf)) <? 8);
    eexists; eexists; split; reflexivity.
Qed.

(** An F5 HDLC session reads a well-formed F5 frame. *)
Lemma read_off_f5_is_fatal_witness :
  exists v' timeout',
    ppp_mainloop (vpninfo_new PPP_ENCAP_F5_HDLC true false) 5000
      (mk_env 1000 true [ReadBytes magic_request] [idle] 0)
    = Some (- EINVAL, v', timeout')
    /\ quit_reason v' = Some (ReasonText "Invalid encapsulation").
Proof.
  exact (read_off_f5_is_fatal (vpninfo_new PPP_ENCAP_F5_HDLC true false) 5000
           (mk_env 1000 true [ReadBytes magic_request] [idle] 0)
           0xf5 (tl magic_request) [] ltac:(vm_compute; discriminate)
           ltac:(vm_compute; discriminate) ltac:(vm_compute; tauto)
           eq_refl eq_refl).
Defined.

(** ** Writing and keepalive *)

(** X22.  A write of the retained packet that returns neither an error nor
    the full length ends the session with "Internal error"; so does a write
    that would block (0 bytes), unless the stall has lasted long enough for
    dead peer detection.  The packet stays retained.  After a write of one
    byte or more the timeout is the one the call was given; after a write
    that would block [ka_stalled_action] has had the timeout in its hands,
    and nothing is said of it. *)
Theorem short_write_is_fatal :
  forall v timeout e o os p,
    ssl_fd v <> -1 -> ppp_state (ppp v) = PPPS_NETWORK -> readable e = false ->
    current_ssl_pkt v = Some p -> tx e = o :: os ->
    0 <= wr_ret o -> wr_ret o <> pkt_len p + pkt_hlen p ->
    (wr_ret o = 0 -> stalled o <> KA_DPD_DEAD) ->
    exists timeout',
      ppp_mainloop v timeout e
      = Some (1, set_quit_reason (set_last_tx v (now e))
                   (Some (ReasonText "Internal error")), timeout')
      /\ (0 < wr_ret o -> timeout' = timeout).
Proof.
  intros v timeout e o os p Hfd Hst Hr Hcur Htx Hge Hne Hstall.
  exists timeout. split; [ | intros _; reflexivity ].
  unfold ppp_mainloop, state_transitions.
  apply Z.eqb_neq in Hfd. rewrite Hfd, Hst, Hr, Htx.
  change (PPPS_NETWORK =? PPPS_DEAD) with false.
  change (PPPS_NETWORK =? PPPS_ESTABLISH) with false.
  change (PPPS_NETWORK =? PPPS_OPENED) with false.
  change (PPPS_NETWORK =? PPPS_NETWORK) with true. cbv iota.
  cbn [tx_loop]. rewrite Hcur. unfold handle_outgoing. cbv zeta.
  assert (H1 : (wr_ret o <? 0) = false) by (apply Z.ltb_ge; exact Hge).
  assert (H2 : (wr_ret o =? pkt_len p + pkt_hlen p) = false)
    by (apply Z.eqb_neq; exact Hne).
  assert (H3 : (wr_ret o =? 0)
               && match stalled o with KA_DPD_DEAD => true | _ => false end = false).
  { destruct (Z.eqb_spec (wr_ret o) 0) as [E | E]; [ | reflexivity ].
    specialize (Hstall E). destruct (stalled o); try reflexivity. contradiction. }
  rewrite H1, H3, H2. reflexivity.
Qed.

(** A write that would block, with no stall detected. *)
Lemma short_write_is_fatal_witness :
  let v := upd_ppp (fun s => set_ppp_state s PPPS_NETWORK)
             (set_current_ssl_pkt (vpninfo_new PPP_ENCAP_F5 true false)
                (Some (mk_pkt PPP_LCP 8 8 [] []))) in
  exists timeout',
    ppp_mainloop v 5000 (mk_env 1000 false [] [idle] 0)
    = Some (1, set_quit_reason (set_last_tx v 1000)
                 (Some (ReasonText "Internal error")), timeout').
Proof.
  cbv zeta.
  destruct (short_write_is_fatal
              (upd_ppp (fun s => set_ppp_state s PPPS_NETWORK)
                 (set_current_ssl_pkt (vpninfo_new PPP_ENCAP_F5 true false)
                    (Some (mk_pkt PPP_LCP 8 8 [] []))))
              5000 (mk_env 1000 false [] [idle] 0) idle [] (mk_pkt PPP_LCP 8 8 [] [])
              ltac:(vm_compute; discriminate) eq_refl eq_refl eq_refl eq_refl
              ltac:(vm_compute; discriminate) ltac:(vm_compute; discriminate)
              ltac:(intros _ H; discriminate H)) as [t [H _]].
  exists t. exact H.
Defined.

(** X23.  Dead peer detection and keepalive on an idle F5 session: with nothing
    retained and nothing queued, the round builds an LCP Echo-Request that
    carries the outgoing magic (DPD) or an empty LCP Discard-Request
    (keepalive), numbers it with [util_id], which then advances modulo 256,
    and puts the full LCP header and the F5 wrapper in front. *)
Theorem keepalive_packet_on_wire :
  forall v o os now_ work_done rr,
    encap (ppp v) = PPP_ENCAP_F5 ->
    current_ssl_pkt v = None -> tcp_control_queue v = [] -> outgoing_queue v = [] ->
    ka o = KA_DPD \/ ka o = KA_KEEPALIVE ->
    exists v' p,
      tx_loop (o :: os) v now_ work_done rr = tx_loop os v' now_ work_done rr
      /\ current_ssl_pkt v' = Some p
      /\ wire_bytes p
         = match ka o with
           | KA_DPD =>
             [0xf5; 0x00; 0x00; 12; 0xff; 0x03; 0xc0; 0x21;
              ECHOREQ; u8 (util_id (ppp v)); 0; 8]
             ++ store_be32 (out_lcp_magic (ppp v))
           | _ =>
             [0xf5; 0x00; 0x00; 8; 0xff; 0x03; 0xc0; 0x21;
              DISCREQ; u8 (util_id (ppp v)); 0; 4]
           end
      /\ Z.of_nat (List.length (wire_bytes p)) = pkt_len p + pkt_hlen p
      /\ util_id (ppp v') = u8 (util_id (ppp v) + 1)
      /\ tcp_control_queue v' = [].
Proof.
  intros v o os now_ work_done rr He Hcur Hcq Hoq Hka.
  names v. cbn [ppp encap current_ssl_pkt tcp_control_queue outgoing_queue] in *.
  subst en cur cq oq. cbn [tx_loop current_ssl_pkt].
  destruct Hka as [Hka | Hka]; rewrite Hka.
  - eexists. eexists. split; [ reflexivity | ].
    split; [ reflexivity | ].
    cbn [ppp util_id out_lcp_magic].
    split; [ lazy -[u8 Z.shiftr Z.add]; reflexivity | ].
    split; [ lazy -[u8 Z.shiftr Z.add]; reflexivity | ].
    split; reflexivity.
  - unfold keepalive_switch. cbn [tcp_control_queue outgoing_queue].
    rewrite andb_false_r. cbv iota.
    eexists. eexists. split; [ reflexivity | ].
    split; [ reflexivity | ].
    cbn [ppp util_id out_lcp_magic].
    split; [ lazy -[u8 Z.shiftr Z.add]; reflexivity | ].
    split; [ lazy -[u8 Z.shiftr Z.add]; reflexivity | ].
    split; reflexivity.
Qed.

(** Dead peer detection on the session that has sent its LCP request: the
    outgoing magic is the complement of zero. *)
Lemma keepalive_packet_on_wire_witness :
  exists v' p,
    tx_loop [mk_tx_oracle 0 KA_NONE KA_DPD; idle] after_magic_learned 1002 0 0
    = tx_loop [idle] v' 1002 0 0
    /\ current_ssl_pkt v' = Some p
    /\ wire_bytes p
       = [0xf5; 0x00; 0x00; 12; 0xff; 0x03; 0xc0; 0x21; ECHOREQ; 0; 0; 8;
          0xff; 0xff; 0xff; 0xff].
Proof.
  destruct (keepalive_packet_on_wire after_magic_learned
              (mk_tx_oracle 0 KA_NONE KA_DPD) [idle] 1002 0 0
              ltac:(vm_compute; reflexivity) ltac:(vm_compute; reflexivity)
              ltac:(vm_compute; reflexivity) ltac:(vm_compute; reflexivity)
              (or_introl eq_refl)) as [v' [p [H1 [H2 [H3 _]]]]].
  exists v', p. split; [ exact H1 | ]. split; [ exact H2 | ].
  rewrite H3. vm_compute. reflexivity.
Defined.

(** ** Reconnecting *)

Lemma state_transitions_network : forall v timeout now_,
  ppp_state (ppp v) = PPPS_NETWORK ->
  state_transitions v timeout now_ = (None, v, timeout).
Proof.
  intros v timeout now_ Hst. unfold state_transitions. rewrite Hst. reflexivity.
Qed.

(** X25.  A call that finds the transport closed, in whatever state (also
    in TERMINATE, for the test comes first), and a call in NETWORK that
    meets a read error, a write error, a dead peer or a rekey, end in
    [ssl_reconnect] and return by its result alone: 1 when it returns 0,
    and otherwise its result, with the quit reason "PPP reconnect failed".
    Nothing is said of what [ssl_reconnect] leaves of the session, nor of
    the timeout. *)
Theorem reconnect_result :
  forall v timeout e,
    ssl_fd v = -1 \/ (ssl_fd v <> -1 /\ reconnect_path v e) ->
    exists v' timeout',
      ppp_mainloop v timeout e
      = Some (if reconnect_ret e =? 0 then 1 else reconnect_ret e, v', timeout')
      /\ (reconnect_ret e <> 0 ->
          quit_reason v' = Some (ReasonText "PPP reconnect failed")).
Proof.
  intros v timeout e H.
  assert (Hdo : forall v0,
            exists v',
              Some (fst (do_reconnect v0 (reconnect_ret e)),
                    snd (do_reconnect v0 (reconnect_ret e)), timeout)
              = Some (if reconnect_ret e =? 0 then 1 else reconnect_ret e, v', timeout)
              /\ (reconnect_ret e <> 0 ->
                  quit_reason v' = Some (ReasonText "PPP reconnect failed"))).
  { intro v0. unfold do_reconnect.
    destruct (Z.eqb_spec (reconnect_ret e) 0) as [E | E]; cbn [negb fst snd];
      eexists; (split; [ reflexivity | ]); intro Hn;
      [ contradiction | reflexivity ]. }
  unfold ppp_mainloop.
  destruct H as [Hfd | [Hfd [Hst Hpath]]].
  - rewrite Hfd. change (-1 =? -1) with true. cbv iota.
    destruct (Hdo v) as [v' Hv'].
    destruct (do_reconnect v (reconnect_ret e)) as [r w].
    cbn [fst snd] in Hv'. exists v', timeout. exact Hv'.
  - apply Z.eqb_neq in Hfd. rewrite Hfd.
    rewrite (state_transitions_network v timeout (now e) Hst).
    destruct Hpath as [[Hr [rest Hreads]] | [Hr [o [os [Htx Hcase]]]]].
    + rewrite Hr, Hreads. cbn [rx_loop].
      destruct (Hdo v) as [v' Hv'].
      destruct (do_reconnect v (reconnect_ret e)) as [r w].
      cbn [fst snd] in Hv'. exists v', timeout. exact Hv'.
    + rewrite Hr, Htx. cbn [tx_loop].
      destruct Hcase as [[p [Hcur Hw]] | [Hcur Hka]]; rewrite Hcur.
      * assert (Hout : handle_outgoing v (now e) p o
                       = TxReconnect (set_last_tx v (now e))).
        { unfold handle_outgoing.
          destruct Hw as [Hneg | [H0 Hdead]].
          - assert (E : (wr_ret o <? 0) = true) by (apply Z.ltb_lt; exact Hneg).
            rewrite E. reflexivity.
          - rewrite H0, Hdead. reflexivity. }
        rewrite Hout.
        destruct (Hdo (set_last_tx v (now e))) as [v' Hv'].
        destruct (do_reconnect (set_last_tx v (now e)) (reconnect_ret e)) as [r w].
        cbn [fst snd] in Hv'. exists v', timeout. exact Hv'.
      * assert (Hk : keepalive_switch v (ka o) = None)
          by (destruct Hka as [E | E]; rewrite E; reflexivity).
        rewrite Hk.
        destruct (Hdo v) as [v' Hv'].
        destruct (do_reconnect v (reconnect_ret e)) as [r w].
        cbn [fst snd] in Hv'. exists v', timeout. exact Hv'.
Qed.

(** A terminated session whose transport is closed, and a reconnect that
    fails with -5. *)
Lemma reconnect_result_witness :
  let v := set_ppp
             (mk_info (openconnect_ppp_new PPP_ENCAP_F5 true false) 0 None None None
                [] [] [] None 0 0 false (-1))
             (set_ppp_state (openconnect_ppp_new PPP_ENCAP_F5 true false)
                PPPS_TERMINATE) in
  exists v' timeout',
    ppp_mainloop v 5000 (mk_env 1000 false [] [] (-5)) = Some (-5, v', timeout')
    /\ quit_reason v' = Some (ReasonText "PPP reconnect failed").
Proof.
  cbv zeta.
  destruct (reconnect_result
              (set_ppp
                 (mk_info (openconnect_ppp_new PPP_ENCAP_F5 true false) 0 None None
                    None [] [] [] None 0 0 false (-1))
                 (set_ppp_state (openconnect_ppp_new PPP_ENCAP_F5 true false)
                    PPPS_TERMINATE))
              5000 (mk_env 1000 false [] [] (-5)) (or_introl eq_refl))
    as [v' [t [H1 H2]]].
  exists v', t. split; [ exact H1 | ].
  apply H2. vm_compute. discriminate.
Defined.

(** ** Data packets *)

(** X26.  Data is sent in NETWORK and without DTLS only: with nothing
    retained, an empty control queue and no keepalive due, a round of the
    transmit part in any other state, or with DTLS connected, returns
    [work_done] and leaves [vpninfo], the outgoing queue included, as it
    is. *)
Theorem data_waits_for_network :
  forall v o os now_ work_done rr,
    current_ssl_pkt v = None -> tcp_control_queue v = [] -> ka o = KA_NONE ->
    dtls_connected v = true \/ ppp_state (ppp v) <> PPPS_NETWORK ->
    tx_loop (o :: os) v now_ work_done rr = Some (work_done, v).
Proof.
  intros v o os now_ work_done rr Hcur Hcq Hka Hwait.
  cbn [tx_loop]. rewrite Hcur, Hka. cbn [keepalive_switch].
  unfold next_outgoing. rewrite Hcq.
  assert (Hc : negb (dtls_connected v) && (ppp_state (ppp v) =? PPPS_NETWORK) = false).
  { destruct Hwait as [Hd | Hs].
    - rewrite Hd. reflexivity.
    - apply Z.eqb_neq in Hs. rewrite Hs. apply andb_false_r. }
  rewrite Hc.
  destruct v. cbn in Hcur. subst. reflexivity.
Qed.

(** The session in ESTABLISH with a data packet waiting. *)
Lemma data_waits_for_network_witness :
  let v := set_outgoing_queue (after_first_call true false)
             [mk_pkt 0 0 4 [] [0x45; 0x00; 0x00; 0x04]] in
  tx_loop [idle] v 1001 0 0 = Some (0, v).
Proof.
  cbv zeta. apply data_waits_for_network.
  - vm_compute. reflexivity.
  - vm_compute. reflexivity.
  - reflexivity.
  - right. vm_compute. discriminate.
Defined.

(** X27.  In NETWORK without DTLS, with nothing retained, an empty control
    queue and no keepalive due, the transmit part takes the head of the
    outgoing queue and sends it as IPv6 exactly when it is not empty and
    the upper half of its first byte is 6, and as IPv4 in every other
    case; the packet is retained with the headers for that protocol in
    front and the rest of the queue stays. *)
Theorem data_packet_classified :
  forall v o os now_ work_done rr p q,
    current_ssl_pkt v = None -> tcp_control_queue v = [] -> ka o = KA_NONE ->
    dtls_connected v = false -> ppp_state (ppp v) = PPPS_NETWORK ->
    outgoing_queue v = p :: q ->
    let proto := if negb (pkt_len p =? 0)
                    && (Z.land (byte_at (pkt_data p) 0) 0xf0 =? 0x60)
                 then PPP_IP6 else PPP_IP in
    exists v',
      tx_loop (o :: os) v now_ work_done rr = tx_loop os v' now_ work_done rr
      /\ current_ssl_pkt v' = Some (prepend_headers (ppp v) proto p)
      /\ outgoing_queue v' = q
      /\ tcp_control_queue v' = []
      /\ ppp v' = ppp v.
Proof.
  intros v o os now_ work_done rr p q Hcur Hcq Hka Hd Hst Hoq proto. subst proto.
  cbn [tx_loop]. rewrite Hcur, Hka. cbn [keepalive_switch].
  unfold next_outgoing. rewrite Hcq, Hd, Hst, Hoq.
  change (negb false && (PPPS_NETWORK =? PPPS_NETWORK)) with true. cbv iota zeta.
  eexists. split; [ reflexivity | ].
  split; [ reflexivity | ]. split; [ reflexivity | ].
  split; [ exact Hcq | reflexivity ].
Qed.

(** An IPv6 packet and an empty one. *)
Lemma data_packet_classified_witness :
  let v := upd_ppp (fun s => set_ppp_state s PPPS_NETWORK)
             (set_outgoing_queue (after_first_call true false)
                [mk_pkt 0 0 2 [] [0x60; 0x00]; mk_pkt 0 0 0 [] [0x60]]) in
  exists v',
    tx_loop [idle; idle] v 1001 0 0 = tx_loop [idle] v' 1001 0 0
    /\ current_ssl_pkt v'
       = Some (prepend_headers (ppp v) PPP_IP6 (mk_pkt 0 0 2 [] [0x60; 0x00])).
Proof.
  cbv zeta.
  destruct (data_packet_classified
              (upd_ppp (fun s => set_ppp_state s PPPS_NETWORK)
                 (set_outgoing_queue (after_first_call true false)
                    [mk_pkt 0 0 2 [] [0x60; 0x00]; mk_pkt 0 0 0 [] [0x60]]))
              idle [idle] 1001 0 0 (mk_pkt 0 0 2 [] [0x60; 0x00])
              [mk_pkt 0 0 0 [] [0x60]]
              ltac:(vm_compute; reflexivity) ltac:(vm_compute; reflexivity) eq_refl
              ltac:(vm_compute; reflexivity) ltac:(vm_compute; reflexivity)
              ltac:(vm_compute; reflexivity)) as [v' [H1 [H2 _]]].
  exists v'. split; [ exact H1 | exact H2 ].
Defined.
